(** * ACMI parser and trajectory sampler: a shallow embedding

    The development follows the TypeScript sources of the library, the
    ones its [index.ts] exports:

    - [parser.ts] (src/unnamed/part_002, class [AcmiParser]): header
      check, line scanner, record decoder, finalisation of the time spans;
    - [acmiData.ts] (classes [TimeSpan], [GlobalProperties],
      [EntityProps], [Frame], [AcmiData]): the data model, [getFrame],
      [_addFrame] and [createSampledTrajectories];
    - [trajectory.ts] (class [Trajectory]): the roll smoother
      [_simpleSmooth];

    and, where the older sources kept in the tree differ on a point that
    matters here:

    - [acmi/transform.ts] (class [Transform]) with the older parser
      (src/unnamed/part_003): the older transform decoder;
    - the older trajectory (src/unnamed/part_001): its [_simpleSmooth];
    - the older data (src/unnamed/part_005): [_searchFrameIndex].

    Conventions.

    - A JavaScript [number] is an IEEE-754 binary64 value: Rocq's primitive
      [float].  Comparisons are the IEEE ones ([===] is [PrimFloat.eqb],
      so NaN differs from itself).
    - A [Uint8Array] is a [list byte].  A JavaScript string is a [string]
      holding its UTF-8 bytes; [TextDecoder.decode] removes a leading
      byte-order mark and is otherwise the identity.  This is exact for
      ASCII buffers (optionally starting with a byte-order mark), which is
      what the ACMI text format uses for everything the parser looks at.
    - A [Map] is an association list in insertion order.
    - A thrown exception is [None]; the parser only throws when a [T=]
      value has fewer than three slots.
    - Facilities of the JavaScript host that are not code of this
      repository are section variables: the unary plus on strings
      ([toNumber]), the date parser of dayjs ([dayjs]), the zip extractor
      ([unzip]) and, for the sampler, the Cesium geometry.  Module [Host]
      gives concrete instances for evaluating scenarios. *)

From Stdlib Require Import ZArith List String Ascii Bool Lia.
From Stdlib Require Import Floats Strings.Byte.
Import ListNotations.

Local Open Scope string_scope.
Local Open Scope list_scope.

(** ** Strings *)

Module Str.

(** [s.startsWith(p)] *)
Definition startsWith (s p : string) : bool := String.prefix p s.

(** [s.slice(n)] for [0 <= n] *)
Fixpoint sliceFrom (n : nat) (s : string) : string :=
  match n, s with
  | O, _ => s
  | S _, EmptyString => EmptyString
  | S n', String _ r => sliceFrom n' r
  end.

(** [s.slice(0, n)] for [0 <= n] *)
Fixpoint sliceTo (n : nat) (s : string) : string :=
  match n, s with
  | O, _ => EmptyString
  | S _, EmptyString => EmptyString
  | S n', String c r => String c (sliceTo n' r)
  end.

(** [s.endsWith(p)] *)
Definition endsWith (s p : string) : bool :=
  (String.length p <=? String.length s)%nat
  && String.eqb (sliceFrom (String.length s - String.length p) s) p.

(** [s.indexOf(c)] for a single character; [None] stands for [-1]. *)
Fixpoint indexOf (c : ascii) (s : string) : option nat :=
  match s with
  | EmptyString => None
  | String d r =>
      if Ascii.eqb d c then Some O
      else match indexOf c r with
           | Some i => Some (S i)
           | None => None
           end
  end.

Definition consHead (c : ascii) (l : list string) : list string :=
  match l with
  | h :: t => String c h :: t
  | [] => [String c EmptyString]
  end.

(** [s.split(sep)] for a single-character separator. *)
Fixpoint split (sep : ascii) (s : string) : list string :=
  match s with
  | EmptyString => [EmptyString]
  | String c r =>
      if Ascii.eqb c sep then EmptyString :: split sep r
      else consHead c (split sep r)
  end.

(** [s.split(/(?<!\\),/)]: split at every comma that is not preceded by
    a backslash.  [prev] tells whether the previous character of the
    whole string is a backslash. *)
Fixpoint splitUnescaped (prev : bool) (s : string) : list string :=
  match s with
  | EmptyString => [EmptyString]
  | String c r =>
      if Ascii.eqb c "," && negb prev then EmptyString :: splitUnescaped false r
      else consHead c (splitUnescaped (Ascii.eqb c "\") r)
  end.

Definition isWhiteSpace (c : ascii) : bool :=
  match nat_of_ascii c with
  | 9 | 10 | 11 | 12 | 13 | 32 => true
  | _ => false
  end.

Fixpoint trimStart (s : string) : string :=
  match s with
  | EmptyString => EmptyString
  | String c r => if isWhiteSpace c then trimStart r else s
  end.

Definition rev (s : string) : string :=
  string_of_list_ascii (List.rev (list_ascii_of_string s)).

(** [s.trim()], for the six ASCII white-space characters; the Unicode
    spaces [trim] strips as well (U+00A0, U+FEFF, U+2028, ...) are taken
    for ordinary characters. *)
Definition trim (s : string) : string := rev (trimStart (rev (trimStart s))).

End Str.

(** ** Numbers *)

Module Num.

Definition zero : float := PrimFloat.zero.
Definition nan : float := PrimFloat.nan.

Definition isNaN (x : float) : bool := negb (PrimFloat.eqb x x).

(** [a === b] and [a !== b] on numbers. *)
Definition strictEq (a b : float) : bool := PrimFloat.eqb a b.
Definition strictNe (a b : float) : bool := negb (PrimFloat.eqb a b).

(** The number nearest to an integer (ties to even). *)
Definition ofZ (z : Z) : float := SF2Prim (binary_normalize prec emax z 0 false).

(** The integer part of a finite number, rounding toward zero. *)
Definition truncZ (x : float) : option Z :=
  match Prim2SF x with
  | S754_zero _ => Some 0%Z
  | S754_finite s m e =>
      let a := if (0 <=? e)%Z then Z.shiftl (Z.pos m) e
               else Z.shiftr (Z.pos m) (- e) in
      Some (if s then (- a)%Z else a)
  | S754_infinity _ => None
  | S754_nan => None
  end.

End Num.

(** ** dayjs instants

    A [Dayjs] object wraps a [Date], whose state is its time value: a
    number of milliseconds since the epoch, integral, or NaN for an
    invalid date.  The operations are those of the dayjs package on the
    millisecond and second units, which do not depend on the time zone. *)

Module Dj.

Definition Dayjs : Type := float.

(** [dayjs(null)] *)
Definition invalid : Dayjs := Num.nan.

(** [d.isValid()] *)
Definition isValid (d : Dayjs) : bool := negb (Num.isNaN d).

(** [TimeClip] of the [Date] constructor. *)
Definition timeClip (t : float) : float :=
  match Num.truncZ t with
  | None => Num.nan
  | Some z => if (8640000000000000 <? Z.abs z)%Z then Num.nan else Num.ofZ z
  end.

(** [d.add(n, "second")]: [new Date(d.getTime() + n * 1000)]. *)
Definition add (d : Dayjs) (n : float) : Dayjs :=
  timeClip (PrimFloat.add d (PrimFloat.mul n (Num.ofZ 1000))).

(** [d.clone()] *)
Definition clone (d : Dayjs) : Dayjs := d.

(** [a.diff(b)] in milliseconds. *)
Definition diff (a b : Dayjs) : float := PrimFloat.sub a b.

(** [dayjs.duration(ms).asSeconds()] *)
Definition asSeconds (ms : float) : float := PrimFloat.div ms (Num.ofZ 1000).

(** [a.isSameOrBefore(b)] *)
Definition isSameOrBefore (a b : Dayjs) : bool := PrimFloat.leb a b.

End Dj.

(** ** Maps in insertion order *)

Module JsMap.

Section WithKey.
Context {K V : Type} (keq : K -> K -> bool).

Fixpoint get (k : K) (m : list (K * V)) : option V :=
  match m with
  | [] => None
  | (k', v) :: r => if keq k k' then Some v else get k r
  end.

(** [m.set(k, v)]: an existing key keeps its place, a new one goes last. *)
Fixpoint set (k : K) (v : V) (m : list (K * V)) : list (K * V) :=
  match m with
  | [] => [(k, v)]
  | (k', v') :: r => if keq k k' then (k', v) :: r else (k', v') :: set k v r
  end.

(** [m.delete(k)] *)
Fixpoint delete (k : K) (m : list (K * V)) : list (K * V) :=
  match m with
  | [] => []
  | (k', v') :: r => if keq k k' then r else (k', v') :: delete k r
  end.

Definition has (k : K) (m : list (K * V)) : bool :=
  match get k m with Some _ => true | None => false end.

Definition size (m : list (K * V)) : nat := List.length m.
End WithKey.

End JsMap.

(** ** Entity identifiers

    [parseInt(s, 16)] yields an integer or NaN.  [Map] keys are compared
    with SameValueZero, under which NaN equals NaN; [Array.indexOf] uses
    strict equality, under which NaN is never found. *)

Module Id.

Definition t : Type := option Z.

Definition NaN : t := None.

Definition sameValueZero (a b : t) : bool :=
  match a, b with
  | Some x, Some y => Z.eqb x y
  | None, None => true
  | _, _ => false
  end.

Definition strictEq (a b : t) : bool :=
  match a, b with
  | Some x, Some y => Z.eqb x y
  | _, _ => false
  end.

(** [ids.indexOf(id) >= 0] *)
Definition isIn (id : t) (ids : list t) : bool := existsb (strictEq id) ids.

Definition hexDigit (c : ascii) : option Z :=
  let n := Z.of_nat (nat_of_ascii c) in
  if ((48 <=? n) && (n <=? 57))%Z then Some (n - 48)%Z
  else if ((65 <=? n) && (n <=? 70))%Z then Some (n - 55)%Z
  else if ((97 <=? n) && (n <=? 102))%Z then Some (n - 87)%Z
  else None.

(** The longest prefix of hexadecimal digits, read as an integer;
    [None] when the prefix is empty. *)
Fixpoint hexPrefix (acc : option Z) (s : string) : option Z :=
  match s with
  | EmptyString => acc
  | String c r =>
      match hexDigit c with
      | None => acc
      | Some d =>
          hexPrefix (Some (16 * match acc with Some a => a | None => 0 end + d)%Z) r
      end
  end.

(** The integer-valued number nearest to an integer: integers below
    [2^53] are numbers, larger ones are rounded to 53 significant bits,
    ties to even.  (An overflow to Infinity needs an identifier of more
    than 255 hexadecimal digits and is left out.) *)
Definition roundToNumber (z : Z) : Z :=
  let a := Z.abs z in
  if (a <? 2 ^ 53)%Z then z
  else
    let sh := (Z.log2 a - 52)%Z in
    let q := Z.shiftr a sh in
    let r := (a - Z.shiftl q sh)%Z in
    let half := Z.shiftl 1 (sh - 1) in
    let q' := if (r <? half)%Z then q
              else if (half <? r)%Z then (q + 1)%Z
              else if Z.even q then q else (q + 1)%Z in
    (Z.sgn z * Z.shiftl q' sh)%Z.

Definition stripHexPrefix (s : string) : string :=
  if Str.startsWith s "0x" || Str.startsWith s "0X" then Str.sliceFrom 2 s else s.

(** [parseInt(s, 16)]; the leading white space skipped is the ASCII one. *)
Definition parseInt16 (s : string) : t :=
  let s1 := Str.trimStart s in
  let neg := Str.startsWith s1 "-" in
  let s2 := if neg || Str.startsWith s1 "+" then Str.sliceFrom 1 s1 else s1 in
  match hexPrefix None (stripHexPrefix s2) with
  | None => NaN
  | Some z => Some (roundToNumber (if neg then (- z)%Z else z))
  end.

End Id.

(** ** Data model ([acmiData.ts]) *)

Module AcmiHeader.
Record t : Type := mk { fileType : string; fileVersion : string }.
(** [new AcmiHeader()] *)
Definition new : t := mk EmptyString EmptyString.
End AcmiHeader.

Module TimeSpan.
Record t : Type := mk { start : Dj.Dayjs; end_ : Dj.Dayjs }.
(** [new TimeSpan()] *)
Definition new : t := mk Dj.invalid Dj.invalid.
Definition isValid (s : t) : bool := Dj.isValid (start s) && Dj.isValid (end_ s).
Definition duration (s : t) : float :=
  if isValid s then Dj.asSeconds (Dj.diff (end_ s) (start s))
  else PrimFloat.opp PrimFloat.one.
Definition set_start (v : Dj.Dayjs) (s : t) : t := mk v (end_ s).
Definition set_end (v : Dj.Dayjs) (s : t) : t := mk (start s) v.
End TimeSpan.

Module GlobalProperties.
Record t : Type := mk {
  referenceTime : Dj.Dayjs;
  dataSource : option string;
  dataRecorder : option string;
  recordingTime : option Dj.Dayjs;
  author : option string;
  title : option string;
  category : option string;
  briefing : option string;
  debriefing : option string;
  comments : option string;
  referenceLongitude : option float;
  referenceLatitude : option float;
  additionalProps : option (list (string * string))
}.
(** [new GlobalProperties()] *)
Definition new : t :=
  mk Dj.invalid None None None None None None None None None None None None.
Definition set_referenceTime v (g : t) : t :=
  let 'mk _ ds dr rc au ti ca br de co lo la ap := g in mk v ds dr rc au ti ca br de co lo la ap.
Definition set_dataSource v (g : t) : t :=
  let 'mk rt _ dr rc au ti ca br de co lo la ap := g in mk rt (Some v) dr rc au ti ca br de co lo la ap.
Definition set_dataRecorder v (g : t) : t :=
  let 'mk rt ds _ rc au ti ca br de co lo la ap := g in mk rt ds (Some v) rc au ti ca br de co lo la ap.
Definition set_recordingTime v (g : t) : t :=
  let 'mk rt ds dr _ au ti ca br de co lo la ap := g in mk rt ds dr (Some v) au ti ca br de co lo la ap.
Definition set_author v (g : t) : t :=
  let 'mk rt ds dr rc _ ti ca br de co lo la ap := g in mk rt ds dr rc (Some v) ti ca br de co lo la ap.
Definition set_title v (g : t) : t :=
  let 'mk rt ds dr rc au _ ca br de co lo la ap := g in mk rt ds dr rc au (Some v) ca br de co lo la ap.
Definition set_category v (g : t) : t :=
  let 'mk rt ds dr rc au ti _ br de co lo la ap := g in mk rt ds dr rc au ti (Some v) br de co lo la ap.
Definition set_briefing v (g : t) : t :=
  let 'mk rt ds dr rc au ti ca _ de co lo la ap := g in mk rt ds dr rc au ti ca (Some v) de co lo la ap.
Definition set_debriefing v (g : t) : t :=
  let 'mk rt ds dr rc au ti ca br _ co lo la ap := g in mk rt ds dr rc au ti ca br (Some v) co lo la ap.
Definition set_comments v (g : t) : t :=
  let 'mk rt ds dr rc au ti ca br de _ lo la ap := g in mk rt ds dr rc au ti ca br de (Some v) lo la ap.
Definition set_referenceLongitude v (g : t) : t :=
  let 'mk rt ds dr rc au ti ca br de co _ la ap := g in mk rt ds dr rc au ti ca br de co (Some v) la ap.
Definition set_referenceLatitude v (g : t) : t :=
  let 'mk rt ds dr rc au ti ca br de co lo _ ap := g in mk rt ds dr rc au ti ca br de co lo (Some v) ap.
(** [if (additionalProps === undefined) additionalProps = new Map();
     additionalProps.set(name, value)] *)
Definition add_additionalProp (name value : string) (g : t) : t :=
  let 'mk rt ds dr rc au ti ca br de co lo la ap := g in
  let m := match ap with Some m => m | None => [] end in
  mk rt ds dr rc au ti ca br de co lo la (Some (JsMap.set String.eqb name value m)).
End GlobalProperties.

Module EntityProps.
Record t : Type := mk {
  id : Id.t;
  timeSpan : TimeSpan.t;
  name : option string;
  types : option (list string);
  callsign : option string;
  pilot : option string;
  group : option string;
  country : option string;
  coalition : option string;
  color : option string
}.
(** [new EntityProps(id)] *)
Definition new (i : Id.t) : t :=
  mk i TimeSpan.new None None None None None None None None.
Definition set_timeSpan v (e : t) : t :=
  let 'mk i _ na ty cs pi gr cn cl co := e in mk i v na ty cs pi gr cn cl co.
Definition set_name v (e : t) : t :=
  let 'mk i ts _ ty cs pi gr cn cl co := e in mk i ts (Some v) ty cs pi gr cn cl co.
Definition set_types v (e : t) : t :=
  let 'mk i ts na _ cs pi gr cn cl co := e in mk i ts na (Some v) cs pi gr cn cl co.
Definition set_callsign v (e : t) : t :=
  let 'mk i ts na ty _ pi gr cn cl co := e in mk i ts na ty (Some v) pi gr cn cl co.
Definition set_pilot v (e : t) : t :=
  let 'mk i ts na ty cs _ gr cn cl co := e in mk i ts na ty cs (Some v) gr cn cl co.
Definition set_group v (e : t) : t :=
  let 'mk i ts na ty cs pi _ cn cl co := e in mk i ts na ty cs pi (Some v) cn cl co.
Definition set_country v (e : t) : t :=
  let 'mk i ts na ty cs pi gr _ cl co := e in mk i ts na ty cs pi gr (Some v) cl co.
Definition set_coalition v (e : t) : t :=
  let 'mk i ts na ty cs pi gr cn _ co := e in mk i ts na ty cs pi gr cn (Some v) co.
Definition set_color v (e : t) : t :=
  let 'mk i ts na ty cs pi gr cn cl _ := e in mk i ts na ty cs pi gr cn cl (Some v).
Definition set_start v (e : t) : t := set_timeSpan (TimeSpan.set_start v (timeSpan e)) e.
Definition set_end v (e : t) : t := set_timeSpan (TimeSpan.set_end v (timeSpan e)) e.
End EntityProps.

Module ITransform.
Record t : Type := mk {
  longitude : float;
  latitude : float;
  altitude : float;
  roll : option float;
  pitch : option float;
  yaw : option float
}.
End ITransform.

Definition Scene : Type := list (Id.t * ITransform.t).

Module Scene.
Definition get (i : Id.t) (s : Scene) : option ITransform.t := JsMap.get Id.sameValueZero i s.
Definition set (i : Id.t) (v : ITransform.t) (s : Scene) : Scene := JsMap.set Id.sameValueZero i v s.
Definition delete (i : Id.t) (s : Scene) : Scene := JsMap.delete Id.sameValueZero i s.
End Scene.

Module Frame.
Record t : Type := mk { timeStamp : float; scene : Scene }.
(** [new Frame(timeStamp, scene)]: the scene is copied, or empty when absent. *)
Definition new (ts : float) (sc : option Scene) : t :=
  match sc with
  | Some s => mk ts s
  | None => mk ts []
  end.
Definition set_scene (s : Scene) (f : t) : t := mk (timeStamp f) s.
End Frame.

Definition Frames : Type := list Frame.t.

Definition Entities : Type := list (Id.t * EntityProps.t).

Module Entities.
Definition get (i : Id.t) (m : Entities) : option EntityProps.t := JsMap.get Id.sameValueZero i m.
Definition set (i : Id.t) (v : EntityProps.t) (m : Entities) : Entities := JsMap.set Id.sameValueZero i v m.
Definition has (i : Id.t) (m : Entities) : bool := JsMap.has Id.sameValueZero i m.
End Entities.

Module AcmiData.
Record t : Type := mk {
  isValid : bool;
  header : AcmiHeader.t;
  globalProperties : GlobalProperties.t;
  timeSpan : TimeSpan.t;
  entities : Entities;
  frames : Frames
}.
(** [new AcmiData()] *)
Definition new : t := mk true AcmiHeader.new GlobalProperties.new TimeSpan.new [] [].
Definition set_isValid v (d : t) : t :=
  let 'mk _ h g s e f := d in mk v h g s e f.
Definition set_header v (d : t) : t :=
  let 'mk b _ g s e f := d in mk b v g s e f.
Definition set_globalProperties v (d : t) : t :=
  let 'mk b h _ s e f := d in mk b h v s e f.
Definition set_timeSpan v (d : t) : t :=
  let 'mk b h g _ e f := d in mk b h g v e f.
Definition set_entities v (d : t) : t :=
  let 'mk b h g s _ f := d in mk b h g s v f.
Definition set_frames v (d : t) : t :=
  let 'mk b h g s e _ := d in mk b h g s e v.
End AcmiData.

(** ** The parser ([parser.ts]) *)

Module AcmiParser.
Record t : Type := mk {
  _currentLine : string;
  _currentTimeStamp : float;
  _currentFrame : Frame.t;
  _destroyedIds : list Id.t;
  _filteredIds : list Id.t;
  _data : AcmiData.t;
  _filter : list string;
  _refLat : float;
  _refLong : float
}.
(** The fields of a freshly constructed parser. *)
Definition new : t :=
  mk EmptyString Num.zero (Frame.new Num.zero None) [] [] AcmiData.new [] Num.zero Num.zero.
Definition set_currentLine v (p : t) : t :=
  let 'mk _ ts fr de fi da fl la lo := p in mk v ts fr de fi da fl la lo.
Definition set_currentTimeStamp v (p : t) : t :=
  let 'mk cl _ fr de fi da fl la lo := p in mk cl v fr de fi da fl la lo.
Definition set_currentFrame v (p : t) : t :=
  let 'mk cl ts _ de fi da fl la lo := p in mk cl ts v de fi da fl la lo.
Definition set_destroyedIds v (p : t) : t :=
  let 'mk cl ts fr _ fi da fl la lo := p in mk cl ts fr v fi da fl la lo.
Definition set_filteredIds v (p : t) : t :=
  let 'mk cl ts fr de _ da fl la lo := p in mk cl ts fr de v da fl la lo.
Definition set_data v (p : t) : t :=
  let 'mk cl ts fr de fi _ fl la lo := p in mk cl ts fr de fi v fl la lo.
Definition set_refLat v (p : t) : t :=
  let 'mk cl ts fr de fi da fl _ lo := p in mk cl ts fr de fi da fl v lo.
Definition set_refLong v (p : t) : t :=
  let 'mk cl ts fr de fi da fl la _ := p in mk cl ts fr de fi da fl la v.
(** [this._data.isValid = false] *)
Definition invalidate (p : t) : t := set_data (AcmiData.set_isValid false (_data p)) p.
(** An update of [this._data.globalProperties]. *)
Definition upd_globProp (f : GlobalProperties.t -> GlobalProperties.t) (p : t) : t :=
  set_data (AcmiData.set_globalProperties (f (AcmiData.globalProperties (_data p))) (_data p)) p.
(** An update of [this._currentFrame.scene]. *)
Definition upd_scene (f : Scene -> Scene) (p : t) : t :=
  set_currentFrame (Frame.set_scene (f (Frame.scene (_currentFrame p))) (_currentFrame p)) p.
End AcmiParser.

Import AcmiParser.

Definition LF : ascii := "010"%char.
Definition CR : ascii := "013"%char.

(** [buffer.slice(from, to)] *)
Definition slice {A : Type} (from to : nat) (buffer : list A) : list A :=
  firstn (to - from) (skipn from buffer).

(** [new TextDecoder().decode(bytes)]: a leading byte-order mark is dropped. *)
Definition decode (bs : list byte) : string :=
  match bs with
  | b1 :: b2 :: b3 :: r =>
      if Byte.eqb b1 xef && Byte.eqb b2 xbb && Byte.eqb b3 xbf
      then string_of_list_byte r
      else string_of_list_byte bs
  | _ => string_of_list_byte bs
  end.

(** [array.findIndex(p)]; [None] stands for [-1]. *)
Fixpoint findIndex {A : Type} (p : A -> bool) (l : list A) : option nat :=
  match l with
  | [] => None
  | x :: r =>
      if p x then Some O
      else match findIndex p r with
           | Some i => Some (S i)
           | None => None
           end
  end.

(** [array.includes(s)] on strings *)
Definition includes (l : list string) (s : string) : bool := existsb (String.eqb s) l.

Definition _acmiVersions : list string := ["2.1"; "2.2"].
Definition _acmiType : string := "text/acmi/tacview".

(** The bytes [e2 80 a8] and [e2 80 a9]: U+2028 and U+2029 as they
    appear in a decoded string.  No other bytes decode to them. *)
Definition isLineSeparator (c1 c2 c3 : ascii) : bool :=
  Ascii.eqb c1 "226" && Ascii.eqb c2 "128" && (Ascii.eqb c3 "168" || Ascii.eqb c3 "169").

(** The string starts with U+2028 or U+2029. *)
Definition separatorAt (s : string) : bool :=
  match s with
  | String c1 (String c2 (String c3 _)) => isLineSeparator c1 c2 c3
  | _ => false
  end.

(** One captured line of the header pattern, that is a group [.*]
    followed by [\r?\n]: the characters before the first line
    terminator, which must begin a line end [\r?\n], and the text after
    that line end.  The dot matches none of the four line terminators CR,
    LF, U+2028 and U+2029, so the greedy group has one way to match, and
    the pattern fails when the first terminator is U+2028 or U+2029. *)
Fixpoint matchLine (s : string) : option (string * string) :=
  match s with
  | EmptyString => None
  | String c r =>
      if Ascii.eqb c LF then Some (EmptyString, r)
      else if Ascii.eqb c CR then
        match r with
        | String d r' => if Ascii.eqb d LF then Some (EmptyString, r') else None
        | EmptyString => None
        end
      else if separatorAt (String c r) then None
      else match matchLine r with
           | Some (g, rest) => Some (String c g, rest)
           | None => None
           end
  end.

(** The byte-order mark U+FEFF as it appears in a decoded string. *)
Definition bomString : string :=
  String "239"%char (String "187"%char (String "191"%char EmptyString)).

(** The header pattern after the optional byte-order mark: [FileType=],
    a captured line ([type]), [FileVersion=], a captured line
    ([version]); the result is the pair of groups. *)
Definition headerFields (s0 : string) : option (string * string) :=
  if Str.startsWith s0 "FileType=" then
    match matchLine (Str.sliceFrom 9 s0) with
    | Some (type, r) =>
        if Str.startsWith r "FileVersion=" then
          match matchLine (Str.sliceFrom 12 r) with
          | Some (version, _) => Some (type, version)
          | None => None
          end
        else None
    | None => None
    end
  else None.

(** [_headerPattern.exec(s)] for the pattern
    [^\ufeff?FileType=<type>\r?\nFileVersion=<version>\r?\n], where
    [<type>] and [<version>] are the named groups, each a [.*]. *)
Definition _headerPattern (s : string) : option (string * string) :=
  headerFields (if Str.startsWith s bomString then Str.sliceFrom 3 s else s).

Definition _isValidVersion (self : AcmiParser.t) : bool :=
  existsb (fun version => String.eqb version (AcmiHeader.fileVersion (AcmiData.header (_data self))))
          _acmiVersions.

Definition _isValidType (self : AcmiParser.t) : bool :=
  String.eqb (AcmiHeader.fileType (AcmiData.header (_data self))) _acmiType.

Definition _parseHeader (self : AcmiParser.t) (buffer : list byte) : AcmiParser.t :=
  let header := decode (slice 0 64 buffer) in
  match _headerPattern header with
  | Some (type, version) =>
      let self1 := set_data (AcmiData.set_header (AcmiHeader.mk type version) (_data self)) self in
      set_data (AcmiData.set_isValid (_isValidType self1 && _isValidVersion self1) (_data self1)) self1
  | None => self
  end.

(** [_isZipped(data)] *)
Definition _isZipped (data : list byte) : bool :=
  (1 <? List.length data)%nat && String.eqb (decode (slice 0 2 data)) "PK".

Section Parser.

(** The unary plus applied to a string (ECMAScript's StringToNumber). *)
Variable toNumber : string -> float.
(** [dayjs(s)] for a string [s]. *)
Variable dayjs : string -> Dj.Dayjs.
(** [unzip(data)] of the unzipit package: the contents of the entries of
    the archive, or [None] when it rejects. *)
Variable unzip : list byte -> option (list (list byte)).

(** One global property of a [0,...] row: the body of the [forEach]. *)
Definition globalProp (self : AcmiParser.t) (prop : string) : AcmiParser.t :=
  match Str.indexOf "=" prop with
  | Some equalPos =>
      let propName := Str.sliceTo equalPos prop in
      let propValue := Str.sliceFrom (equalPos + 1) prop in
      if String.eqb propName "DataSource" then
        upd_globProp (GlobalProperties.set_dataSource propValue) self
      else if String.eqb propName "DataRecorder" then
        upd_globProp (GlobalProperties.set_dataRecorder propValue) self
      else if String.eqb propName "ReferenceTime" then
        upd_globProp (GlobalProperties.set_referenceTime (dayjs propValue)) self
      else if String.eqb propName "RecordingTime" then
        upd_globProp (GlobalProperties.set_recordingTime (dayjs propValue)) self
      else if String.eqb propName "Author" then
        upd_globProp (GlobalProperties.set_author propValue) self
      else if String.eqb propName "Title" then
        upd_globProp (GlobalProperties.set_title propValue) self
      else if String.eqb propName "Category" then
        upd_globProp (GlobalProperties.set_category propValue) self
      else if String.eqb propName "Briefing" then
        upd_globProp (GlobalProperties.set_briefing propValue) self
      else if String.eqb propName "Debriefing" then
        upd_globProp (GlobalProperties.set_debriefing propValue) self
      else if String.eqb propName "Comments" then
        upd_globProp (GlobalProperties.set_comments propValue) self
      else if String.eqb propName "ReferenceLongitude" then
        let v := toNumber propValue in
        set_refLong v (upd_globProp (GlobalProperties.set_referenceLongitude v) self)
      else if String.eqb propName "ReferenceLatitude" then
        let v := toNumber propValue in
        set_refLat v (upd_globProp (GlobalProperties.set_referenceLatitude v) self)
      else
        upd_globProp (GlobalProperties.add_additionalProp propName propValue) self
  | None => invalidate self
  end.

(** The branch [line.startsWith("0,")] of [_parseLine]. *)
Definition parseGlobalRow (self : AcmiParser.t) (line : string) : AcmiParser.t :=
  let props := Str.splitUnescaped false (Str.sliceFrom 2 line) in
  fold_left globalProp props self.

(** The branch [line.startsWith("#")] of [_parseLine]. *)
Definition parseTimeMarker (self : AcmiParser.t) (line : string) : AcmiParser.t :=
  let currentFrame :=
    if (0 <? List.length (_destroyedIds self))%nat
    then Frame.set_scene
           (fold_left (fun sc id => Scene.delete id sc) (_destroyedIds self)
                      (Frame.scene (_currentFrame self)))
           (_currentFrame self)
    else _currentFrame self in
  let self1 := set_destroyedIds [] (set_currentFrame currentFrame self) in
  let newTimeStamp := toNumber (Str.sliceFrom 1 line) in
  if Num.strictNe newTimeStamp (_currentTimeStamp self1) then
    let data := _data self1 in
    let self2 := set_data (AcmiData.set_frames (AcmiData.frames data ++ [currentFrame]) data) self1 in
    let self3 := set_currentTimeStamp newTimeStamp self2 in
    set_currentFrame (Frame.new newTimeStamp (Some (Frame.scene currentFrame))) self3
  else self1.

(** [data.globalProperties.referenceTime.add(this._currentTimeStamp, "second")] *)
Definition currentTime (self : AcmiParser.t) : Dj.Dayjs :=
  Dj.add (GlobalProperties.referenceTime (AcmiData.globalProperties (_data self)))
         (_currentTimeStamp self).

(** The branch [line.startsWith("-")] of [_parseLine]. *)
Definition parseRemoval (self : AcmiParser.t) (line : string) : AcmiParser.t :=
  let id := Id.parseInt16 (Str.sliceFrom 1 line) in
  let data := _data self in
  let self1 :=
    match Entities.get id (AcmiData.entities data) with
    | Some entityProps =>
        set_data (AcmiData.set_entities
                    (Entities.set id (EntityProps.set_end (currentTime self) entityProps)
                                  (AcmiData.entities data)) data) self
    | None => self
    end in
  if Id.isIn id (_filteredIds self1)
  then set_destroyedIds (_destroyedIds self1 ++ [id]) self1
  else self1.

(** One property of an entity row: the body of the [forEach].  The state
    is the entity being filled in and the parser ([data.isValid]). *)
Definition entityProp (st : EntityProps.t * AcmiParser.t) (prop : string)
  : EntityProps.t * AcmiParser.t :=
  let (entityProps, self) := st in
  match Str.indexOf "=" prop with
  | Some equalPos =>
      let name := Str.sliceTo equalPos prop in
      let value := Str.sliceFrom (equalPos + 1) prop in
      if String.eqb name "Name" then (EntityProps.set_name value entityProps, self)
      else if String.eqb name "Type" then
        (EntityProps.set_types (Str.split "+" value) entityProps, self)
      else if String.eqb name "CallSign" then (EntityProps.set_callsign value entityProps, self)
      else if String.eqb name "Pilot" then (EntityProps.set_pilot value entityProps, self)
      else if String.eqb name "Group" then (EntityProps.set_group value entityProps, self)
      else if String.eqb name "Country" then (EntityProps.set_country value entityProps, self)
      else if String.eqb name "Coalition" then (EntityProps.set_coalition value entityProps, self)
      else if String.eqb name "Color" then (EntityProps.set_color value entityProps, self)
      else if String.eqb name "destroyed" then
        if Num.strictEq (toNumber value) PrimFloat.one
        then (EntityProps.set_end (currentTime self) entityProps, self)
        else (entityProps, self)
      else (entityProps, self)
  | None => (entityProps, invalidate self)
  end.

(** The filter decision taken for a new entity. *)
Definition keepEntity (filter : list string) (entityProps : EntityProps.t) : bool :=
  if (0 <? List.length filter)%nat then
    match EntityProps.types entityProps with
    | Some types => forallb (fun type => negb (includes filter type)) types
    | None => negb (includes filter "Untyped")
    end
  else true.

(** [coords[k].length] is truthy *)
Definition nonEmpty (s : string) : bool := negb (String.length s =? 0)%nat.

Definition set_longitude (v : float) (t : ITransform.t) : ITransform.t :=
  let 'ITransform.mk _ la al ro pi ya := t in ITransform.mk v la al ro pi ya.
Definition set_latitude (v : float) (t : ITransform.t) : ITransform.t :=
  let 'ITransform.mk lo _ al ro pi ya := t in ITransform.mk lo v al ro pi ya.
Definition set_altitude (v : float) (t : ITransform.t) : ITransform.t :=
  let 'ITransform.mk lo la _ ro pi ya := t in ITransform.mk lo la v ro pi ya.
Definition set_roll (v : float) (t : ITransform.t) : ITransform.t :=
  let 'ITransform.mk lo la al _ pi ya := t in ITransform.mk lo la al (Some v) pi ya.
Definition set_pitch (v : float) (t : ITransform.t) : ITransform.t :=
  let 'ITransform.mk lo la al ro _ ya := t in ITransform.mk lo la al ro (Some v) ya.
Definition set_yaw (v : float) (t : ITransform.t) : ITransform.t :=
  let 'ITransform.mk lo la al ro pi _ := t in ITransform.mk lo la al ro pi (Some v).

(** The transform an update starts from: the components of the entity's
    transform in the current scene, or the defaults. *)
Definition inheritedTransform (currentTransform : option ITransform.t) : ITransform.t :=
  match currentTransform with
  | Some c =>
      ITransform.mk (ITransform.longitude c) (ITransform.latitude c) (ITransform.altitude c)
                    (ITransform.roll c) (ITransform.pitch c) (ITransform.yaw c)
  | None => ITransform.mk Num.zero Num.zero Num.zero None None None
  end.

(** [if (coords[k].length) transform.f = v(coords[k])]; reading [length]
    of a missing slot throws. *)
Definition slot (coords : list string) (k : nat)
  (upd : string -> ITransform.t -> ITransform.t) (t : ITransform.t) : option ITransform.t :=
  match nth_error coords k with
  | Some c => Some (if nonEmpty c then upd c t else t)
  | None => None
  end.

Definition bind {A B : Type} (x : option A) (k : A -> option B) : option B :=
  match x with
  | Some a => k a
  | None => None
  end.

(** The decoding of the slots of a [T=] value. *)
Definition decodeCoords (refLong refLat : float) (currentTransform : option ITransform.t)
  (coords : list string) : option ITransform.t :=
  let transform := inheritedTransform currentTransform in
  let lon := fun c => set_longitude (PrimFloat.add refLong (toNumber c)) in
  let lat := fun c => set_latitude (PrimFloat.add refLat (toNumber c)) in
  let alt := fun c => set_altitude (toNumber c) in
  if (List.length coords <=? 5)%nat then
    bind (slot coords 0 lon transform) (fun t0 =>
    bind (slot coords 1 lat t0) (fun t1 =>
    slot coords 2 alt t1))
  else
    bind (slot coords 0 lon transform) (fun t0 =>
    bind (slot coords 1 lat t0) (fun t1 =>
    bind (slot coords 2 alt t1) (fun t2 =>
    bind (slot coords 3 (fun c => set_roll (toNumber c)) t2) (fun t3 =>
    bind (slot coords 4 (fun c => set_pitch (toNumber c)) t3) (fun t4 =>
    slot coords 5 (fun c => set_yaw (toNumber c)) t4))))).

(** The handling of the [T=] property of a kept entity. *)
Definition parseTransform (self : AcmiParser.t) (id : Id.t) (props : list string)
  : option AcmiParser.t :=
  match findIndex (fun prop => Str.startsWith prop "T=") props with
  | Some indexT =>
      let prop := nth indexT props EmptyString in
      match Str.indexOf "=" prop with
      | Some equalPos =>
          let currentTransform := Scene.get id (Frame.scene (_currentFrame self)) in
          let propValue := Str.sliceFrom (equalPos + 1) prop in
          let coords := Str.split "|" propValue in
          match decodeCoords (_refLong self) (_refLat self) currentTransform coords with
          | Some transform => Some (upd_scene (Scene.set id transform) self)
          | None => None
          end
      | None => Some self
      end
  | None => Some self
  end.

(** The last branch of [_parseLine]: an entity row. *)
Definition parseEntity (self : AcmiParser.t) (line : string) : option AcmiParser.t :=
  match Str.indexOf "," line with
  | Some commaPos =>
      let id := Id.parseInt16 (Str.sliceTo commaPos line) in
      let entityLine := Str.sliceFrom (commaPos + 1) line in
      let found := Entities.get id (AcmiData.entities (_data self)) in
      let newEntity := match found with Some _ => false | None => true end in
      let entityProps0 :=
        match found with
        | Some e => e
        | None => EntityProps.set_start (currentTime self) (EntityProps.new id)
        end in
      let props := Str.splitUnescaped false entityLine in
      let (entityProps, self1) := fold_left entityProp props (entityProps0, self) in
      let store := fun p : AcmiParser.t =>
        set_data (AcmiData.set_entities
                    (Entities.set id entityProps (AcmiData.entities (_data p))) (_data p)) p in
      let self2 :=
        if newEntity then
          if keepEntity (_filter self1) entityProps
          then set_filteredIds (_filteredIds self1 ++ [id]) (store self1)
          else self1
        else store self1 in
      if Id.isIn id (_filteredIds self2) then parseTransform self2 id props
      else Some self2
  | None => Some (invalidate self)
  end.

(** [_parseLine()]: the record decoder, applied to [this._currentLine]. *)
Definition _parseLine (self : AcmiParser.t) : option AcmiParser.t :=
  let line := _currentLine self in
  let r :=
    if Str.startsWith line "0,Event" then Some self
    else if Str.startsWith line "0," then Some (parseGlobalRow self line)
    else if Str.startsWith line "#" then Some (parseTimeMarker self line)
    else if Str.startsWith line "-" then Some (parseRemoval self line)
    else parseEntity self line in
  option_map (set_currentLine EmptyString) r.

(** What the scanner does with one physical line ([index] counts the
    physical lines seen before it). *)
Definition physicalLine (self : AcmiParser.t) (index : nat) (line : string)
  : option AcmiParser.t :=
  if (1 <? index)%nat then
    if negb (String.length (Str.trim line) =? 0)%nat && negb (Str.startsWith line "//") then
      if Str.endsWith line "\" then
        Some (set_currentLine
                (_currentLine self ++ Str.sliceTo (String.length line - 1) line
                               ++ String LF EmptyString) self)
      else _parseLine (set_currentLine (_currentLine self ++ line) self)
    else Some self
  else Some self.

(** The [while] loop of [_parseContent]; [rest] is the part of [buffer]
    from position [current] on. *)
Fixpoint scanLoop (buffer rest : list byte) (current start : nat) (previousCR : bool)
  (index : nat) (self : AcmiParser.t) : option AcmiParser.t :=
  match rest with
  | [] => Some self
  | b :: rest' =>
      if Byte.eqb b x0d then scanLoop buffer rest' (S current) start true index self
      else if Byte.eqb b x0a then
        let lineEnd := if previousCR then current - 1 else current in
        let line := decode (slice start lineEnd buffer) in
        match physicalLine self index line with
        | Some self' => scanLoop buffer rest' (S current) (S current) false (S index) self'
        | None => None
        end
      else scanLoop buffer rest' (S current) start previousCR index self
  end.

(** The end of [_parseContent]: the last frame and the time span. *)
Definition finishContent (self : AcmiParser.t) : AcmiParser.t :=
  let data := _data self in
  if (0 <? List.length (AcmiData.frames data))%nat then
    let frames := AcmiData.frames data ++ [_currentFrame self] in
    let data1 := AcmiData.set_frames frames data in
    let referenceTime := GlobalProperties.referenceTime (AcmiData.globalProperties data1) in
    let firstNonEmptyFrameIndex :=
      findIndex (fun frame => (0 <? JsMap.size (Frame.scene frame))%nat) frames in
    match firstNonEmptyFrameIndex with
    | Some i =>
        if Dj.isValid referenceTime then
          let first := nth i frames (_currentFrame self) in
          let last := nth (List.length frames - 1) frames (_currentFrame self) in
          set_data (AcmiData.set_timeSpan
                      (TimeSpan.mk (Dj.add referenceTime (Frame.timeStamp first))
                                   (Dj.add referenceTime (Frame.timeStamp last))) data1) self
        else set_data (AcmiData.set_isValid false data1) self
    | None => set_data (AcmiData.set_isValid false data1) self
    end
  else self.

Definition _parseContent (self : AcmiParser.t) (buffer : list byte) : option AcmiParser.t :=
  option_map finishContent (scanLoop buffer buffer 0 0 false 0 self).

(** [_unzip(data)]: the archive must hold exactly one entry. *)
Definition _unzip (data : list byte) : option (list byte) :=
  match unzip data with
  | Some [entry] => Some entry
  | _ => None
  end.

(** [_parseBuffer(buffer)]: the returned data and the parser afterwards. *)
Definition _parseBuffer (self : AcmiParser.t) (buffer : list byte)
  : option (AcmiData.t * AcmiParser.t) :=
  match _parseContent (_parseHeader self buffer) buffer with
  | Some self1 =>
      let data := _data self1 in
      let finalize := fun kv : Id.t * EntityProps.t =>
        let (k, entity) := kv in
        if negb (Dj.isValid (TimeSpan.end_ (EntityProps.timeSpan entity)))
        then (k, EntityProps.set_end (Dj.clone (TimeSpan.end_ (AcmiData.timeSpan data))) entity)
        else (k, entity) in
      let self2 := set_data (AcmiData.set_entities (map finalize (AcmiData.entities data)) data) self1 in
      Some (_data self2, self2)
  | None => None
  end.

(** The state [parse] starts from: everything is reset but the reference
    longitude and latitude, which [parse] does not touch. *)
Definition resetForParse (self : AcmiParser.t) (filter : option (list string)) : AcmiParser.t :=
  AcmiParser.mk EmptyString Num.zero (Frame.new Num.zero None) [] [] AcmiData.new
                (match filter with Some f => f | None => [] end)
                (_refLat self) (_refLong self).

(** [parse(data, { filter })]: [None] when the promise does not resolve. *)
Definition parse (self : AcmiParser.t) (data : list byte) (filter : option (list string))
  : option (AcmiData.t * AcmiParser.t) :=
  let self0 := resetForParse self filter in
  if _isZipped data then
    match _unzip data with
    | Some buffer => _parseBuffer self0 buffer
    | None => None
    end
  else _parseBuffer self0 data.

End Parser.

(** ** Instances of the host facilities, for evaluating scenarios

    They cover the inputs the scenarios use: plain decimal literals and
    UTC date-times written [YYYY-MM-DDTHH:MM:SSZ]. *)

Module Host.

Definition digit (c : ascii) : option Z :=
  let n := Z.of_nat (nat_of_ascii c) in
  if ((48 <=? n) && (n <=? 57))%Z then Some (n - 48)%Z else None.

(** The value and the number of characters of a string of decimal digits. *)
Fixpoint readDigits (acc : Z) (count : nat) (s : string) : option (Z * nat) :=
  match s with
  | EmptyString => Some (acc, count)
  | String c r =>
      match digit c with
      | Some d => readDigits (10 * acc + d)%Z (S count) r
      | None => None
      end
  end.

(** The unary plus on a plain decimal literal: optional sign, digits,
    optional fraction; surrounding white space is ignored and the empty
    string is [0].  The quotient below is the correctly rounded value when
    the digits form an integer below [2^53] with at most 22 decimals.
    Literals with an exponent, [Infinity] and the prefixed radix forms
    are outside this instance and are mapped to NaN with the malformed
    ones. *)
Definition toNumber (s : string) : float :=
  let t := Str.trim s in
  if (String.length t =? 0)%nat then Num.zero
  else
    let neg := Str.startsWith t "-" in
    let body := if neg || Str.startsWith t "+" then Str.sliceFrom 1 t else t in
    let parts :=
      match Str.indexOf "." body with
      | Some i => (Str.sliceTo i body, Str.sliceFrom (i + 1) body)
      | None => (body, EmptyString)
      end in
    match readDigits 0 0 (fst parts), readDigits 0 0 (snd parts) with
    | Some (m, ki), Some (f, kf) =>
        if (ki + kf =? 0)%nat then Num.nan
        else
          let scale := (10 ^ Z.of_nat kf)%Z in
          let v := if (kf =? 0)%nat then Num.ofZ m
                   else PrimFloat.div (Num.ofZ (m * scale + f)) (Num.ofZ scale) in
          if neg then PrimFloat.opp v else v
    | _, _ => Num.nan
    end.

Definition isLeap (y : Z) : bool :=
  ((y mod 4 =? 0) && (negb (y mod 100 =? 0) || (y mod 400 =? 0)))%Z.

Definition daysInMonth (y m : Z) : Z :=
  if (m =? 2)%Z then (if isLeap y then 29 else 28)%Z
  else if ((m =? 4) || (m =? 6) || (m =? 9) || (m =? 11))%Z then 30%Z
  else 31%Z.

(** Days from 1970-01-01 to a date of the proleptic Gregorian calendar. *)
Definition daysFromCivil (y m d : Z) : Z :=
  let y' := (if m <=? 2 then y - 1 else y)%Z in
  let era := (y' / 400)%Z in
  let yoe := (y' - era * 400)%Z in
  let mp := (if 2 <? m then m - 3 else m + 9)%Z in
  let doy := ((153 * mp + 2) / 5 + d - 1)%Z in
  let doe := (yoe * 365 + yoe / 4 - yoe / 100 + doy)%Z in
  (era * 146097 + doe - 719468)%Z.

Definition field (from len : nat) (s : string) : option Z :=
  match readDigits 0 0 (Str.sliceTo len (Str.sliceFrom from s)) with
  | Some (v, _) => Some v
  | None => None
  end.

Definition charAt (i : nat) (s : string) : option ascii := String.get i s.

Definition isChar (i : nat) (c : ascii) (s : string) : bool :=
  match charAt i s with
  | Some d => Ascii.eqb c d
  | None => false
  end.

(** [dayjs(s)] on a UTC date-time [YYYY-MM-DDTHH:MM:SSZ]; any other
    string is outside this instance and gives an invalid instant. *)
Definition dayjs (s : string) : Dj.Dayjs :=
  if (String.length s =? 20)%nat
     && isChar 4 "-" s && isChar 7 "-" s && isChar 10 "T" s
     && isChar 13 ":" s && isChar 16 ":" s && isChar 19 "Z" s then
    match field 0 4 s, field 5 2 s, field 8 2 s, field 11 2 s, field 14 2 s, field 17 2 s with
    | Some y, Some mo, Some d, Some h, Some mi, Some sec =>
        if ((1 <=? mo) && (mo <=? 12) && (1 <=? d) && (d <=? daysInMonth y mo)
            && (h <=? 23) && (mi <=? 59) && (sec <=? 59))%Z
        then Num.ofZ ((((daysFromCivil y mo d * 24 + h) * 60 + mi) * 60 + sec) * 1000)%Z
        else Dj.invalid
    | _, _, _, _, _, _ => Dj.invalid
    end
  else Dj.invalid.

(** A host without archives: [unzip] rejects. *)
Definition unzip (data : list byte) : option (list (list byte)) := None.

(** [parse] of a fresh parser on this host. *)
Definition parse (text : string) (filter : option (list string))
  : option (AcmiData.t * AcmiParser.t) :=
  parse toNumber dayjs unzip AcmiParser.new (list_byte_of_string text) filter.

(** A line break, for writing input files. *)
Definition nl : string := String LF EmptyString.

(** The lines of a file, each followed by a line break. *)
Definition file (lines : list string) : string :=
  fold_right (fun l acc => String.append l (String.append nl acc)) EmptyString lines.

End Host.

(** ** The sampler ([acmiData.ts]) *)

(** [CMath.RADIANS_PER_DEGREE], that is [Math.PI / 180.0]. *)
Definition RADIANS_PER_DEGREE : float :=
  PrimFloat.div 0x1.921fb54442d18p+1%float (Num.ofZ 180).

Module Sampler.

Section WithCesium.

(** The geometry of the Cesium engine. *)
Variable Cartesian3 : Type.
Variable Quaternion : Type.
(** [Cartesian3.fromDegrees(longitude, latitude, height, Ellipsoid.WGS84)] *)
Variable fromDegrees : float -> float -> float -> Cartesian3.
(** [Transforms.headingPitchRollQuaternion(position, new HeadingPitchRoll(h, p, r), ...)] *)
Variable headingPitchRollQuaternion : Cartesian3 -> float -> float -> float -> Quaternion.
(** [Cartesian3.equalsEpsilon(a, b, CMath.EPSILON6)] *)
Variable positionEquals : Cartesian3 -> Cartesian3 -> bool.
(** [Quaternion.equalsEpsilon(a, b, CMath.EPSILON6)] on two defined quaternions *)
Variable quaternionEquals : Quaternion -> Quaternion -> bool.

Record IStateVector : Type := mkState {
  position : Cartesian3;
  orientation : option Quaternion
}.

Record ITrajectorySample : Type := mkSample {
  time : Dj.Dayjs;
  state : IStateVector
}.

(** A [Trajectory], by its [samples]. *)
Definition Trajectory : Type := list ITrajectorySample.

Definition Trajectories : Type := list (Id.t * Trajectory).

(** [Quaternion.equalsEpsilon] on possibly undefined quaternions: two
    undefined ones are equal, a defined and an undefined one are not. *)
Definition orientationEquals (a b : option Quaternion) : bool :=
  match a, b with
  | None, None => true
  | Some p, Some q => quaternionEquals p q
  | _, _ => false
  end.

(** The search of [bounds.le(frames, new Frame(timeStamp), cmp)] with
    [cmp(a, b) = a.timeStamp - b.timeStamp]: the loop of the package, which
    is also the loop of [_searchFrameIndex] in the older [acmiData.ts].
    Indices are integers, [-1] when no frame qualifies. *)
Fixpoint searchLoop (fuel : nat) (frames : Frames) (searchedTimeStamp : float)
  (index lowIndex highIndex : Z) : Z :=
  match fuel with
  | O => index
  | S fuel' =>
      if (lowIndex <=? highIndex)%Z then
        let midIndex := (lowIndex + Z.shiftr (highIndex - lowIndex) 1)%Z in
        match nth_error frames (Z.to_nat midIndex) with
        | Some frame =>
            if PrimFloat.leb (PrimFloat.sub (Frame.timeStamp frame) searchedTimeStamp) Num.zero
            then searchLoop fuel' frames searchedTimeStamp midIndex (midIndex + 1)%Z highIndex
            else searchLoop fuel' frames searchedTimeStamp index lowIndex (midIndex - 1)%Z
        | None => index
        end
      else index
  end.

Definition _searchFrameIndex (frames : Frames) (searchedTimeStamp : float) : Z :=
  searchLoop (S (List.length frames)) frames searchedTimeStamp (-1)%Z 0%Z
             (Z.of_nat (List.length frames) - 1)%Z.

(** [data.getFrame(time)] *)
Definition getFrame (data : AcmiData.t) (time : Dj.Dayjs) : option Frame.t :=
  if TimeSpan.isValid (AcmiData.timeSpan data) then
    let start := GlobalProperties.referenceTime (AcmiData.globalProperties data) in
    let end_ := TimeSpan.end_ (AcmiData.timeSpan data) in
    let frames := AcmiData.frames data in
    if Dj.isSameOrBefore start time && Dj.isSameOrBefore time end_ then
      let timeStamp := Dj.asSeconds (Dj.diff time start) in
      let index := _searchFrameIndex frames timeStamp in
      if (index <? 0)%Z then None else nth_error frames (Z.to_nat index)
    else None
  else None.

Definition trajectoryOf (id : Id.t) (trajectories : Trajectories) : Trajectory :=
  match JsMap.get Id.sameValueZero id trajectories with
  | Some samples => samples
  | None => []
  end.

(** The body of the [forEach] of [_addFrame]: one entity of the scene. *)
Definition addSample (time : Dj.Dayjs) (lastFrame : bool) (trajectories : Trajectories)
  (entry : Id.t * ITransform.t) : Trajectories :=
  let (id, transform) := entry in
  let samples := trajectoryOf id trajectories in
  let newPosition :=
    fromDegrees (ITransform.longitude transform) (ITransform.latitude transform)
                (ITransform.altitude transform) in
  let orZero := fun o : option float => match o with Some v => v | None => Num.zero end in
  let newOrientation :=
    match ITransform.yaw transform with
    | Some yaw =>
        Some (headingPitchRollQuaternion newPosition
                (PrimFloat.mul yaw RADIANS_PER_DEGREE)
                (PrimFloat.mul (orZero (ITransform.pitch transform)) RADIANS_PER_DEGREE)
                (PrimFloat.mul (orZero (ITransform.roll transform)) RADIANS_PER_DEGREE))
    | None => None
    end in
  let sample := mkSample time (mkState newPosition newOrientation) in
  let skip :=
    negb lastFrame &&
    match List.rev samples with
    | lastSample :: _ =>
        let lastPosition := position (state lastSample) in
        let lastOrientation := orientation (state lastSample) in
        positionEquals lastPosition newPosition
        && orientationEquals lastOrientation newOrientation
    | [] => false
    end in
  JsMap.set Id.sameValueZero id (if skip then samples else samples ++ [sample]) trajectories.

(** [_addFrame(trajectories, time, frame, lastFrame)] *)
Definition _addFrame (trajectories : Trajectories) (time : Dj.Dayjs) (frame : Frame.t)
  (lastFrame : bool) : Trajectories :=
  fold_left (addSample time lastFrame) (Frame.scene frame) trajectories.

(** The [do ... while (timeStamp <= duration)] loop; the result is the
    value of [timeStamp] after the loop and the trajectories.  [None]
    when the fuel does not suffice. *)
Fixpoint sampleLoop (fuel : nat) (data : AcmiData.t) (sampleRate duration : float)
  (timeStamp : float) (trajectories : Trajectories) : option (float * Trajectories) :=
  match fuel with
  | O => None
  | S fuel' =>
      let time := Dj.add (TimeSpan.start (AcmiData.timeSpan data)) timeStamp in
      let trajectories1 :=
        match getFrame data time with
        | Some frame => _addFrame trajectories time frame false
        | None => trajectories
        end in
      let timeStamp1 := PrimFloat.add timeStamp sampleRate in
      if PrimFloat.leb timeStamp1 duration
      then sampleLoop fuel' data sampleRate duration timeStamp1 trajectories1
      else Some (timeStamp1, trajectories1)
  end.

(** [data.createSampledTrajectories({ sampleRate })], the options
    [fixMslHeight] and [emulateOrientation] being left to their default
    [false] (the two passes they enable rewrite the states of the samples,
    not their times). *)
Definition createSampledTrajectories (fuel : nat) (data : AcmiData.t)
  (sampleRate : option float) : option Trajectories :=
  let sampleRate := match sampleRate with Some r => r | None => PrimFloat.one end in
  let timeSpan := AcmiData.timeSpan data in
  if TimeSpan.isValid timeSpan then
    let duration := TimeSpan.duration timeSpan in
    match sampleLoop fuel data sampleRate duration Num.zero [] with
    | Some (timeStamp, trajectories) =>
        if PrimFloat.ltb duration timeStamp then
          match getFrame data (TimeSpan.end_ timeSpan) with
          | Some endFrame => Some (_addFrame trajectories (TimeSpan.end_ timeSpan) endFrame true)
          | None => Some trajectories
          end
        else Some trajectories
    | None => None
    end
  else Some [].

End WithCesium.

End Sampler.

(** ** The roll smoother ([trajectory.ts]) *)

Module Trajectory.

(** [_simpleSmooth(value, alpha)] with [this._lastRoll = lastRoll]: the
    returned value and the new [_lastRoll]. *)
Definition _simpleSmooth (lastRoll value alpha : float) : float * float :=
  let value1 :=
    PrimFloat.add (PrimFloat.mul alpha value)
                  (PrimFloat.mul (PrimFloat.sub PrimFloat.one alpha) lastRoll) in
  let value2 :=
    if PrimFloat.ltb value1 (PrimFloat.mul (Num.ofZ 2) RADIANS_PER_DEGREE)
    then Num.zero else value1 in
  (value2, value2).

(** [this._alpha] *)
Definition _alpha : float := 0x1.999999999999ap-5%float.

End Trajectory.

(** The older [trajectory.ts] rounds below one degree. *)

Module TrajectoryV1.

Section WithOneDegree.

(** [_oneDegree = toRadians(1)] *)
Variable _oneDegree : float.

Definition _simpleSmooth (lastRoll value alpha : float) : float * float :=
  let value1 :=
    PrimFloat.add (PrimFloat.mul alpha value)
                  (PrimFloat.mul (PrimFloat.sub PrimFloat.one alpha) lastRoll) in
  let value2 := if PrimFloat.ltb value1 _oneDegree then Num.zero else value1 in
  (value2, value2).

End WithOneDegree.

End TrajectoryV1.

(** ** The older transform decoder ([acmi/transform.ts])

    The older parser maps every slot of a [T=] value to a number or to
    [undefined] and hands the list to [new Transform(components,
    previousTransform)]. *)

Module TransformTs.

Record Vector3 : Type := mkVector3 { x : float; y : float; z : float }.

(** The arguments given to [new Euler(roll, pitch, yaw)]; an inherited
    angle is [undefined] when there is nothing to inherit from. *)
Record Euler : Type := mkEuler {
  roll : option float;
  pitch : option float;
  yaw : option float
}.

Record t : Type := mk { position : Vector3; orientation : option Euler }.

Section WithMath.

(** The unary plus on strings, as in the parser. *)
Variable toNumber : string -> float.
(** [toRadians] of the math package. *)
Variable toRadians : float -> float.
(** [Transform.geoid?.getHeight(latitude, longitude)] *)
Variable geoid : option (float -> float -> float).

(** [coords.map((coord) => (coord?.length > 0 ? +coord : undefined))] *)
Definition components (coords : list string) : list (option float) :=
  map (fun coord => if (0 <? String.length coord)%nat then Some (toNumber coord) else None)
      coords.

(** [components[k]], [undefined] beyond the end. *)
Definition component (cs : list (option float)) (k : nat) : option float :=
  match nth_error cs k with
  | Some c => c
  | None => None
  end.

Definition defined {A : Type} (o : option A) : bool :=
  match o with Some _ => true | None => false end.

(** [new Transform(components, previousTransform)] with the static
    fields [Transform.refLong] and [Transform.refLat]. *)
Definition new (refLong refLat : float) (cs : list (option float))
  (previousTransform : option t) : t :=
  let pos :=
    if defined (component cs 0) || defined (component cs 1) || defined (component cs 2) then
      let previousPosition := option_map position previousTransform in
      let longitude :=
        match component cs 0 with
        | Some c => PrimFloat.add c refLong
        | None => match previousPosition with Some p => x p | None => refLong end
        end in
      let latitude :=
        match component cs 1 with
        | Some c => PrimFloat.add c refLat
        | None => match previousPosition with Some p => y p | None => refLat end
        end in
      let geoidHeight :=
        match geoid with
        | Some getHeight => getHeight latitude longitude
        | None => Num.zero
        end in
      let altitude :=
        match component cs 2 with
        | Some c => PrimFloat.add c geoidHeight
        | None => match previousPosition with Some p => z p | None => geoidHeight end
        end in
      mkVector3 longitude latitude altitude
    else
      match previousTransform with
      | Some p => position p
      | None => mkVector3 Num.zero Num.zero Num.zero
      end in
  let ori :=
    if defined (component cs 3) || defined (component cs 4) || defined (component cs 5) then
      let previousOrientation :=
        match previousTransform with
        | Some p => orientation p
        | None => None
        end in
      let angle := fun (k : nat) (inherited : Euler -> option float) =>
        match component cs k with
        | Some c => Some (toRadians c)
        | None => match previousOrientation with Some e => inherited e | None => None end
        end in
      Some (mkEuler (angle 3 roll) (angle 4 pitch) (angle 5 yaw))
    else
      match previousTransform with
      | Some p => orientation p
      | None => None
      end in
  mk pos ori.

End WithMath.

End TransformTs.

(** ** Scenario files *)

Module Scenario.

Definition headerLines : list string :=
  [ "FileType=text/acmi/tacview"; "FileVersion=2.2" ].

(** The minimal file: one entity observed at 0 s and at 1 s. *)
Definition minimal : string :=
  Host.file (headerLines ++
    [ "0,ReferenceTime=2024-01-01T00:00:00Z";
      "0,ReferenceLongitude=0";
      "0,ReferenceLatitude=0";
      "#0";
      "a,T=0|0|0,Name=x,Type=Air+FixedWing";
      "#1";
      "a,T=0.0001|0|100" ]).

(** Entity [a] is removed at 2 s, entity [b] stays; the next marker is at 3 s. *)
Definition removal : string :=
  Host.file (headerLines ++
    [ "0,ReferenceTime=2024-01-01T00:00:00Z";
      "#2";
      "a,T=1|1|1";
      "b,T=2|2|2";
      "-a";
      "#3" ]).

(** Time markers that go back. *)
Definition rewind : string :=
  Host.file (headerLines ++ [ "#5"; "#3" ]).

(** A header of an unsupported version, followed by content. *)
Definition wrongVersion : string :=
  Host.file
    [ "FileType=text/acmi/tacview"; "FileVersion=2.3";
      "0,Title=flight";
      "#5";
      "a,T=1|2|3" ].

(** A valid file without any time marker. *)
Definition noMarker : string :=
  Host.file (headerLines ++
    [ "0,ReferenceTime=2024-01-01T00:00:00Z";
      "a,T=1|2|3" ]).

(** A stand-in for the Cesium geometry: a position is the triple of its
    geodetic coordinates, compared component by component within [1e-6];
    orientations carry no information. *)
Definition Position : Type := (float * float * float)%type.

Definition fromDegrees (lon lat alt : float) : Position := (lon, lat, alt).

Definition EPSILON6 : float := 0x1.0c6f7a0b5ed8dp-20%float.

Definition near (a b : float) : bool :=
  PrimFloat.leb (PrimFloat.abs (PrimFloat.sub a b)) EPSILON6.

Definition positionEquals (p q : Position) : bool :=
  let '(a, b, c) := p in
  let '(d, e, f) := q in
  near a d && near b e && near c f.

Definition headingPitchRollQuaternion (p : Position) (h q r : float) : unit := tt.

Definition quaternionEquals (a b : unit) : bool := true.

(** The entity identifier [a]. *)
Definition idA : Id.t := Some 10%Z.

End Scenario.

(** ** Vocabulary of the statements *)

(** What the claim prescribes: the smoothed value, forced to zero exactly
    when its magnitude is below one degree. *)
Definition smoothPrescribed (lastRoll raw alpha : float) : float :=
  let smooth :=
    PrimFloat.add (PrimFloat.mul alpha raw)
                  (PrimFloat.mul (PrimFloat.sub PrimFloat.one alpha) lastRoll) in
  if PrimFloat.ltb (PrimFloat.abs smooth) RADIANS_PER_DEGREE then Num.zero else smooth.

(** The identifiers in the scene of each frame, with the time stamp. *)
Definition scenesOf (data : AcmiData.t) : list (float * list Id.t) :=
  map (fun f => (Frame.timeStamp f, map fst (Frame.scene f))) (AcmiData.frames data).

(** The times of the samples of every trajectory. *)
Definition sampleTimes {Cartesian3 Quaternion : Type}
  (trajectories : Sampler.Trajectories Cartesian3 Quaternion)
  : list (Id.t * list Dj.Dayjs) :=
  map (fun kv => (fst kv, map (Sampler.time Cartesian3 Quaternion) (snd kv))) trajectories.

(** [this._data.isValid] *)
Definition valid (self : AcmiParser.t) : bool := AcmiData.isValid (_data self).

(** The time stamps of the frames pushed so far. *)
Definition stamps (self : AcmiParser.t) : list float :=
  map Frame.timeStamp (AcmiData.frames (_data self)).

(** Every element differs ([!==]) from the one before it. *)
Fixpoint stampsDiffer (l : list float) : Prop :=
  match l with
  | [] => True
  | a :: r =>
      match r with
      | [] => True
      | b :: _ => Num.strictNe b a = true /\ stampsDiffer r
      end
  end.

(** The current frame carries the current time stamp, which differs from
    the stamp of the last frame pushed, and so on down the list. *)
Definition clockInv (self : AcmiParser.t) : Prop :=
  stampsDiffer (stamps self ++ [_currentTimeStamp self])
  /\ Frame.timeStamp (_currentFrame self) = _currentTimeStamp self.

(** A step that pushes no frame, keeps the clock and the time span of
    the data, and does not set [isValid] back to [true]. *)
Definition quiet (self self' : AcmiParser.t) : Prop :=
  AcmiData.frames (_data self') = AcmiData.frames (_data self)
  /\ _currentTimeStamp self' = _currentTimeStamp self
  /\ Frame.timeStamp (_currentFrame self') = Frame.timeStamp (_currentFrame self)
  /\ AcmiData.timeSpan (_data self') = AcmiData.timeSpan (_data self)
  /\ (valid self = false -> valid self' = false).

(** What every step of the parser guarantees. *)
Definition stepOK (self self' : AcmiParser.t) : Prop :=
  (valid self = false -> valid self' = false)
  /\ (clockInv self -> clockInv self')
  /\ AcmiData.timeSpan (_data self') = AcmiData.timeSpan (_data self).

Ltac open_parser self :=
  destruct self as [?cl ?ts [?fts ?sc] ?de ?fi [?iv ?hd ?gp ?tsp ?en ?fr] ?fl ?la ?lo].

(** The bytes [parse] hands to [_parseBuffer]: the data, or the single
    entry of the archive. *)
Definition parsedBytes (unzip : list byte -> option (list (list byte))) (data : list byte)
  : option (list byte) :=
  if _isZipped data then _unzip unzip data else Some data.

(** The header check on the two captured groups. *)
Definition validHeader (type version : string) : bool :=
  String.eqb type _acmiType && existsb (fun v => String.eqb v version) _acmiVersions.

(** [frame.scene.size > 0] *)
Definition nonEmptyFrame (frame : Frame.t) : bool := (0 <? JsMap.size (Frame.scene frame))%nat.

(** A string without line feed. *)
Fixpoint lineFree (s : string) : Prop :=
  match s with
  | EmptyString => True
  | String c r => Ascii.eqb c LF = false /\ lineFree r
  end.

(** A continuation of the header pattern fails on a text without line
    feed ([failsLineFree]); it is blind to what follows the last line
    feed ([appBlind]). *)
Definition failsLineFree (k : string -> option (string * string)) : Prop :=
  forall u, lineFree u -> k u = None.

Definition appBlind (k : string -> option (string * string)) : Prop :=
  forall s t, lineFree t -> k (s ++ t)%string = k s.

(** The parser with the header and [isValid] of its data erased: what
    the content loop can depend on if it does not read them. *)
Definition noHeader (self : AcmiParser.t) : AcmiParser.t :=
  set_data (AcmiData.set_isValid true (AcmiData.set_header AcmiHeader.new (_data self))) self.

(** The entities as [_parseBuffer] hands them over: those of the data
    the content loop left, where an entity without a valid end gets the
    end of the time span of the data. *)
Definition finalizedEntities (data : AcmiData.t) : Entities :=
  map (fun kv : Id.t * EntityProps.t =>
         let (k, entity) := kv in
         if negb (Dj.isValid (TimeSpan.end_ (EntityProps.timeSpan entity)))
         then (k, EntityProps.set_end (Dj.clone (TimeSpan.end_ (AcmiData.timeSpan data))) entity)
         else (k, entity))
      (AcmiData.entities data).

(** ** Vocabulary of the further properties *)

(** [pieces.join(",")] *)
Fixpoint joinComma (pieces : list string) : string :=
  match pieces with
  | [] => EmptyString
  | [p] => p
  | p :: rest => (p ++ String "," (joinComma rest))%string
  end.

(** The number of commas of [s] that no backslash precedes: the places
    where the pattern [(?<!\\),] matches.  [prev] tells whether a backslash
    precedes [s]. *)
Fixpoint unescapedCommas (prev : bool) (s : string) : nat :=
  match s with
  | EmptyString => 0
  | String c r =>
      (if Ascii.eqb c "," && negb prev then 1 else 0)
      + unescapedCommas (Ascii.eqb c "\") r
  end.

(** The last character of [s] is a backslash; of the empty string,
    [prev]. *)
Fixpoint endsBackslash (prev : bool) (s : string) : bool :=
  match s with
  | EmptyString => prev
  | String c r => endsBackslash (Ascii.eqb c "\") r
  end.

(** [coords.every((c) => c.length === 0)] *)
Definition allEmpty (coords : list string) : bool :=
  forallb (fun c => negb (nonEmpty c)) coords.

(** The identifiers of the entities are the kept identifiers, in the
    order in which they were first kept, each once. *)
Definition keysInv (self : AcmiParser.t) : Prop :=
  map fst (AcmiData.entities (_data self)) = _filteredIds self
  /\ NoDup (_filteredIds self).

(** Every object of the scene of a frame is a kept identifier. *)
Definition sceneKnown (ids : list Id.t) (frame : Frame.t) : Prop :=
  Forall (fun k => Id.isIn k ids = true) (map fst (Frame.scene frame)).

(** The scenes of the frames pushed so far and of the current frame hold
    kept identifiers only. *)
Definition scenesKnown (self : AcmiParser.t) : Prop :=
  Forall (sceneKnown (_filteredIds self))
         (AcmiData.frames (_data self) ++ [_currentFrame self]).

(** The reference point the offsets are decoded against: the one the
    global properties of the data declare, and, for a coordinate they do
    not declare, the one the parser [self0] held before. *)
Definition refInv (self0 self : AcmiParser.t) : Prop :=
  let g := AcmiData.globalProperties (_data self) in
  _refLong self = match GlobalProperties.referenceLongitude g with
                  | Some v => v
                  | None => _refLong self0
                  end
  /\ _refLat self = match GlobalProperties.referenceLatitude g with
                    | Some v => v
                    | None => _refLat self0
                    end.

(** A file that declares a reference point and nothing else. *)
Definition referencedFile : string :=
  Host.file (Scenario.headerLines ++
    [ "0,ReferenceLongitude=10"; "0,ReferenceLatitude=20" ]).

(** A buffer made of lines, each ended by a line feed. *)
Definition unlines (lines : list (list byte)) : list byte :=
  flat_map (fun l => l ++ [x0a]) lines.

(** What the scanner keeps of the bytes between two line feeds: all of
    them, or all but the last one when one of them is a carriage return. *)
Definition cutLine (bytes : list byte) : list byte :=
  if existsb (fun b => Byte.eqb b x0d) bytes then removelast bytes else bytes.

(** The physical lines handed to the body of the scanner one after the
    other, [index] being the number of the first one. *)
Fixpoint runLines (toNumber : string -> float) (dayjs : string -> Dj.Dayjs)
  (index : nat) (lines : list string) (self : AcmiParser.t) : option AcmiParser.t :=
  match lines with
  | [] => Some self
  | line :: rest =>
      match physicalLine toNumber dayjs self index line with
      | Some self' => runLines toNumber dayjs (S index) rest self'
      | None => None
      end
  end.

(** A line the scanner skips: blank, or a comment. *)
Definition skipped (line : string) : bool :=
  (String.length (Str.trim line) =? 0)%nat || Str.startsWith line "//".

(** The number of line feeds of a buffer, and of a string. *)
Definition lineFeeds (buffer : list byte) : nat :=
  List.length (filter (fun b => Byte.eqb b x0a) buffer).

Fixpoint countLF (s : string) : nat :=
  match s with
  | EmptyString => 0
  | String c r => (if Ascii.eqb c LF then 1 else 0) + countLF r
  end.

(** A string of ASCII characters without carriage return or line feed. *)
Fixpoint plain (s : string) : bool :=
  match s with
  | EmptyString => true
  | String c r =>
      (nat_of_ascii c <? 128)%nat && negb (Ascii.eqb c CR) && negb (Ascii.eqb c LF)
      && plain r
  end.

(** The two line ends the header pattern accepts: [\n] and [\r\n]. *)
Definition isLineEnd (e : string) : bool :=
  String.eqb e (String LF EmptyString) || String.eqb e (String CR (String LF EmptyString)).

(** The bytes of a well-formed header, followed by [rest]. *)
Definition headerBytes (type eol1 version eol2 : string) (rest : list byte) : list byte :=
  list_byte_of_string
    ("FileType=" ++ type ++ eol1 ++ "FileVersion=" ++ version ++ eol2)%string
  ++ rest.

(** The test of the frame search: [frame.timeStamp - searched <= 0]. *)
Definition notAfter (searched : float) (frame : Frame.t) : bool :=
  PrimFloat.leb (PrimFloat.sub (Frame.timeStamp frame) searched) Num.zero.

(** The frames that pass the test of the search come before those that
    do not, as they do when the time stamps increase. *)
Definition testSorted (searched : float) (frames : Frames) : Prop :=
  forall i j fi fj,
    i <= j -> nth_error frames i = Some fi -> nth_error frames j = Some fj ->
    notAfter searched fj = true -> notAfter searched fi = true.

(** [time] lies between the reference time and the end of the time span
    of the data, as [getFrame] requires. *)
Definition withinData (data : AcmiData.t) (time : Dj.Dayjs) : bool :=
  Dj.isSameOrBefore (GlobalProperties.referenceTime (AcmiData.globalProperties data)) time
  && Dj.isSameOrBefore time (TimeSpan.end_ (AcmiData.timeSpan data)).

(** What holds of every trajectory the sampler builds: it belongs to an
    object of the scene of some frame of the data, it has a sample, and
    the times of its samples lie between the reference time and the end
    of the time span. *)
Definition goodTrajectory {Cartesian3 Quaternion : Type} (data : AcmiData.t)
  (id : Id.t) (samples : Sampler.Trajectory Cartesian3 Quaternion) : Prop :=
  (exists frame, In frame (AcmiData.frames data) /\ In id (map fst (Frame.scene frame)))
  /\ samples <> []
  /\ Forall (fun s => withinData data (Sampler.time Cartesian3 Quaternion s) = true) samples.

(** From [self0] to [self] no kept identifier and no pushed frame was
    forgotten or changed: both lists were only appended to. *)
Definition grows (self0 self : AcmiParser.t) : Prop :=
  (exists more, _filteredIds self = _filteredIds self0 ++ more)
  /\ (exists more,
        AcmiData.frames (_data self) = AcmiData.frames (_data self0) ++ more).

(** The number of occurrences of a character in a string. *)
Fixpoint occurrences (c : ascii) (s : string) : nat :=
  match s with
  | EmptyString => 0
  | String d r => (if Ascii.eqb d c then 1 else 0) + occurrences c r
  end.

(** * Properties *)

(** ** Decoding of the [T=] slots *)

Lemma sameValueZero_refl : forall i : Id.t, Id.sameValueZero i i = true.
Proof.
  intros [z|]; simpl; [apply Z.eqb_refl | reflexivity].
Qed.

Lemma jsmap_get_set_same :
  forall (V : Type) (i : Id.t) (v : V) (m : list (Id.t * V)),
    JsMap.get Id.sameValueZero i (JsMap.set Id.sameValueZero i v m) = Some v.
Proof.
  intros V i v m; induction m as [|[k w] r IH]; simpl.
  - now rewrite sameValueZero_refl.
  - destruct (Id.sameValueZero i k) eqn:E; simpl; rewrite E; [reflexivity | exact IH].
Qed.

Lemma decodeCoords_three :
  forall toNumber refLong refLat prev x y z rest,
    nonEmpty x = true -> nonEmpty y = true ->
    exists t,
      decodeCoords toNumber refLong refLat prev (x :: y :: z :: rest) = Some t
      /\ ITransform.longitude t = PrimFloat.add refLong (toNumber x)
      /\ ITransform.latitude t = PrimFloat.add refLat (toNumber y).
Proof.
  intros toNumber refLong refLat prev x y z rest Hx Hy.
  unfold decodeCoords.
  destruct (inheritedTransform prev) as [lo la al ro pi ya].
  destruct rest as [|d [|e [|f rest]]]; simpl; unfold slot; simpl; rewrite Hx, Hy; simpl;
    repeat match goal with
           | |- context [nonEmpty ?s] => destruct (nonEmpty s); simpl
           end;
    eexists; repeat split; reflexivity.
Qed.

(** C3 (amended).  When a [T=] value has six slots or more,
    [a|b|c|d|e|f|...], the decoder takes the longitude offset, the
    latitude offset and the altitude from [a], [b], [c] and roll, pitch,
    yaw from [d], [e], [f] (positions 3 to 5); every further slot is
    ignored, and an empty slot inherits the component of the entity's
    transform in the current scene.  The older decoder of [transform.ts]
    reads the same positions 3 to 5 for its angles (and inherits the
    orientation as a whole when the three slots are empty). *)
Theorem C3_orientation_slots :
  forall (toNumber : string -> float) (refLong refLat : float)
         (prev : option ITransform.t) (a b c d e f : string) (rest : list string),
    let inherited := inheritedTransform prev in
    decodeCoords toNumber refLong refLat prev (a :: b :: c :: d :: e :: f :: rest)
    = Some (ITransform.mk
              (if nonEmpty a then PrimFloat.add refLong (toNumber a)
               else ITransform.longitude inherited)
              (if nonEmpty b then PrimFloat.add refLat (toNumber b)
               else ITransform.latitude inherited)
              (if nonEmpty c then toNumber c else ITransform.altitude inherited)
              (if nonEmpty d then Some (toNumber d) else ITransform.roll inherited)
              (if nonEmpty e then Some (toNumber e) else ITransform.pitch inherited)
              (if nonEmpty f then Some (toNumber f) else ITransform.yaw inherited))
    /\ forall (toRadians : float -> float) (geoid : option (float -> float -> float))
              (previous : option TransformTs.t),
         let cs := TransformTs.components toNumber (a :: b :: c :: d :: e :: f :: rest) in
         let angle := fun (s : string) (inheritedAngle : TransformTs.Euler -> option float) =>
           if nonEmpty s then Some (toRadians (toNumber s))
           else match previous with
                | Some p => match TransformTs.orientation p with
                            | Some o => inheritedAngle o
                            | None => None
                            end
                | None => None
                end in
         TransformTs.orientation (TransformTs.new toRadians geoid refLong refLat cs previous)
         = if nonEmpty d || nonEmpty e || nonEmpty f
           then Some (TransformTs.mkEuler (angle d TransformTs.roll) (angle e TransformTs.pitch)
                                          (angle f TransformTs.yaw))
           else match previous with
                | Some p => TransformTs.orientation p
                | None => None
                end.
Proof.
  intros toNumber refLong refLat prev a b c d e f rest inherited.
  split.
  - unfold decodeCoords. fold inherited.
    destruct inherited as [lo la al ro pi ya].
    simpl. unfold slot; simpl.
    destruct (nonEmpty a), (nonEmpty b), (nonEmpty c), (nonEmpty d), (nonEmpty e), (nonEmpty f);
      reflexivity.
  - intros toRadians geoid previous cs angle.
    unfold TransformTs.new, TransformTs.component, cs, angle, TransformTs.components; simpl.
    unfold nonEmpty.
    destruct d as [|d0 d']; destruct e as [|e0 e']; destruct f as [|f0 f']; simpl;
      destruct previous as [[pp [po|]]|]; reflexivity.
Qed.

(** C3 (counterexample).  On the nine-slot value [1|2|3|4|5|6|7|8|9] the
    decoder reads roll, pitch, yaw from the slots holding 4, 5, 6, not
    from those holding 6, 7, 8. *)
Lemma C3_counterexample :
  exists t,
    decodeCoords Host.toNumber Num.zero Num.zero None (Str.split "|" "1|2|3|4|5|6|7|8|9")
    = Some t
    /\ ITransform.roll t = Some (Host.toNumber "4")
    /\ ITransform.pitch t = Some (Host.toNumber "5")
    /\ ITransform.yaw t = Some (Host.toNumber "6")
    /\ Num.strictEq (Host.toNumber "4") (Host.toNumber "6") = false
    /\ Num.strictEq (Host.toNumber "5") (Host.toNumber "7") = false
    /\ Num.strictEq (Host.toNumber "6") (Host.toNumber "8") = false.
Proof.
  eexists. split; [vm_compute; reflexivity | ].
  repeat split; vm_compute; reflexivity.
Qed.

(** C9.  For a [T=] property of at least three slots whose first two
    slots [x] and [y] are not empty, the transform stored in the scene has
    longitude [refLong + x] and latitude [refLat + y], the sums being
    those of binary64 numbers. *)
Theorem C9_reference_decoding :
  forall (toNumber : string -> float) (self : AcmiParser.t) (id : Id.t)
         (props : list string) (i : nat) (value x y : string) (rest : list string),
    findIndex (fun prop => Str.startsWith prop "T=") props = Some i ->
    nth i props EmptyString = String "T" (String "=" value) ->
    Str.split "|" value = x :: y :: rest ->
    rest <> [] ->
    nonEmpty x = true ->
    nonEmpty y = true ->
    exists self' t,
      parseTransform toNumber self id props = Some self'
      /\ Scene.get id (Frame.scene (_currentFrame self')) = Some t
      /\ ITransform.longitude t = PrimFloat.add (_refLong self) (toNumber x)
      /\ ITransform.latitude t = PrimFloat.add (_refLat self) (toNumber y).
Proof.
  intros toNumber self id props i value x y rest Hi Hn Hs Hr Hx Hy.
  destruct rest as [|z rest]; [contradiction|].
  destruct (decodeCoords_three toNumber (_refLong self) (_refLat self)
              (Scene.get id (Frame.scene (_currentFrame self))) x y z rest Hx Hy)
    as [t [Hd [Hlo Hla]]].
  unfold parseTransform. rewrite Hi, Hn. simpl. rewrite Hs, Hd.
  exists (upd_scene (Scene.set id t) self), t.
  repeat split; try assumption.
  destruct self as [cl ts [fts sc] de fi da fl la lo]; simpl.
  apply jsmap_get_set_same.
Qed.

(** C9 (witness): the second record of the minimal file, decoded with the
    reference longitude 0. *)
Lemma C9_reference_decoding_witness :
  exists self' t,
    parseTransform Host.toNumber AcmiParser.new Scenario.idA ["T=0.0001|0|100"] = Some self'
    /\ Scene.get Scenario.idA (Frame.scene (_currentFrame self')) = Some t
    /\ ITransform.longitude t = PrimFloat.add Num.zero (Host.toNumber "0.0001")
    /\ ITransform.latitude t = PrimFloat.add Num.zero (Host.toNumber "0").
Proof.
  apply (C9_reference_decoding Host.toNumber AcmiParser.new Scenario.idA
           ["T=0.0001|0|100"] 0 "0.0001|0|100" "0.0001" "0" ["100"]).
  - reflexivity.
  - reflexivity.
  - reflexivity.
  - discriminate.
  - reflexivity.
  - reflexivity.
Defined.

(** ** The roll smoother *)

Lemma ltb_abs_nonneg : forall x y : float,
  PrimFloat.leb Num.zero x = true ->
  PrimFloat.ltb (PrimFloat.abs x) y = PrimFloat.ltb x y.
Proof.
  intros x y H.
  rewrite !ltb_spec, abs_spec. rewrite leb_spec in H.
  change (Prim2SF Num.zero) with (S754_zero false) in H.
  destruct (Prim2SF x) as [s|s| |s m e]; try destruct s; simpl in H; try discriminate;
    destruct (Prim2SF y) as [t|t| |t n f]; reflexivity.
Qed.

(** C8 (amended).  On every invocation of the roll smoother with input
    [raw], factor [alpha] (0.05 at its only call) and stored state
    [lastRoll], the smoothed value is [alpha * raw + (1 - alpha) *
    lastRoll]; when it is not negative, the result is 0 exactly when its
    magnitude is below two degrees (below [_oneDegree] in the older
    version), and the smoothed value otherwise; the result is stored as
    the new [lastRoll] and returned. *)
Theorem C8_smoothing_of_nonnegative_roll :
  forall lastRoll raw alpha : float,
    let smooth :=
      PrimFloat.add (PrimFloat.mul alpha raw)
                    (PrimFloat.mul (PrimFloat.sub PrimFloat.one alpha) lastRoll) in
    PrimFloat.leb Num.zero smooth = true ->
    Trajectory._simpleSmooth lastRoll raw alpha
    = (let result :=
         if PrimFloat.ltb (PrimFloat.abs smooth)
                          (PrimFloat.mul (Num.ofZ 2) RADIANS_PER_DEGREE)
         then Num.zero else smooth in
       (result, result))
    /\ forall _oneDegree : float,
         TrajectoryV1._simpleSmooth _oneDegree lastRoll raw alpha
         = (let result :=
              if PrimFloat.ltb (PrimFloat.abs smooth) _oneDegree then Num.zero else smooth in
            (result, result)).
Proof.
  intros lastRoll raw alpha smooth H. split.
  - unfold Trajectory._simpleSmooth. fold smooth.
    rewrite (ltb_abs_nonneg smooth _ H). reflexivity.
  - intros _oneDegree. unfold TrajectoryV1._simpleSmooth. fold smooth.
    rewrite (ltb_abs_nonneg smooth _ H). reflexivity.
Qed.

(** C8 (witness): a raw roll of 1 rad smoothed from rest gives 0.05 rad,
    which is kept. *)
Lemma C8_smoothing_of_nonnegative_roll_witness :
  PrimFloat.leb Num.zero
    (PrimFloat.add (PrimFloat.mul Trajectory._alpha PrimFloat.one)
       (PrimFloat.mul (PrimFloat.sub PrimFloat.one Trajectory._alpha) Num.zero)) = true
  /\ Trajectory._simpleSmooth Num.zero PrimFloat.one Trajectory._alpha
     = (Trajectory._alpha, Trajectory._alpha).
Proof.
  split; [vm_compute; reflexivity|].
  destruct (C8_smoothing_of_nonnegative_roll Num.zero PrimFloat.one Trajectory._alpha)
    as [E _]; [vm_compute; reflexivity|].
  rewrite E. vm_compute. reflexivity.
Defined.

(** C8 (counterexample).  With [lastRoll = 0] and a raw roll of 0.6 rad
    the smoothed value is 0.03 rad, about 1.7 degrees: its magnitude is
    not below one degree, so the claim keeps it, and [_simpleSmooth]
    returns and stores 0, its threshold being two degrees. *)
Lemma C8_counterexample :
  let raw := 0x1.3333333333333p-1%float in
  let smooth := smoothPrescribed Num.zero raw Trajectory._alpha in
  PrimFloat.ltb (PrimFloat.abs smooth) RADIANS_PER_DEGREE = false
  /\ Num.strictEq smooth Num.zero = false
  /\ Trajectory._simpleSmooth Num.zero raw Trajectory._alpha = (Num.zero, Num.zero).
Proof.
  vm_compute. repeat split; reflexivity.
Qed.

(** Both versions compare the signed value with the threshold: with
    [lastRoll = 0] and a raw roll of -1 rad the smoothed value is -0.05
    rad, about 2.9 degrees to the left, and the result is 0.  And
    [1 - 0.05] is the number 0.95. *)
Lemma negative_roll_is_zeroed :
  let left := PrimFloat.opp PrimFloat.one in
  smoothPrescribed Num.zero left Trajectory._alpha = PrimFloat.opp Trajectory._alpha
  /\ Trajectory._simpleSmooth Num.zero left Trajectory._alpha = (Num.zero, Num.zero)
  /\ TrajectoryV1._simpleSmooth RADIANS_PER_DEGREE Num.zero left Trajectory._alpha
     = (Num.zero, Num.zero)
  /\ PrimFloat.sub PrimFloat.one Trajectory._alpha = 0x1.e666666666666p-1%float.
Proof.
  vm_compute. repeat split; reflexivity.
Qed.

(** ** Scenarios run through the parser *)

(** C2 (the code at the failing input).  In the removal scenario entity
    [a] is updated and removed while the time stamp is 2, and the next
    marker is at 3.  The frames are those at 0, 2 and 3; the frame at 2
    holds [b] only: the pending removal is applied to the current frame
    before that frame is pushed.  The end of [a]'s time span is the
    reference time plus 2 s. *)
Theorem C2_removed_before_push :
  exists data parser entity,
    Host.parse Scenario.removal None = Some (data, parser)
    /\ scenesOf data = [ (Num.ofZ 0, []); (Num.ofZ 2, [Some 11%Z]); (Num.ofZ 3, [Some 11%Z]) ]
    /\ Entities.get Scenario.idA (AcmiData.entities data) = Some entity
    /\ In Scenario.idA (_filteredIds parser)
    /\ TimeSpan.end_ (EntityProps.timeSpan entity)
       = Dj.add (GlobalProperties.referenceTime (AcmiData.globalProperties data)) (Num.ofZ 2).
Proof.
  do 3 eexists. split; [vm_compute; reflexivity | ].
  repeat split; try (vm_compute; reflexivity).
  vm_compute. left. reflexivity.
Qed.

(** C5 (the code at the failing input).  The minimal file parsed with the
    filter [Air]: the first record of [a] carries [Type=Air+FixedWing] and
    is rejected, but nothing remembers the rejection; the second record
    of [a] carries no type, is taken for a new untyped entity and is
    kept.  The returned entities hold [a] and so does the scene at 1 s. *)
Theorem C5_rejected_entity_returns :
  exists data parser entity,
    Host.parse Scenario.minimal (Some ["Air"]) = Some (data, parser)
    /\ Entities.get Scenario.idA (AcmiData.entities data) = Some entity
    /\ EntityProps.types entity = None
    /\ scenesOf data = [ (Num.ofZ 0, []); (Num.ofZ 1, [Scenario.idA]) ]
    /\ _filteredIds parser = [Scenario.idA].
Proof.
  do 3 eexists. split; [vm_compute; reflexivity | ].
  repeat split; vm_compute; reflexivity.
Qed.

(** ** The sampler on the minimal file *)

(** C4 (the code at the failing input).  The minimal file spans one
    second and is sampled at the default rate of one second.  Whatever
    the geometry, as long as it tells the position at 0 s from the
    position at 1 s, the trajectory of [a] has three samples: one at the
    start, one at the end pushed by the last turn of the loop, and one
    more at the end pushed after the loop, whose guard
    [timeStamp > duration] holds as soon as the loop is left.  The last
    two samples carry the same time. *)
Theorem C4_end_sample_twice :
  forall (Cartesian3 Quaternion : Type)
         (fromDegrees : float -> float -> float -> Cartesian3)
         (headingPitchRollQuaternion : Cartesian3 -> float -> float -> float -> Quaternion)
         (positionEquals : Cartesian3 -> Cartesian3 -> bool)
         (quaternionEquals : Quaternion -> Quaternion -> bool)
         (fuel : nat),
    positionEquals (fromDegrees Num.zero Num.zero Num.zero)
                   (fromDegrees (Host.toNumber "0.0001") Num.zero (Num.ofZ 100)) = false ->
    exists data parser,
      Host.parse Scenario.minimal None = Some (data, parser)
      /\ option_map sampleTimes
           (Sampler.createSampledTrajectories Cartesian3 Quaternion fromDegrees
              headingPitchRollQuaternion positionEquals quaternionEquals
              (S (S fuel)) data None)
         = Some [ (Scenario.idA,
                   [ Num.ofZ 1704067200000; Num.ofZ 1704067201000; Num.ofZ 1704067201000 ]) ].
Proof.
  intros Cartesian3 Quaternion fromDegrees hpr positionEquals quaternionEquals fuel H.
  do 2 eexists. split; [vm_compute; reflexivity | ].
  vm_compute in H. vm_compute. rewrite H. reflexivity.
Qed.

(** C4 (witness): the stand-in geometry tells the two positions apart. *)
Lemma C4_end_sample_twice_witness :
  exists data parser,
    Host.parse Scenario.minimal None = Some (data, parser)
    /\ option_map sampleTimes
         (Sampler.createSampledTrajectories Scenario.Position unit Scenario.fromDegrees
            Scenario.headingPitchRollQuaternion Scenario.positionEquals
            Scenario.quaternionEquals 2 data None)
       = Some [ (Scenario.idA,
                 [ Num.ofZ 1704067200000; Num.ofZ 1704067201000; Num.ofZ 1704067201000 ]) ].
Proof.
  apply (C4_end_sample_twice Scenario.Position unit Scenario.fromDegrees
           Scenario.headingPitchRollQuaternion Scenario.positionEquals
           Scenario.quaternionEquals 0).
  vm_compute. reflexivity.
Defined.

(** ** What the record decoder preserves *)

Lemma quiet_refl : forall self, quiet self self.
Proof. intros self; repeat split; auto. Qed.

Lemma quiet_trans : forall a b c, quiet a b -> quiet b c -> quiet a c.
Proof.
  intros a b c (F1 & T1 & C1 & S1 & V1) (F2 & T2 & C2 & S2 & V2).
  repeat split; try congruence. auto.
Qed.

Lemma quiet_stepOK : forall self self', quiet self self' -> stepOK self self'.
Proof.
  intros self self' (F & T & C & S & V). split; [exact V|]. split; [|exact S].
  unfold clockInv, stamps. rewrite F, T, C. auto.
Qed.

Lemma stepOK_refl : forall self, stepOK self self.
Proof. intros self; split; [auto | split; [auto | reflexivity]]. Qed.

Lemma stepOK_trans : forall a b c, stepOK a b -> stepOK b c -> stepOK a c.
Proof.
  intros a b c (V1 & I1 & S1) (V2 & I2 & S2).
  split; [auto | split; [auto | congruence]].
Qed.

Lemma quiet_upd_globProp : forall f self, quiet self (upd_globProp f self).
Proof. intros f self; open_parser self; repeat split; auto. Qed.

Lemma quiet_invalidate : forall self, quiet self (invalidate self).
Proof. intros self; open_parser self; repeat split; auto. Qed.

Lemma quiet_set_refLong : forall v self, quiet self (set_refLong v self).
Proof. intros v self; open_parser self; repeat split; auto. Qed.

Lemma quiet_set_refLat : forall v self, quiet self (set_refLat v self).
Proof. intros v self; open_parser self; repeat split; auto. Qed.

Lemma quiet_set_currentLine : forall v self, quiet self (set_currentLine v self).
Proof. intros v self; open_parser self; repeat split; auto. Qed.

Lemma quiet_set_destroyedIds : forall v self, quiet self (set_destroyedIds v self).
Proof. intros v self; open_parser self; repeat split; auto. Qed.

Lemma quiet_set_filteredIds : forall v self, quiet self (set_filteredIds v self).
Proof. intros v self; open_parser self; repeat split; auto. Qed.

Lemma quiet_upd_scene : forall f self, quiet self (upd_scene f self).
Proof. intros f self; open_parser self; repeat split; auto. Qed.

Lemma quiet_set_entities : forall v self,
  quiet self (set_data (AcmiData.set_entities v (_data self)) self).
Proof. intros v self; open_parser self; repeat split; auto. Qed.

Lemma quiet_globalProp : forall toNumber dayjs self prop,
  quiet self (globalProp toNumber dayjs self prop).
Proof.
  intros toNumber dayjs self prop. unfold globalProp.
  destruct (Str.indexOf "=" prop); [|apply quiet_invalidate].
  repeat match goal with
         | |- context [if ?b then _ else _] => destruct b
         end;
    try apply quiet_upd_globProp.
  - eapply quiet_trans; [apply quiet_upd_globProp | apply quiet_set_refLong].
  - eapply quiet_trans; [apply quiet_upd_globProp | apply quiet_set_refLat].
Qed.

Lemma quiet_fold_globalProp : forall toNumber dayjs props self,
  quiet self (fold_left (globalProp toNumber dayjs) props self).
Proof.
  intros toNumber dayjs props; induction props as [|p r IH]; intros self; simpl.
  - apply quiet_refl.
  - eapply quiet_trans; [apply quiet_globalProp | apply IH].
Qed.

Lemma quiet_entityProp : forall toNumber st prop,
  quiet (snd st) (snd (entityProp toNumber st prop)).
Proof.
  intros toNumber [e self] prop. unfold entityProp.
  destruct (Str.indexOf "=" prop); [|apply quiet_invalidate].
  repeat match goal with
         | |- context [if ?b then _ else _] => destruct b
         end; apply quiet_refl.
Qed.

Lemma quiet_fold_entityProp : forall toNumber props st,
  quiet (snd st) (snd (fold_left (entityProp toNumber) props st)).
Proof.
  intros toNumber props; induction props as [|p r IH]; intros st; simpl.
  - apply quiet_refl.
  - eapply quiet_trans; [apply quiet_entityProp | apply IH].
Qed.

Lemma quiet_parseRemoval : forall self line, quiet self (parseRemoval self line).
Proof.
  intros self line. unfold parseRemoval.
  set (self1 := match Entities.get _ _ with Some _ => _ | None => _ end).
  assert (Q : quiet self self1).
  { unfold self1. destruct (Entities.get _ _); [apply quiet_set_entities | apply quiet_refl]. }
  destruct (Id.isIn _ _); [|exact Q].
  eapply quiet_trans; [exact Q | apply quiet_set_destroyedIds].
Qed.

Lemma quiet_parseTransform : forall toNumber self id props self',
  parseTransform toNumber self id props = Some self' -> quiet self self'.
Proof.
  intros toNumber self id props self'. unfold parseTransform.
  destruct (findIndex _ props); [|intros H; injection H as <-; apply quiet_refl].
  destruct (Str.indexOf _ _); [|intros H; injection H as <-; apply quiet_refl].
  destruct (decodeCoords _ _ _ _ _); [|discriminate].
  intros H; injection H as <-. apply quiet_upd_scene.
Qed.

Lemma quiet_parseEntity : forall toNumber self line self',
  parseEntity toNumber self line = Some self' -> quiet self self'.
Proof.
  intros toNumber self line self'. unfold parseEntity.
  destruct (Str.indexOf "," line) as [commaPos|];
    [|intros H; injection H as <-; apply quiet_invalidate].
  set (id := Id.parseInt16 _).
  set (found := Entities.get id _).
  set (e0 := match found with Some e => e | None => _ end).
  pose proof (quiet_fold_entityProp toNumber
                (Str.splitUnescaped false (Str.sliceFrom (commaPos + 1) line)) (e0, self)) as Q.
  destruct (fold_left _ _ (e0, self)) as [entityProps self1]. simpl in Q.
  set (self2 := if match found with Some _ => false | None => true end then _ else _).
  assert (Q2 : quiet self self2).
  { unfold self2. destruct found.
    - eapply quiet_trans; [exact Q | apply quiet_set_entities].
    - destruct (keepEntity _ _); [|exact Q].
      eapply quiet_trans; [exact Q|].
      eapply quiet_trans; [apply quiet_set_entities | apply quiet_set_filteredIds]. }
  destruct (Id.isIn id _).
  - intros H. eapply quiet_trans; [exact Q2 | eapply quiet_parseTransform; exact H].
  - intros H; injection H as <-. exact Q2.
Qed.

Lemma stampsDiffer_snoc : forall l a b,
  stampsDiffer (l ++ [a]) -> Num.strictNe b a = true -> stampsDiffer ((l ++ [a]) ++ [b]).
Proof.
  induction l as [|x r IH]; intros a b H N.
  - simpl. auto.
  - destruct r as [|y r'].
    + simpl in *. destruct H as [H1 _]. auto.
    + simpl in H. destruct H as [H1 H2].
      change (stampsDiffer (x :: y :: ((r' ++ [a]) ++ [b]))).
      split; [exact H1|]. exact (IH a b H2 N).
Qed.

Lemma stampsDiffer_nth : forall l i a b,
  stampsDiffer l -> nth_error l i = Some a -> nth_error l (S i) = Some b ->
  Num.strictNe b a = true.
Proof.
  induction l as [|x r IH]; intros i a b H Ha Hb.
  - destruct i; discriminate.
  - destruct r as [|y r']; [destruct i; discriminate|].
    destruct H as [H1 H2].
    destruct i as [|i].
    + simpl in Ha, Hb. injection Ha as <-. injection Hb as <-. exact H1.
    + exact (IH i a b H2 Ha Hb).
Qed.

Lemma stepOK_parseTimeMarker : forall toNumber self line,
  stepOK self (parseTimeMarker toNumber self line).
Proof.
  intros toNumber self line. unfold parseTimeMarker.
  set (currentFrame := if (0 <? _)%nat then _ else _).
  assert (Hts : Frame.timeStamp currentFrame = Frame.timeStamp (_currentFrame self)).
  { unfold currentFrame. destruct (0 <? _)%nat; reflexivity. }
  set (self1 := set_destroyedIds [] (set_currentFrame currentFrame self)).
  assert (H1 : AcmiData.frames (_data self1) = AcmiData.frames (_data self)
               /\ _currentTimeStamp self1 = _currentTimeStamp self
               /\ _currentFrame self1 = currentFrame
               /\ valid self1 = valid self
               /\ AcmiData.timeSpan (_data self1) = AcmiData.timeSpan (_data self)).
  { unfold self1. clearbody currentFrame. open_parser self. repeat split. }
  destruct H1 as (F1 & T1 & C1 & V1 & S1).
  clearbody self1 currentFrame.
  destruct (Num.strictNe _ _) eqn:N.
  - split; [|split].
    + intros V. rewrite <- V1 in V. open_parser self1. exact V.
    + intros [D E]. unfold clockInv, stamps.
      replace (AcmiData.frames (_data _)) with (AcmiData.frames (_data self) ++ [currentFrame])
        by (rewrite <- F1; open_parser self1; reflexivity).
      replace (_currentTimeStamp _) with (toNumber (Str.sliceFrom 1 line))
        by (open_parser self1; reflexivity).
      replace (Frame.timeStamp (_currentFrame _)) with (toNumber (Str.sliceFrom 1 line))
        by (open_parser self1; reflexivity).
      split; [|reflexivity].
      rewrite map_app. simpl. rewrite Hts, E.
      apply stampsDiffer_snoc; [exact D|]. rewrite <- T1. exact N.
    + rewrite <- S1. open_parser self1. reflexivity.
  - split; [|split].
    + intros V. rewrite V1. exact V.
    + intros [D E]. unfold clockInv, stamps. rewrite F1, T1, C1, Hts. auto.
    + exact S1.
Qed.

Lemma stepOK_parseLine : forall toNumber dayjs self self',
  _parseLine toNumber dayjs self = Some self' -> stepOK self self'.
Proof.
  intros toNumber dayjs self self'. unfold _parseLine.
  set (r := if Str.startsWith _ _ then _ else _).
  assert (R : forall s, r = Some s -> stepOK self s).
  { unfold r.
    destruct (Str.startsWith _ "0,Event");
      [intros s H; injection H as <-; apply stepOK_refl|].
    destruct (Str.startsWith _ "0,");
      [intros s H; injection H as <-; apply quiet_stepOK, quiet_fold_globalProp|].
    destruct (Str.startsWith _ "#");
      [intros s H; injection H as <-; apply stepOK_parseTimeMarker|].
    destruct (Str.startsWith _ "-");
      [intros s H; injection H as <-; apply quiet_stepOK, quiet_parseRemoval|].
    intros s H. eapply quiet_stepOK, quiet_parseEntity; exact H. }
  destruct r as [s|]; [|discriminate].
  intros H; injection H as <-.
  eapply stepOK_trans; [exact (R s eq_refl) | apply quiet_stepOK, quiet_set_currentLine].
Qed.

Lemma stepOK_physicalLine : forall toNumber dayjs self index line self',
  physicalLine toNumber dayjs self index line = Some self' -> stepOK self self'.
Proof.
  intros toNumber dayjs self index line self'. unfold physicalLine.
  destruct (1 <? index)%nat; [|intros H; injection H as <-; apply stepOK_refl].
  destruct (_ && _); [|intros H; injection H as <-; apply stepOK_refl].
  destruct (Str.endsWith _ _).
  - intros H; injection H as <-. apply quiet_stepOK, quiet_set_currentLine.
  - intros H. eapply stepOK_trans;
      [apply quiet_stepOK, quiet_set_currentLine | eapply stepOK_parseLine; exact H].
Qed.

Lemma stepOK_scanLoop : forall toNumber dayjs buffer rest current start previousCR index self self',
  scanLoop toNumber dayjs buffer rest current start previousCR index self = Some self' ->
  stepOK self self'.
Proof.
  intros toNumber dayjs buffer rest.
  induction rest as [|b rest IH]; intros current start previousCR index self self'; simpl.
  - intros H; injection H as <-. apply stepOK_refl.
  - destruct (Byte.eqb b x0d); [apply IH|].
    destruct (Byte.eqb b x0a); [|apply IH].
    destruct (physicalLine _ _ _ _ _) as [s|] eqn:P; [|discriminate].
    intros H. eapply stepOK_trans; [eapply stepOK_physicalLine; exact P | eapply IH; exact H].
Qed.

(** ** From [parse] down to the scan loop *)

Lemma parse_parsedBytes : forall toNumber dayjs unzip self data filter,
  parse toNumber dayjs unzip self data filter
  = match parsedBytes unzip data with
    | Some buffer => _parseBuffer toNumber dayjs (resetForParse self filter) buffer
    | None => None
    end.
Proof.
  intros. unfold parse, parsedBytes. destruct (_isZipped data); reflexivity.
Qed.

Lemma parseBuffer_inv : forall toNumber dayjs self buffer d p,
  _parseBuffer toNumber dayjs self buffer = Some (d, p) ->
  exists self1,
    scanLoop toNumber dayjs buffer buffer 0 0 false 0 (_parseHeader self buffer) = Some self1
    /\ AcmiData.frames d = AcmiData.frames (_data (finishContent self1))
    /\ AcmiData.isValid d = valid (finishContent self1)
    /\ AcmiData.timeSpan d = AcmiData.timeSpan (_data (finishContent self1))
    /\ AcmiData.globalProperties d = AcmiData.globalProperties (_data (finishContent self1))
    /\ map fst (AcmiData.entities d)
       = map fst (AcmiData.entities (_data (finishContent self1))).
Proof.
  intros toNumber dayjs self buffer d p. unfold _parseBuffer, _parseContent.
  destruct (scanLoop _ _ _ _ _ _ _ _ _) as [self1|]; simpl; [|discriminate].
  intros H. injection H as Hd Hp. exists self1. split; [reflexivity|].
  subst d. destruct (finishContent self1) as [cl ts fr de fi [iv hd gp tsp en frs] fl la lo].
  repeat split. simpl. rewrite map_map. apply map_ext.
  intros [k e]. destruct (negb _); reflexivity.
Qed.

Lemma parseHeader_clock : forall self buffer,
  AcmiData.frames (_data (_parseHeader self buffer)) = AcmiData.frames (_data self)
  /\ _currentTimeStamp (_parseHeader self buffer) = _currentTimeStamp self
  /\ _currentFrame (_parseHeader self buffer) = _currentFrame self.
Proof.
  intros self buffer. unfold _parseHeader.
  destruct (_headerPattern _) as [[type version]|]; [|auto].
  open_parser self. repeat split.
Qed.

Lemma clockInv_parseHeader : forall self buffer,
  clockInv self -> clockInv (_parseHeader self buffer).
Proof.
  intros self buffer. destruct (parseHeader_clock self buffer) as (F & T & C).
  unfold clockInv, stamps. rewrite F, T, C. auto.
Qed.

Lemma parseHeader_timeSpan : forall self buffer,
  AcmiData.timeSpan (_data (_parseHeader self buffer)) = AcmiData.timeSpan (_data self).
Proof.
  intros self buffer. unfold _parseHeader.
  destruct (_headerPattern _) as [[type version]|]; [|reflexivity].
  open_parser self. reflexivity.
Qed.

Lemma clockInv_reset : forall self filter, clockInv (resetForParse self filter).
Proof.
  intros self filter. unfold clockInv, stamps. simpl. auto.
Qed.

Lemma finishContent_frames : forall self,
  AcmiData.frames (_data (finishContent self))
  = match AcmiData.frames (_data self) with
    | [] => []
    | _ :: _ => AcmiData.frames (_data self) ++ [_currentFrame self]
    end.
Proof.
  intros self. unfold finishContent.
  destruct (0 <? List.length (AcmiData.frames (_data self)))%nat eqn:L.
  - destruct (AcmiData.frames (_data self)) as [|f0 fs] eqn:E; [discriminate|].
    rewrite <- E.
    destruct (findIndex _ _); [destruct (Dj.isValid _)|]; open_parser self; reflexivity.
  - destruct (AcmiData.frames (_data self)) as [|f0 fs] eqn:E; [reflexivity | discriminate].
Qed.

Lemma stampsDiffer_finish : forall self,
  clockInv self -> stampsDiffer (map Frame.timeStamp (AcmiData.frames (_data (finishContent self)))).
Proof.
  intros self [D E]. rewrite finishContent_frames.
  unfold stamps in D.
  destruct (AcmiData.frames (_data self)) as [|f0 fs]; [exact I|].
  rewrite map_app. simpl map at 2. rewrite E. exact D.
Qed.

(** C7 (amended).  In the frames of the returned data every frame has a
    time stamp different ([!==]) from the one of the frame before it.
    The order of the stamps is the order in which the time markers
    arrive; it is ascending only when the markers ascend. *)
Theorem C7_consecutive_frames_differ :
  forall (toNumber : string -> float) (dayjs : string -> Dj.Dayjs)
         (unzip : list byte -> option (list (list byte)))
         (self : AcmiParser.t) (data : list byte) (filter : option (list string))
         (d : AcmiData.t) (p : AcmiParser.t) (i : nat) (f g : Frame.t),
    parse toNumber dayjs unzip self data filter = Some (d, p) ->
    nth_error (AcmiData.frames d) i = Some f ->
    nth_error (AcmiData.frames d) (S i) = Some g ->
    Num.strictNe (Frame.timeStamp g) (Frame.timeStamp f) = true.
Proof.
  intros toNumber dayjs unzip self data filter d p i f g H Hf Hg.
  rewrite parse_parsedBytes in H.
  destruct (parsedBytes unzip data) as [buffer|]; [|discriminate].
  apply parseBuffer_inv in H. destruct H as (self1 & Hs & Hfr & _).
  apply stepOK_scanLoop in Hs. destruct Hs as (_ & Hinv & _).
  pose proof (stampsDiffer_finish self1
                (Hinv (clockInv_parseHeader _ buffer (clockInv_reset self filter)))) as D.
  rewrite <- Hfr in D.
  apply (stampsDiffer_nth _ i _ _ D).
  - rewrite nth_error_map, Hf. reflexivity.
  - rewrite nth_error_map, Hg. reflexivity.
Qed.

(** C7 (witness): frames 0 and 1 of the rewind scenario. *)
Lemma C7_consecutive_frames_differ_witness :
  exists d p f g,
    Host.parse Scenario.rewind None = Some (d, p)
    /\ nth_error (AcmiData.frames d) 0 = Some f
    /\ nth_error (AcmiData.frames d) 1 = Some g
    /\ Num.strictNe (Frame.timeStamp g) (Frame.timeStamp f) = true.
Proof.
  do 4 eexists.
  split; [vm_compute; reflexivity|].
  split; [vm_compute; reflexivity|].
  split; [vm_compute; reflexivity|].
  eapply (C7_consecutive_frames_differ Host.toNumber Host.dayjs Host.unzip AcmiParser.new
            (list_byte_of_string Scenario.rewind) None) with (i := 0);
    vm_compute; reflexivity.
Defined.

(** C7 (counterexample).  The rewind scenario has the markers [#5] and
    [#3]: the frames come out with the stamps 0, 5, 3, and 5 is not below
    3. *)
Lemma C7_counterexample :
  exists d p f g,
    Host.parse Scenario.rewind None = Some (d, p)
    /\ map Frame.timeStamp (AcmiData.frames d) = [Num.ofZ 0; Num.ofZ 5; Num.ofZ 3]
    /\ nth_error (AcmiData.frames d) 1 = Some f
    /\ nth_error (AcmiData.frames d) 2 = Some g
    /\ PrimFloat.ltb (Frame.timeStamp f) (Frame.timeStamp g) = false.
Proof.
  do 4 eexists. split; [vm_compute; reflexivity|].
  repeat split; vm_compute; reflexivity.
Qed.

(** ** The content loop does not read the header *)

Lemma noHeader_fold : forall (A : Type) (f : AcmiParser.t -> A -> AcmiParser.t),
  (forall s x, noHeader (f s x) = noHeader (f (noHeader s) x)) ->
  forall l s, noHeader (fold_left f l s) = noHeader (fold_left f l (noHeader s)).
Proof.
  intros A f Hf l; induction l as [|x l IH]; intros s; simpl.
  - unfold noHeader. open_parser s. reflexivity.
  - rewrite (IH (f s x)), (IH (f (noHeader s) x)), (Hf s x). reflexivity.
Qed.

Lemma noHeader_idem : forall s, noHeader (noHeader s) = noHeader s.
Proof. intros s; open_parser s; reflexivity. Qed.

Lemma noHeader_globalProp : forall toNumber dayjs s prop,
  noHeader (globalProp toNumber dayjs s prop)
  = noHeader (globalProp toNumber dayjs (noHeader s) prop).
Proof.
  intros toNumber dayjs s prop. open_parser s. unfold globalProp.
  destruct (Str.indexOf "=" prop); [|reflexivity].
  repeat match goal with
         | |- context [if ?b then _ else _] => destruct b
         end; reflexivity.
Qed.

Lemma noHeader_parseTimeMarker : forall toNumber s line,
  noHeader (parseTimeMarker toNumber s line)
  = noHeader (parseTimeMarker toNumber (noHeader s) line).
Proof.
  intros toNumber s line. open_parser s. unfold parseTimeMarker. simpl.
  destruct (Num.strictNe _ _); reflexivity.
Qed.

Lemma noHeader_parseRemoval : forall s line,
  noHeader (parseRemoval s line) = noHeader (parseRemoval (noHeader s) line).
Proof.
  intros s line. open_parser s. unfold parseRemoval. simpl.
  destruct (Entities.get _ _); simpl; destruct (Id.isIn _ _); reflexivity.
Qed.

Lemma noHeader_entityProp : forall toNumber e s prop,
  fst (entityProp toNumber (e, s) prop) = fst (entityProp toNumber (e, noHeader s) prop)
  /\ noHeader (snd (entityProp toNumber (e, s) prop))
     = noHeader (snd (entityProp toNumber (e, noHeader s) prop)).
Proof.
  intros toNumber e s prop. open_parser s. unfold entityProp.
  destruct (Str.indexOf "=" prop); [|split; reflexivity].
  repeat match goal with
         | |- context [if ?b then _ else _] => destruct b
         end; split; reflexivity.
Qed.

Lemma noHeader_fold_entityProp : forall toNumber props e s,
  fst (fold_left (entityProp toNumber) props (e, s))
  = fst (fold_left (entityProp toNumber) props (e, noHeader s))
  /\ noHeader (snd (fold_left (entityProp toNumber) props (e, s)))
     = noHeader (snd (fold_left (entityProp toNumber) props (e, noHeader s))).
Proof.
  intros toNumber props; induction props as [|p r IH]; intros e s; cbn [fold_left].
  - split; [reflexivity | symmetry; apply noHeader_idem].
  - destruct (noHeader_entityProp toNumber e s p) as [F S].
    destruct (entityProp toNumber (e, s) p) as [e1 s1].
    destruct (entityProp toNumber (e, noHeader s) p) as [e2 s2].
    simpl in F, S. subst e2.
    destruct (IH e1 s1) as [F1 S1]. destruct (IH e1 s2) as [F2 S2].
    rewrite S in F1, S1. split; congruence.
Qed.

Lemma noHeader_parseTransform : forall toNumber s id props,
  option_map noHeader (parseTransform toNumber s id props)
  = option_map noHeader (parseTransform toNumber (noHeader s) id props).
Proof.
  intros toNumber s id props. open_parser s. unfold parseTransform. simpl.
  destruct (findIndex _ props); [|reflexivity].
  destruct (Str.indexOf _ _); [|reflexivity].
  destruct (decodeCoords _ _ _ _ _); reflexivity.
Qed.

Lemma noHeader_eq_fields : forall a b,
  noHeader a = noHeader b ->
  exists iv hd,
    a = set_data (AcmiData.set_isValid iv (AcmiData.set_header hd (_data b))) b.
Proof.
  intros a b H. open_parser a. open_parser b. unfold noHeader in H. simpl in H.
  injection H; intros; subst.
  exists iv, hd. reflexivity.
Qed.

Lemma noHeader_set : forall iv hd s,
  noHeader (set_data (AcmiData.set_isValid iv (AcmiData.set_header hd (_data s))) s)
  = noHeader s.
Proof. intros iv hd s. open_parser s. reflexivity. Qed.

Lemma noHeader_parseEntity : forall toNumber s line,
  option_map noHeader (parseEntity toNumber s line)
  = option_map noHeader (parseEntity toNumber (noHeader s) line).
Proof.
  intros toNumber s line. unfold parseEntity.
  destruct (Str.indexOf "," line) as [commaPos|]; [|open_parser s; reflexivity].
  set (id := Id.parseInt16 _).
  set (props := Str.splitUnescaped false _).
  replace (Entities.get id (AcmiData.entities (_data (noHeader s))))
    with (Entities.get id (AcmiData.entities (_data s))) by (open_parser s; reflexivity).
  replace (currentTime (noHeader s)) with (currentTime s) by (open_parser s; reflexivity).
  set (found := Entities.get id _).
  set (e0 := match found with Some e => e | None => _ end).
  destruct (noHeader_fold_entityProp toNumber props e0 s) as [F S].
  destruct (fold_left _ props (e0, s)) as [e1 s1].
  destruct (fold_left _ props (e0, noHeader s)) as [e2 s2].
  simpl in F, S. subst e2.
  destruct (noHeader_eq_fields s1 s2 S) as (iv & hd & ->).
  clear S. open_parser s2. simpl.
  destruct found; simpl.
  - destruct (Id.isIn id fi); [|reflexivity].
    rewrite noHeader_parseTransform. symmetry. rewrite noHeader_parseTransform. reflexivity.
  - destruct (keepEntity fl e1); simpl.
    + destruct (Id.isIn id (fi ++ [id])); [|reflexivity].
      rewrite noHeader_parseTransform. symmetry. rewrite noHeader_parseTransform. reflexivity.
    + destruct (Id.isIn id fi); [|reflexivity].
      rewrite noHeader_parseTransform. symmetry. rewrite noHeader_parseTransform. reflexivity.
Qed.

Lemma noHeader_parseLine : forall toNumber dayjs s,
  option_map noHeader (_parseLine toNumber dayjs s)
  = option_map noHeader (_parseLine toNumber dayjs (noHeader s)).
Proof.
  intros toNumber dayjs s. unfold _parseLine.
  replace (_currentLine (noHeader s)) with (_currentLine s) by (open_parser s; reflexivity).
  assert (C : forall r : option AcmiParser.t,
             option_map noHeader (option_map (set_currentLine EmptyString) r)
             = option_map (set_currentLine EmptyString) (option_map noHeader r)).
  { intros [r|]; [|reflexivity]. simpl. open_parser r. reflexivity. }
  rewrite !C. f_equal.
  destruct (Str.startsWith _ "0,Event"); [symmetry; apply (f_equal Some), noHeader_idem|].
  destruct (Str.startsWith _ "0,").
  { simpl. f_equal. unfold parseGlobalRow.
    apply noHeader_fold. intros; apply noHeader_globalProp. }
  destruct (Str.startsWith _ "#"); [simpl; f_equal; apply noHeader_parseTimeMarker|].
  destruct (Str.startsWith _ "-"); [simpl; f_equal; apply noHeader_parseRemoval|].
  apply noHeader_parseEntity.
Qed.

Lemma noHeader_physicalLine : forall toNumber dayjs s index line,
  option_map noHeader (physicalLine toNumber dayjs s index line)
  = option_map noHeader (physicalLine toNumber dayjs (noHeader s) index line).
Proof.
  intros toNumber dayjs s index line. unfold physicalLine.
  destruct (1 <? index)%nat; [|symmetry; apply (f_equal Some), noHeader_idem].
  destruct (_ && _); [|symmetry; apply (f_equal Some), noHeader_idem].
  destruct (Str.endsWith _ _).
  - simpl. f_equal. open_parser s. reflexivity.
  - rewrite noHeader_parseLine. symmetry. rewrite noHeader_parseLine.
    f_equal. f_equal. open_parser s. reflexivity.
Qed.

Lemma noHeader_scanLoop : forall toNumber dayjs buffer rest current start previousCR index s,
  option_map noHeader (scanLoop toNumber dayjs buffer rest current start previousCR index s)
  = option_map noHeader
      (scanLoop toNumber dayjs buffer rest current start previousCR index (noHeader s)).
Proof.
  intros toNumber dayjs buffer rest.
  induction rest as [|b rest IH]; intros current start previousCR index s; simpl.
  - symmetry; apply (f_equal Some), noHeader_idem.
  - destruct (Byte.eqb b x0d); [apply IH|].
    destruct (Byte.eqb b x0a); [|apply IH].
    pose proof (noHeader_physicalLine toNumber dayjs s index
                  (decode (slice start (if previousCR then current - 1 else current) buffer)))
      as P.
    destruct (physicalLine toNumber dayjs s _ _) as [s1|];
      destruct (physicalLine toNumber dayjs (noHeader s) _ _) as [s2|];
      simpl in P; try discriminate; [|reflexivity].
    injection P as P.
    rewrite (IH _ _ _ _ s1), (IH _ _ _ _ s2), P. reflexivity.
Qed.

Lemma noHeader_finishContent : forall s,
  noHeader (finishContent s) = noHeader (finishContent (noHeader s)).
Proof.
  intros s. open_parser s. unfold finishContent. simpl.
  destruct (0 <? _)%nat; [|reflexivity].
  destruct (findIndex _ _); [destruct (Dj.isValid gp.(GlobalProperties.referenceTime))|];
    reflexivity.
Qed.

Lemma noHeader_parseHeader : forall s buffer, noHeader (_parseHeader s buffer) = noHeader s.
Proof.
  intros s buffer. unfold _parseHeader.
  destruct (_headerPattern _) as [[type version]|]; [|reflexivity].
  open_parser s. reflexivity.
Qed.

(** The content loop, started after the header check or without it,
    ends in the same state up to the header and [isValid]. *)
Lemma parseContent_after_header : forall toNumber dayjs s buffer,
  option_map noHeader (_parseContent toNumber dayjs (_parseHeader s buffer) buffer)
  = option_map noHeader (_parseContent toNumber dayjs s buffer).
Proof.
  intros toNumber dayjs s buffer. unfold _parseContent.
  pose proof (noHeader_scanLoop toNumber dayjs buffer buffer 0 0 false 0 (_parseHeader s buffer))
    as A.
  pose proof (noHeader_scanLoop toNumber dayjs buffer buffer 0 0 false 0 s) as B.
  rewrite noHeader_parseHeader in A. rewrite <- B in A. clear B.
  destruct (scanLoop _ _ _ _ _ _ _ _ (_parseHeader s buffer)) as [s1|];
    destruct (scanLoop _ _ _ _ _ _ _ _ s) as [s2|]; simpl in A; try discriminate;
    [|reflexivity].
  injection A as A. simpl.
  rewrite (noHeader_finishContent s1), (noHeader_finishContent s2), A. reflexivity.
Qed.

(** ** The header and [isValid] *)

Lemma parseBuffer_entities : forall toNumber dayjs self buffer d p,
  _parseBuffer toNumber dayjs self buffer = Some (d, p) ->
  exists self1,
    _parseContent toNumber dayjs (_parseHeader self buffer) buffer = Some self1
    /\ AcmiData.entities d = finalizedEntities (_data self1).
Proof.
  intros toNumber dayjs self buffer d p. unfold _parseBuffer.
  destruct (_parseContent _ _ _ _) as [self1|]; [|discriminate].
  intros H. injection H as Hd _. exists self1. split; [reflexivity|].
  subst d. destruct self1 as [cl ts fr de fi [iv hd gp tsp en frs] fl la lo].
  reflexivity.
Qed.

Lemma parseHeader_valid : forall self buffer type version,
  _headerPattern (decode (slice 0 64 buffer)) = Some (type, version) ->
  valid (_parseHeader self buffer) = validHeader type version.
Proof.
  intros self buffer type version H. unfold _parseHeader. rewrite H.
  open_parser self. reflexivity.
Qed.

Lemma finishContent_valid : forall self,
  valid self = false -> valid (finishContent self) = false.
Proof.
  intros self V. unfold finishContent.
  destruct (0 <? _)%nat; [|exact V].
  destruct (findIndex _ _); [destruct (Dj.isValid _)|]; open_parser self;
    solve [exact V | reflexivity].
Qed.

(** C1 (amended).  When the first 64 bytes match the header pattern and
    the captured file type is not [text/acmi/tacview] or the captured
    version is neither [2.1] nor [2.2], the data [parse] returns has
    [isValid = false].  Parsing does not halt there: the frames, the
    global properties, the time span and the entities of the returned
    data are those the content loop yields when it is run on the same
    bytes without any header check, the entities with every field they
    hold and with the end [_parseBuffer] fills in. *)
Theorem C1_invalid_header_clears_isValid :
  forall (toNumber : string -> float) (dayjs : string -> Dj.Dayjs)
         (unzip : list byte -> option (list (list byte)))
         (self : AcmiParser.t) (data buffer : list byte) (filter : option (list string))
         (type version : string) (d : AcmiData.t) (p : AcmiParser.t),
    parsedBytes unzip data = Some buffer ->
    _headerPattern (decode (slice 0 64 buffer)) = Some (type, version) ->
    validHeader type version = false ->
    parse toNumber dayjs unzip self data filter = Some (d, p) ->
    AcmiData.isValid d = false
    /\ exists self1,
         _parseContent toNumber dayjs (resetForParse self filter) buffer = Some self1
         /\ AcmiData.frames d = AcmiData.frames (_data self1)
         /\ AcmiData.globalProperties d = AcmiData.globalProperties (_data self1)
         /\ AcmiData.timeSpan d = AcmiData.timeSpan (_data self1)
         /\ AcmiData.entities d = finalizedEntities (_data self1).
Proof.
  intros toNumber dayjs unzip self data buffer filter type version d p Hb Hh Hv H.
  rewrite parse_parsedBytes, Hb in H.
  destruct (parseBuffer_entities _ _ _ _ _ _ H) as (self1' & Hc & Hen).
  apply parseBuffer_inv in H. destruct H as (self1 & Hs & Hfr & Hi & Hts & Hgp & _).
  unfold _parseContent in Hc. rewrite Hs in Hc. simpl in Hc. injection Hc as <-.
  split.
  - rewrite Hi. apply finishContent_valid.
    apply stepOK_scanLoop in Hs. destruct Hs as (V & _). apply V.
    rewrite (parseHeader_valid _ _ _ _ Hh). exact Hv.
  - pose proof (parseContent_after_header toNumber dayjs (resetForParse self filter) buffer)
      as A.
    unfold _parseContent in A at 1. rewrite Hs in A. simpl in A.
    destruct (_parseContent toNumber dayjs (resetForParse self filter) buffer) as [s2|];
      [|discriminate].
    injection A as A. exists s2. split; [reflexivity|].
    destruct (noHeader_eq_fields _ _ A) as (iv & hd & E).
    rewrite Hfr, Hgp, Hts, Hen, E. open_parser s2. repeat split.
Qed.

(** C1 (witness): the file with version 2.3. *)
Lemma C1_invalid_header_clears_isValid_witness :
  exists d p,
    parsedBytes Host.unzip (list_byte_of_string Scenario.wrongVersion)
    = Some (list_byte_of_string Scenario.wrongVersion)
    /\ _headerPattern (decode (slice 0 64 (list_byte_of_string Scenario.wrongVersion)))
       = Some ("text/acmi/tacview", "2.3")
    /\ validHeader "text/acmi/tacview" "2.3" = false
    /\ Host.parse Scenario.wrongVersion None = Some (d, p)
    /\ AcmiData.isValid d = false
    /\ exists self1,
         _parseContent Host.toNumber Host.dayjs (resetForParse AcmiParser.new None)
                       (list_byte_of_string Scenario.wrongVersion) = Some self1
         /\ AcmiData.frames d = AcmiData.frames (_data self1)
         /\ AcmiData.globalProperties d = AcmiData.globalProperties (_data self1)
         /\ AcmiData.timeSpan d = AcmiData.timeSpan (_data self1)
         /\ AcmiData.entities d = finalizedEntities (_data self1).
Proof.
  do 2 eexists.
  split; [vm_compute; reflexivity|].
  split; [vm_compute; reflexivity|].
  split; [vm_compute; reflexivity|].
  split; [vm_compute; reflexivity|].
  eapply (C1_invalid_header_clears_isValid Host.toNumber Host.dayjs Host.unzip AcmiParser.new
            (list_byte_of_string Scenario.wrongVersion)
            (list_byte_of_string Scenario.wrongVersion) None
            "text/acmi/tacview" "2.3");
    vm_compute; reflexivity.
Defined.

(** C1 (counterexample).  The file with version 2.3 has an invalid
    header, yet its content is decoded: the returned data holds the
    global property [Title], the entity [a] and two frames.  And the
    empty buffer, which has no header at all, is returned with
    [isValid = true]. *)
Lemma C1_counterexample :
  exists d p d0 p0,
    _headerPattern (decode (slice 0 64 (list_byte_of_string Scenario.wrongVersion)))
    = Some ("text/acmi/tacview", "2.3")
    /\ validHeader "text/acmi/tacview" "2.3" = false
    /\ Host.parse Scenario.wrongVersion None = Some (d, p)
    /\ GlobalProperties.title (AcmiData.globalProperties d) = Some "flight"
    /\ Entities.has Scenario.idA (AcmiData.entities d) = true
    /\ scenesOf d = [ (Num.ofZ 0, []); (Num.ofZ 5, [Scenario.idA]) ]
    /\ _headerPattern (decode (slice 0 64 [])) = None
    /\ Host.parse EmptyString None = Some (d0, p0)
    /\ AcmiData.isValid d0 = true.
Proof.
  do 4 eexists.
  split; [vm_compute; reflexivity|].
  split; [vm_compute; reflexivity|].
  split; [vm_compute; reflexivity|].
  split; [vm_compute; reflexivity|].
  split; [vm_compute; reflexivity|].
  split; [vm_compute; reflexivity|].
  split; [vm_compute; reflexivity|].
  split; vm_compute; reflexivity.
Qed.

(** A type line that holds U+2028: the dot stops there, the pattern
    fails, and the header is neither recorded nor checked, whatever the
    version line says. *)
Lemma line_separator_in_header_example :
  let text :=
    String.append "FileType=text/acmi/tacview"
      (String "226" (String "128" (String "168"
         (String.append Host.nl (String.append "FileVersion=2.3" Host.nl))))) in
  _headerPattern (decode (slice 0 64 (list_byte_of_string text))) = None
  /\ exists d p, Host.parse text None = Some (d, p) /\ AcmiData.isValid d = true.
Proof.
  split; [vm_compute; reflexivity|].
  do 2 eexists. split; vm_compute; reflexivity.
Qed.

(** ** The time span *)

Lemma findIndex_find : forall (A : Type) (q : A -> bool) (l : list A) (dflt : A),
  find q l = match findIndex q l with
             | Some i => Some (nth i l dflt)
             | None => None
             end.
Proof.
  intros A q l dflt; induction l as [|x r IH]; simpl; [reflexivity|].
  destruct (q x); [reflexivity|]. rewrite IH. destruct (findIndex q r); reflexivity.
Qed.

Lemma nth_last_snoc : forall (A : Type) (l : list A) (c dflt : A),
  nth (List.length (l ++ [c]) - 1) (l ++ [c]) dflt = c.
Proof.
  intros A l c dflt. rewrite length_app. simpl.
  replace (List.length l + 1 - 1) with (List.length l) by lia.
  rewrite app_nth2 by lia. rewrite Nat.sub_diag. reflexivity.
Qed.

(** C6 (amended).  When the returned data has at least one frame (some
    time marker changed the time stamp during the parse): if the
    reference time is valid and some frame has a non-empty scene, the
    time span of the data starts at the reference time plus the stamp of
    the first such frame and ends at the reference time plus the stamp of
    the last frame; if the reference time is invalid or every scene is
    empty, [isValid] is [false].  When the returned data has no frame,
    its time span is left unset. *)
Theorem C6_time_span :
  forall (toNumber : string -> float) (dayjs : string -> Dj.Dayjs)
         (unzip : list byte -> option (list (list byte)))
         (self : AcmiParser.t) (data : list byte) (filter : option (list string))
         (d : AcmiData.t) (p : AcmiParser.t),
    parse toNumber dayjs unzip self data filter = Some (d, p) ->
    let referenceTime := GlobalProperties.referenceTime (AcmiData.globalProperties d) in
    (AcmiData.frames d <> [] ->
     (forall first : Frame.t,
         Dj.isValid referenceTime = true ->
         find nonEmptyFrame (AcmiData.frames d) = Some first ->
         TimeSpan.start (AcmiData.timeSpan d) = Dj.add referenceTime (Frame.timeStamp first)
         /\ TimeSpan.end_ (AcmiData.timeSpan d)
            = Dj.add referenceTime (Frame.timeStamp (last (AcmiData.frames d) first)))
     /\ (Dj.isValid referenceTime = false \/ find nonEmptyFrame (AcmiData.frames d) = None ->
         AcmiData.isValid d = false))
    /\ (AcmiData.frames d = [] -> AcmiData.timeSpan d = TimeSpan.new).
Proof.
  intros toNumber dayjs unzip self data filter d p H referenceTime.
  rewrite parse_parsedBytes in H.
  destruct (parsedBytes unzip data) as [buffer|]; [|discriminate].
  apply parseBuffer_inv in H. destruct H as (self1 & Hs & Hfr & Hiv & Hts & Hgp & _).
  unfold referenceTime. rewrite Hfr, Hiv, Hts, Hgp. clear Hfr Hiv Hts Hgp referenceTime.
  apply stepOK_scanLoop in Hs. destruct Hs as (_ & _ & Hspan).
  rewrite parseHeader_timeSpan in Hspan. simpl in Hspan.
  rewrite finishContent_frames. unfold finishContent.
  destruct (AcmiData.frames (_data self1)) as [|f0 fs] eqn:E.
  { split; [intros C; contradiction|]. intros _. exact Hspan. }
  split; [intros _ | intros C; destruct fs; discriminate].
  rewrite <- E.
  assert (L : (0 <? List.length (AcmiData.frames (_data self1)))%nat = true)
    by (rewrite E; reflexivity).
  rewrite L. clear L E f0 fs.
  rewrite (findIndex_find _ nonEmptyFrame _ (_currentFrame self1)).
  change (fun frame : Frame.t => (0 <? JsMap.size (Frame.scene frame))%nat) with nonEmptyFrame.
  destruct (findIndex nonEmptyFrame _) as [i|].
  - destruct (Dj.isValid (GlobalProperties.referenceTime
                (AcmiData.globalProperties
                   (AcmiData.set_frames (AcmiData.frames (_data self1) ++ [_currentFrame self1])
                      (_data self1))))) eqn:V.
    + rewrite nth_last_snoc.
      open_parser self1. simpl in *. split.
      * intros first _ F. injection F as <-. rewrite last_last. split; reflexivity.
      * intros [C|C]; [rewrite V in C|]; discriminate.
    + open_parser self1. simpl in *. split.
      * intros first C. rewrite V in C. discriminate.
      * reflexivity.
  - open_parser self1. simpl. split.
    + intros first _ C. discriminate.
    + reflexivity.
Qed.

(** C6 (witness): the minimal file, whose first frame is not empty. *)
Lemma C6_time_span_witness :
  exists d p,
    Host.parse Scenario.minimal None = Some (d, p)
    /\ (let referenceTime := GlobalProperties.referenceTime (AcmiData.globalProperties d) in
        (AcmiData.frames d <> [] ->
         (forall first : Frame.t,
             Dj.isValid referenceTime = true ->
             find nonEmptyFrame (AcmiData.frames d) = Some first ->
             TimeSpan.start (AcmiData.timeSpan d) = Dj.add referenceTime (Frame.timeStamp first)
             /\ TimeSpan.end_ (AcmiData.timeSpan d)
                = Dj.add referenceTime (Frame.timeStamp (last (AcmiData.frames d) first)))
         /\ (Dj.isValid referenceTime = false \/ find nonEmptyFrame (AcmiData.frames d) = None ->
             AcmiData.isValid d = false))
        /\ (AcmiData.frames d = [] -> AcmiData.timeSpan d = TimeSpan.new)).
Proof.
  do 2 eexists.
  split; [vm_compute; reflexivity|].
  eapply (C6_time_span Host.toNumber Host.dayjs Host.unzip AcmiParser.new
            (list_byte_of_string Scenario.minimal) None).
  vm_compute; reflexivity.
Defined.

(** The time span of the minimal file: from the reference time to one
    second later. *)
Lemma minimal_time_span :
  exists d p,
    Host.parse Scenario.minimal None = Some (d, p)
    /\ List.length (AcmiData.frames d) = 2
    /\ AcmiData.timeSpan d
       = TimeSpan.mk (Host.dayjs "2024-01-01T00:00:00Z") (Host.dayjs "2024-01-01T00:00:01Z")
    /\ AcmiData.isValid d = true.
Proof.
  do 2 eexists. split; [vm_compute; reflexivity|].
  repeat split; vm_compute; reflexivity.
Qed.

(** C6 (counterexample).  The file without time marker has a valid
    header, a valid reference time and an entity with a position, but no
    frame is ever pushed: the returned data has no frame, hence no
    non-empty frame, its time span is left unset, and [isValid] is still
    [true]. *)
Lemma C6_counterexample :
  exists d p,
    Host.parse Scenario.noMarker None = Some (d, p)
    /\ AcmiData.frames d = []
    /\ find nonEmptyFrame (AcmiData.frames d) = None
    /\ Dj.isValid (GlobalProperties.referenceTime (AcmiData.globalProperties d)) = true
    /\ TimeSpan.isValid (AcmiData.timeSpan d) = false
    /\ AcmiData.isValid d = true.
Proof.
  do 2 eexists.
  split; [vm_compute; reflexivity|].
  repeat split; vm_compute; reflexivity.
Qed.

(** ** Bytes after the last line feed *)

Lemma ascii_of_byte_LF : forall b : byte,
  b <> x0a -> Ascii.eqb (ascii_of_byte b) LF = false.
Proof.
  intros b H. destruct b; try reflexivity. contradiction.
Qed.

Lemma string_of_list_byte_app : forall a b,
  string_of_list_byte (a ++ b) = (string_of_list_byte a ++ string_of_list_byte b)%string.
Proof.
  unfold string_of_list_byte.
  induction a as [|x a IH]; intros b; simpl; [reflexivity|].
  now rewrite IH.
Qed.

Lemma lineFree_bytes : forall l,
  Forall (fun b => b <> x0a) l -> lineFree (string_of_list_byte l).
Proof.
  unfold string_of_list_byte.
  induction 1 as [|b l Hb Hl IH]; simpl; [exact I|].
  split; [apply ascii_of_byte_LF; exact Hb | exact IH].
Qed.

Lemma lineFree_sliceFrom : forall n s, lineFree s -> lineFree (Str.sliceFrom n s).
Proof.
  induction n as [|n IH]; intros s H; [exact H|].
  destruct s as [|c r]; [exact I|]. simpl. apply IH. apply H.
Qed.

Lemma matchLine_lineFree : forall s, lineFree s -> matchLine s = None.
Proof.
  induction s as [|c r IH]; intros H; [reflexivity|].
  cbn [matchLine]. destruct H as [Hc Hr]. rewrite Hc.
  destruct (Ascii.eqb c CR).
  - destruct r as [|d r']; [reflexivity|]. destruct Hr as [Hd _]. now rewrite Hd.
  - destruct (separatorAt (String c r)); [reflexivity|]. now rewrite (IH Hr).
Qed.

(** A separator seen at the head of [r ++ t] is seen at the head of [r],
    unless [r] is too short to hold it, and then [r] has no line feed. *)
Lemma separatorAt_app : forall c r t,
  separatorAt (String c (r ++ t)) = separatorAt (String c r)
  \/ (separatorAt (String c (r ++ t)) = true /\ lineFree r).
Proof.
  intros c r t. destruct r as [|d [|e r]].
  - destruct (separatorAt (String c (EmptyString ++ t))) eqn:E.
    + right. split; [reflexivity | exact I].
    + left. reflexivity.
  - destruct (separatorAt (String c (String d EmptyString ++ t))) eqn:E.
    + right. split; [reflexivity|].
      destruct t as [|e t]; [discriminate|]. simpl in E. unfold isLineSeparator in E.
      apply Bool.andb_true_iff in E. destruct E as [E _].
      apply Bool.andb_true_iff in E. destruct E as [_ E].
      apply Ascii.eqb_eq in E. subst d. split; [reflexivity | exact I].
    + left. reflexivity.
  - left. reflexivity.
Qed.

Lemma matchLine_app : forall s t,
  lineFree t ->
  matchLine (s ++ t)%string
  = match matchLine s with
    | Some (g, rest) => Some (g, (rest ++ t)%string)
    | None => None
    end.
Proof.
  induction s as [|c r IH]; intros t H.
  - simpl. apply matchLine_lineFree. exact H.
  - cbn [String.append matchLine]. destruct (Ascii.eqb c LF); [reflexivity|].
    destruct (Ascii.eqb c CR).
    + destruct r as [|d r']; simpl.
      * destruct t as [|e t']; [reflexivity|]. destruct H as [He _]. now rewrite He.
      * destruct (Ascii.eqb d LF); reflexivity.
    + destruct (separatorAt_app c r t) as [E|[E L]].
      * rewrite E. destruct (separatorAt (String c r)); [reflexivity|].
        rewrite (IH t H). destruct (matchLine r) as [[g rest]|]; reflexivity.
      * rewrite E, (matchLine_lineFree r L).
        destruct (separatorAt (String c r)); reflexivity.
Qed.

Lemma prefix_short : forall q s,
  String.length s < String.length q -> String.prefix q s = false.
Proof.
  induction q as [|c q IH]; intros s H; simpl in H; [lia|].
  destruct s as [|d s]; simpl; [reflexivity|].
  destruct (ascii_dec c d); [|reflexivity]. apply IH. simpl in H. lia.
Qed.

(** A prefix test on [s ++ t] either is the test on [s], or succeeds
    only because [s] is too short, and then what follows the prefix lies
    in [t]. *)
Lemma prefix_app_cases : forall q s t,
  (String.prefix q (s ++ t)%string = String.prefix q s
   /\ (String.prefix q s = true ->
       Str.sliceFrom (String.length q) (s ++ t)%string
       = (Str.sliceFrom (String.length q) s ++ t)%string))
  \/ (String.prefix q s = false
      /\ String.length s < String.length q
      /\ exists n, Str.sliceFrom (String.length q) (s ++ t)%string = Str.sliceFrom n t).
Proof.
  induction q as [|c q IH]; intros s t.
  - left. split; [destruct s, t; reflexivity | intros _; reflexivity].
  - destruct s as [|d s].
    + right. split; [reflexivity|]. split; [simpl; lia|].
      exists (String.length (String c q)). reflexivity.
    + simpl. destruct (ascii_dec c d) as [e|e].
      * destruct (IH s t) as [[P1 P2]|[P1 [P2 [n P3]]]].
        -- left. split; assumption.
        -- right. split; [exact P1|]. split; [lia|]. exists n. exact P3.
      * left. split; [reflexivity | discriminate].
Qed.

Lemma blind_prefix : forall q k,
  failsLineFree k -> appBlind k ->
  let k' := fun s => if Str.startsWith s q then k (Str.sliceFrom (String.length q) s) else None in
  failsLineFree k' /\ appBlind k'.
Proof.
  intros q k K1 K2 k'. split.
  - intros u H. unfold k'. destruct (Str.startsWith u q); [|reflexivity].
    apply K1, lineFree_sliceFrom, H.
  - intros s t H. unfold k', Str.startsWith.
    destruct (prefix_app_cases q s t) as [[P1 P2]|[P1 [_ [n P3]]]].
    + rewrite P1. destruct (String.prefix q s); [|reflexivity].
      rewrite (P2 eq_refl). apply K2, H.
    + rewrite P1, P3. destruct (String.prefix q (s ++ t)); [|reflexivity].
      apply K1, lineFree_sliceFrom, H.
Qed.

Lemma blind_matchLine : forall k : string -> string -> option (string * string),
  (forall g, appBlind (k g)) ->
  let k' := fun s => match matchLine s with
                     | Some (g, rest) => k g rest
                     | None => None
                     end in
  failsLineFree k' /\ appBlind k'.
Proof.
  intros k K k'. split.
  - intros u H. unfold k'. now rewrite (matchLine_lineFree u H).
  - intros s t H. unfold k'. rewrite (matchLine_app s t H).
    destruct (matchLine s) as [[g rest]|]; [|reflexivity].
    apply (K g), H.
Qed.

Lemma blind_headerFields : failsLineFree headerFields /\ appBlind headerFields.
Proof.
  unfold headerFields.
  apply (blind_prefix "FileType="
           (fun s => match matchLine s with
                     | Some (type, r) =>
                         if Str.startsWith r "FileVersion=" then
                           match matchLine (Str.sliceFrom 12 r) with
                           | Some (version, _) => Some (type, version)
                           | None => None
                           end
                         else None
                     | None => None
                     end));
    apply (blind_matchLine
             (fun type r =>
                if Str.startsWith r "FileVersion=" then
                  match matchLine (Str.sliceFrom 12 r) with
                  | Some (version, _) => Some (type, version)
                  | None => None
                  end
                else None));
    intros type;
    apply (blind_prefix "FileVersion="
             (fun s => match matchLine s with
                       | Some (version, _) => Some (type, version)
                       | None => None
                       end));
    apply (blind_matchLine (fun version _ => Some (type, version)));
    intros version s t H; reflexivity.
Qed.

Lemma headerPattern_fields : forall s,
  _headerPattern s
  = headerFields (if Str.startsWith s bomString then Str.sliceFrom 3 s else s).
Proof. reflexivity. Qed.

Lemma headerPattern_lineFree : forall u, lineFree u -> _headerPattern u = None.
Proof.
  intros u H. rewrite headerPattern_fields.
  destruct blind_headerFields as [F _].
  destruct (Str.startsWith u bomString); apply F; [apply lineFree_sliceFrom|]; exact H.
Qed.

Lemma headerPattern_short : forall s, String.length s < 3 -> _headerPattern s = None.
Proof.
  intros s H. rewrite headerPattern_fields. unfold Str.startsWith.
  rewrite (prefix_short bomString s) by (simpl; lia).
  unfold headerFields, Str.startsWith.
  now rewrite (prefix_short "FileType=" s) by (simpl; lia).
Qed.

Lemma headerPattern_app : forall s t,
  lineFree t -> _headerPattern (s ++ t)%string = _headerPattern s.
Proof.
  intros s t H. destruct blind_headerFields as [F A].
  destruct (prefix_app_cases bomString s t) as [[P1 P2]|[P1 [P2 [n P3]]]].
  - rewrite !headerPattern_fields. unfold Str.startsWith. rewrite P1.
    destruct (String.prefix bomString s).
    + change 3 with (String.length bomString). rewrite (P2 eq_refl). apply A, H.
    + apply A, H.
  - rewrite (headerPattern_short s) by (simpl in P2; lia).
    rewrite headerPattern_fields. unfold Str.startsWith.
    destruct (String.prefix bomString (s ++ t)).
    + change 3 with (String.length bomString). rewrite P3.
      apply F, lineFree_sliceFrom, H.
    + rewrite (A s t H). unfold headerFields, Str.startsWith.
      now rewrite (prefix_short "FileType=" s) by (simpl in P2 |- *; lia).
Qed.

Lemma length_string_of_list_byte : forall l,
  String.length (string_of_list_byte l) = List.length l.
Proof.
  unfold string_of_list_byte. induction l as [|b l IH]; simpl; [reflexivity|].
  now rewrite IH.
Qed.

(** Decoding [B ++ T] appends the text of [T] to the decoding of [B],
    unless [B] is shorter than a byte-order mark that [T] completes. *)
Lemma decode_app_cases : forall B T,
  decode (B ++ T) = (decode B ++ string_of_list_byte T)%string
  \/ (List.length B < 3 /\ decode B = string_of_list_byte B
      /\ exists n, decode (B ++ T) = string_of_list_byte (skipn n T)).
Proof.
  intros B T.
  destruct B as [|b1 [|b2 [|b3 B]]].
  - right. split; [simpl; lia|]. split; [reflexivity|].
    simpl. unfold decode.
    destruct T as [|t1 [|t2 [|t3 T]]]; try (exists 0; reflexivity).
    destruct (_ && _); [exists 3 | exists 0]; reflexivity.
  - simpl. unfold decode.
    destruct T as [|t1 [|t2 T]]; try (left; reflexivity).
    destruct (_ && _).
    + right. split; [simpl; lia|]. split; [reflexivity|]. exists 2. reflexivity.
    + left. reflexivity.
  - simpl. unfold decode.
    destruct T as [|t1 T]; try (left; reflexivity).
    destruct (_ && _).
    + right. split; [simpl; lia|]. split; [reflexivity|]. exists 1. reflexivity.
    + left. reflexivity.
  - left. simpl. destruct (_ && _).
    + apply string_of_list_byte_app.
    + apply (string_of_list_byte_app (b1 :: b2 :: b3 :: B) T).
Qed.

Lemma Forall_skipn : forall (A : Type) (P : A -> Prop) n (l : list A),
  Forall P l -> Forall P (skipn n l).
Proof.
  intros A P n; induction n as [|n IH]; intros l H; [exact H|].
  destruct l as [|x l]; [exact H|]. simpl. apply IH. now inversion H.
Qed.

Lemma Forall_firstn : forall (A : Type) (P : A -> Prop) n (l : list A),
  Forall P l -> Forall P (firstn n l).
Proof.
  intros A P n; induction n as [|n IH]; intros l H; [constructor|].
  destruct l as [|x l]; [constructor|]. simpl. inversion H; subst.
  constructor; [assumption | apply IH; assumption].
Qed.

Lemma headerPattern_decode_app : forall B T,
  Forall (fun b => b <> x0a) T ->
  _headerPattern (decode (B ++ T)) = _headerPattern (decode B).
Proof.
  intros B T H.
  destruct (decode_app_cases B T) as [E|[L [E1 [n E2]]]].
  - rewrite E. apply headerPattern_app, lineFree_bytes, H.
  - rewrite E2, E1.
    rewrite headerPattern_lineFree by (apply lineFree_bytes, Forall_skipn, H).
    symmetry. apply headerPattern_short. now rewrite length_string_of_list_byte.
Qed.

Lemma slice_app : forall (A : Type) from to (b t : list A),
  to <= List.length b -> slice from to (b ++ t) = slice from to b.
Proof.
  intros A from to b t H. unfold slice.
  rewrite skipn_app, firstn_app, length_skipn.
  replace (to - from - (List.length b - from)) with 0 by lia.
  simpl. apply app_nil_r.
Qed.

Lemma parseHeader_app : forall self buffer tail,
  Forall (fun b => b <> x0a) tail ->
  _parseHeader self (buffer ++ tail) = _parseHeader self buffer.
Proof.
  intros self buffer tail H. unfold _parseHeader.
  replace (decode (slice 0 64 (buffer ++ tail)))
    with (decode (slice 0 64 buffer ++ firstn (64 - List.length buffer) tail)).
  - rewrite headerPattern_decode_app by (apply Forall_firstn, H). reflexivity.
  - unfold slice. simpl skipn. f_equal. symmetry. apply firstn_app.
Qed.

Lemma scanLoop_lineFree : forall toNumber dayjs buffer tail current start previousCR index self,
  Forall (fun b => b <> x0a) tail ->
  scanLoop toNumber dayjs buffer tail current start previousCR index self = Some self.
Proof.
  intros toNumber dayjs buffer tail.
  induction tail as [|b tail IH]; intros current start previousCR index self H; simpl;
    [reflexivity|].
  inversion H as [|? ? Hb Ht]; subst.
  destruct (Byte.eqb b x0d); [apply IH, Ht|].
  destruct (Byte.eqb b x0a) eqn:E; [|apply IH, Ht].
  apply Byte.byte_dec_bl in E. contradiction.
Qed.

Lemma scanLoop_app : forall toNumber dayjs buffer tail rest current start previousCR index self,
  Forall (fun b => b <> x0a) tail ->
  current + List.length rest = List.length buffer ->
  scanLoop toNumber dayjs (buffer ++ tail) (rest ++ tail) current start previousCR index self
  = scanLoop toNumber dayjs buffer rest current start previousCR index self.
Proof.
  intros toNumber dayjs buffer tail rest.
  induction rest as [|b rest IH]; intros current start previousCR index self H L.
  - simpl. apply scanLoop_lineFree, H.
  - simpl in L. simpl.
    destruct (Byte.eqb b x0d); [apply IH; [exact H | lia]|].
    destruct (Byte.eqb b x0a); [|apply IH; [exact H | lia]].
    rewrite slice_app by (destruct previousCR; lia).
    destruct (physicalLine _ _ _ _ _); [|reflexivity].
    apply IH; [exact H | lia].
Qed.

Lemma parseBuffer_app : forall toNumber dayjs self buffer tail,
  Forall (fun b => b <> x0a) tail ->
  _parseBuffer toNumber dayjs self (buffer ++ tail) = _parseBuffer toNumber dayjs self buffer.
Proof.
  intros toNumber dayjs self buffer tail H.
  unfold _parseBuffer, _parseContent.
  rewrite (parseHeader_app self buffer tail H).
  rewrite (scanLoop_app toNumber dayjs buffer tail buffer 0 0 false 0 _ H eq_refl).
  reflexivity.
Qed.

Lemma isZipped_app : forall buffer tail,
  _isZipped (buffer ++ tail) = false -> _isZipped buffer = false.
Proof.
  intros buffer tail. unfold _isZipped.
  destruct buffer as [|b1 [|b2 buffer]]; try reflexivity.
  intros H. exact H.
Qed.

(** C10.  Bytes that follow the last line feed of the input are never
    decoded nor dispatched: appending to an input any bytes without a
    line feed changes nothing of what [parse] returns (data and parser
    state alike), the input being taken as plain text and not as an
    archive. *)
Theorem C10_bytes_after_last_line_feed :
  forall (toNumber : string -> float) (dayjs : string -> Dj.Dayjs)
         (unzip : list byte -> option (list (list byte)))
         (self : AcmiParser.t) (buffer tail : list byte) (filter : option (list string)),
    Forall (fun b => b <> x0a) tail ->
    _isZipped (buffer ++ tail) = false ->
    parse toNumber dayjs unzip self (buffer ++ tail) filter
    = parse toNumber dayjs unzip self buffer filter.
Proof.
  intros toNumber dayjs unzip self buffer tail filter H Z.
  unfold parse. rewrite Z, (isZipped_app buffer tail Z).
  apply parseBuffer_app, H.
Qed.

(** C10 (witness): the minimal file followed by a record of entity [b]
    that no line feed ends. *)
Lemma C10_bytes_after_last_line_feed_witness :
  parse Host.toNumber Host.dayjs Host.unzip AcmiParser.new
        (list_byte_of_string Scenario.minimal ++ list_byte_of_string "b,T=9|9|9") None
  = parse Host.toNumber Host.dayjs Host.unzip AcmiParser.new
          (list_byte_of_string Scenario.minimal) None.
Proof.
  apply (C10_bytes_after_last_line_feed Host.toNumber Host.dayjs Host.unzip AcmiParser.new
           (list_byte_of_string Scenario.minimal) (list_byte_of_string "b,T=9|9|9") None).
  - repeat (constructor; [discriminate|]). constructor.
  - vm_compute. reflexivity.
Defined.

(** The same record ended by a line feed is decoded: entity [b] enters
    the returned entities; without the line feed it does not. *)
Lemma dropped_record_example :
  exists d p d' p',
    Host.parse (Scenario.minimal ++ "b,T=9|9|9")%string None = Some (d, p)
    /\ Entities.has (Some 11%Z) (AcmiData.entities d) = false
    /\ Host.parse (Scenario.minimal ++ "b,T=9|9|9" ++ Host.nl)%string None = Some (d', p')
    /\ Entities.has (Some 11%Z) (AcmiData.entities d') = true.
Proof.
  do 4 eexists.
  split; [vm_compute; reflexivity|].
  split; [vm_compute; reflexivity|].
  split; vm_compute; reflexivity.
Qed.

(** * Further properties *)

(** ** The property separator *)

Lemma splitUnescaped_nonempty : forall prev s, Str.splitUnescaped prev s <> [].
Proof.
  intros prev s; revert prev; induction s as [|c r IH]; intros prev; simpl.
  - discriminate.
  - destruct (Ascii.eqb c "," && negb prev); [discriminate|].
    specialize (IH (Ascii.eqb c "\")).
    destruct (Str.splitUnescaped (Ascii.eqb c "\") r); [contradiction | discriminate].
Qed.

Lemma joinComma_consHead : forall c l,
  l <> [] -> joinComma (Str.consHead c l) = String c (joinComma l).
Proof.
  intros c [|h [|h' t]] H; [contradiction | reflexivity | reflexivity].
Qed.

(** The pieces of a split, the first one apart: joined they give the
    string again, none holds an unescaped comma, and none but the last
    one ends with a backslash. *)
Lemma splitUnescaped_pieces : forall s prev,
  exists h t,
    Str.splitUnescaped prev s = h :: t
    /\ joinComma (h :: t) = s
    /\ List.length t = unescapedCommas prev s
    /\ unescapedCommas prev h = 0
    /\ Forall (fun p => unescapedCommas false p = 0) t
    /\ (t <> [] -> endsBackslash prev h = false)
    /\ Forall (fun p => endsBackslash false p = false) (removelast t).
Proof.
  induction s as [|c r IH]; intros prev.
  - exists EmptyString, []. repeat split; try constructor. intros N. now contradiction N.
  - cbn [Str.splitUnescaped unescapedCommas].
    destruct (Ascii.eqb c "," && negb prev) eqn:E.
    + apply andb_true_iff in E. destruct E as [Ec Ep].
      apply Ascii.eqb_eq in Ec. subst c. apply Bool.negb_true_iff in Ep. subst prev.
      destruct (IH false) as (h & t & S & J & L & U & Ut & B & Bt).
      rewrite S. exists EmptyString, (h :: t).
      split; [reflexivity|].
      split; [change (joinComma (EmptyString :: h :: t))
                with (String "," (joinComma (h :: t))); now rewrite J|].
      split; [simpl; now rewrite L|].
      split; [reflexivity|].
      split; [constructor; assumption|].
      split; [reflexivity|].
      destruct t as [|h' t]; [constructor|].
      change (removelast (h :: h' :: t)) with (h :: removelast (h' :: t)).
      constructor; [apply B; discriminate | exact Bt].
    + destruct (IH (Ascii.eqb c "\")) as (h & t & S & J & L & U & Ut & B & Bt).
      rewrite S. exists (String c h), t.
      split; [reflexivity|].
      split; [change (String c h :: t) with (Str.consHead c (h :: t));
              rewrite joinComma_consHead by discriminate; now rewrite J|].
      split; [exact L|].
      split; [cbn [unescapedCommas]; rewrite E; exact U|].
      split; [exact Ut|].
      split; [exact B | exact Bt].
Qed.

(** X1.  A row is split exactly at its commas that no backslash
    precedes: the pieces joined by commas are the row again, there is one
    piece more than the row has unescaped commas, no piece holds an
    unescaped comma, and no piece but the last one ends with a backslash
    (the comma that follows it would be escaped).  So an escaped comma
    stays inside its value, with its backslash. *)
Theorem X1_split_at_unescaped_commas :
  forall s : string,
    joinComma (Str.splitUnescaped false s) = s
    /\ List.length (Str.splitUnescaped false s) = S (unescapedCommas false s)
    /\ Forall (fun p => unescapedCommas false p = 0) (Str.splitUnescaped false s)
    /\ Forall (fun p => endsBackslash false p = false)
              (removelast (Str.splitUnescaped false s)).
Proof.
  intros s.
  destruct (splitUnescaped_pieces s false) as (h & t & S & J & L & U & Ut & B & Bt).
  rewrite S. split; [exact J|]. split; [simpl; now rewrite L|].
  split; [constructor; assumption|].
  destruct t as [|h' t]; [constructor|].
  change (removelast (h :: h' :: t)) with (h :: removelast (h' :: t)).
  constructor; [apply B; discriminate | exact Bt].
Qed.

(** A name with an escaped comma, followed by a second property. *)
Lemma escaped_comma_example :
  Str.splitUnescaped false "Name=a\,b,Type=x" = ["Name=a\,b"; "Type=x"].
Proof. reflexivity. Qed.

(** ** More on the [T=] slots *)

Lemma decodeCoords_none_iff :
  forall (toNumber : string -> float) (refLong refLat : float)
         (prev : option ITransform.t) (coords : list string),
    decodeCoords toNumber refLong refLat prev coords = None <-> List.length coords < 3.
Proof.
  intros toNumber refLong refLat prev coords. unfold decodeCoords.
  destruct coords as [|a [|b [|c [|d [|e [|f rest]]]]]]; simpl; unfold slot; simpl;
    split; intros H; try lia; try reflexivity; try discriminate.
Qed.

(** X2.  The decoder of the [T=] slots throws exactly when the value has
    fewer than three slots: reading [coords[1].length] or
    [coords[2].length] of a missing slot is the only failure. *)
Theorem X2_decodeCoords_throws_below_three_slots :
  forall (toNumber : string -> float) (refLong refLat : float)
         (prev : option ITransform.t) (coords : list string),
    decodeCoords toNumber refLong refLat prev coords = None <-> List.length coords < 3.
Proof.
  intros toNumber refLong refLat prev coords.
  apply decodeCoords_none_iff.
Qed.

(** X3.  With three, four or five slots only the position is read: the
    angles of the result are those inherited from the transform of the
    entity in the current scene (undefined when there is none), whatever
    the fourth and fifth slots hold. *)
Theorem X3_short_forms_keep_orientation :
  forall (toNumber : string -> float) (refLong refLat : float)
         (prev : option ITransform.t) (a b c : string) (rest : list string),
    List.length rest <= 2 ->
    exists t,
      decodeCoords toNumber refLong refLat prev (a :: b :: c :: rest) = Some t
      /\ ITransform.roll t = ITransform.roll (inheritedTransform prev)
      /\ ITransform.pitch t = ITransform.pitch (inheritedTransform prev)
      /\ ITransform.yaw t = ITransform.yaw (inheritedTransform prev).
Proof.
  intros toNumber refLong refLat prev a b c rest H. unfold decodeCoords.
  destruct (inheritedTransform prev) as [lo la al ro pi ya].
  destruct rest as [|d [|e [|f rest]]]; simpl in H; try lia;
    simpl; unfold slot; simpl;
    destruct (nonEmpty a), (nonEmpty b), (nonEmpty c); eexists; repeat split.
Qed.

(** X3 (witness): a five-slot value. *)
Lemma X3_short_forms_keep_orientation_witness :
  exists t,
    decodeCoords Host.toNumber Num.zero Num.zero None ["1"; "2"; "3"; "4"; "5"] = Some t
    /\ ITransform.roll t = ITransform.roll (inheritedTransform None)
    /\ ITransform.pitch t = ITransform.pitch (inheritedTransform None)
    /\ ITransform.yaw t = ITransform.yaw (inheritedTransform None).
Proof.
  apply (X3_short_forms_keep_orientation Host.toNumber Num.zero Num.zero None
           "1" "2" "3" ["4"; "5"]).
  simpl. lia.
Defined.

Lemma slot_empty : forall coords k upd t c,
  nth_error coords k = Some c -> nonEmpty c = false -> slot coords k upd t = Some t.
Proof.
  intros coords k upd t c H E. unfold slot. now rewrite H, E.
Qed.

Lemma inheritedTransform_some : forall c, inheritedTransform (Some c) = c.
Proof. intros []; reflexivity. Qed.

Lemma decodeCoords_allEmpty :
  forall toNumber refLong refLat prev coords,
    3 <= List.length coords -> allEmpty coords = true ->
    decodeCoords toNumber refLong refLat prev coords = Some (inheritedTransform prev).
Proof.
  intros toNumber refLong refLat prev coords L E. unfold decodeCoords.
  assert (S : forall k upd t, k < List.length coords -> slot coords k upd t = Some t).
  { intros k upd t Hk.
    destruct (nth_error coords k) as [c|] eqn:N.
    - apply (slot_empty coords k upd t c N).
      unfold allEmpty in E. rewrite forallb_forall in E.
      apply nth_error_In in N. specialize (E c N). now destruct (nonEmpty c).
    - apply nth_error_None in N. lia. }
  destruct (List.length coords <=? 5)%nat eqn:Q.
  - repeat (rewrite S by lia; simpl). reflexivity.
  - apply Nat.leb_gt in Q.
    repeat (rewrite S by lia; simpl). reflexivity.
Qed.

Lemma jsmap_set_same :
  forall (V : Type) (i : Id.t) (v : V) (m : list (Id.t * V)),
    JsMap.get Id.sameValueZero i m = Some v -> JsMap.set Id.sameValueZero i v m = m.
Proof.
  intros V i v m; induction m as [|[k w] r IH]; simpl; [discriminate|].
  destruct (Id.sameValueZero i k) eqn:E.
  - intros H; injection H as ->. reflexivity.
  - intros H. now rewrite (IH H).
Qed.

(** X4.  A [T=] property whose slots are all empty (three slots or more)
    changes nothing for an entity that is in the current scene; for an
    entity that is not, it puts it at longitude 0, latitude 0, altitude 0
    (not at the reference point) with no angles. *)
Theorem X4_empty_slots :
  forall (toNumber : string -> float) (self : AcmiParser.t) (id : Id.t)
         (props : list string) (i : nat) (value : string),
    findIndex (fun prop => Str.startsWith prop "T=") props = Some i ->
    nth i props EmptyString = String "T" (String "=" value) ->
    3 <= List.length (Str.split "|" value) ->
    allEmpty (Str.split "|" value) = true ->
    match Scene.get id (Frame.scene (_currentFrame self)) with
    | Some _ => parseTransform toNumber self id props = Some self
    | None =>
        parseTransform toNumber self id props
        = Some (upd_scene
                  (Scene.set id (ITransform.mk Num.zero Num.zero Num.zero None None None))
                  self)
    end.
Proof.
  intros toNumber self id props i value Hi Hn L E.
  unfold parseTransform. rewrite Hi, Hn. simpl.
  rewrite (decodeCoords_allEmpty _ _ _ _ _ L E).
  destruct (Scene.get id (Frame.scene (_currentFrame self))) as [c|] eqn:G.
  - rewrite inheritedTransform_some.
    open_parser self. unfold upd_scene. simpl in *.
    unfold Scene.set. now rewrite (jsmap_set_same _ _ _ _ G).
  - reflexivity.
Qed.

(** X4 (witness): [T=||] for an entity that is not in the scene. *)
Lemma X4_empty_slots_witness :
  parseTransform Host.toNumber AcmiParser.new Scenario.idA ["Name=x"; "T=||"]
  = Some (upd_scene
            (Scene.set Scenario.idA (ITransform.mk Num.zero Num.zero Num.zero None None None))
            AcmiParser.new).
Proof.
  exact (X4_empty_slots Host.toNumber AcmiParser.new Scenario.idA ["Name=x"; "T=||"]
           1 "||" eq_refl eq_refl (le_n 3) eq_refl).
Defined.

(** ** Invariants of the record decoder *)

Section RecordInvariant.

Variable toNumber : string -> float.
Variable dayjs : string -> Dj.Dayjs.

(** A property of the parser that each branch of [_parseLine] keeps. *)
Variable P : AcmiParser.t -> Prop.

Hypothesis P_set_currentLine : forall s l, P s -> P (set_currentLine l s).
Hypothesis P_globalProp : forall s prop, P s -> P (globalProp toNumber dayjs s prop).
Hypothesis P_parseTimeMarker : forall s line, P s -> P (parseTimeMarker toNumber s line).
Hypothesis P_parseRemoval : forall s line, P s -> P (parseRemoval s line).
Hypothesis P_parseEntity :
  forall s line s', P s -> parseEntity toNumber s line = Some s' -> P s'.

Lemma kept_fold_globalProp : forall props s,
  P s -> P (fold_left (globalProp toNumber dayjs) props s).
Proof.
  induction props as [|prop props IH]; intros s H; simpl; [exact H|].
  apply IH, P_globalProp, H.
Qed.

Lemma kept_parseLine : forall s s',
  P s -> _parseLine toNumber dayjs s = Some s' -> P s'.
Proof.
  intros s s' H. unfold _parseLine.
  set (r := if Str.startsWith _ _ then _ else _).
  assert (R : forall x, r = Some x -> P x).
  { unfold r.
    destruct (Str.startsWith _ "0,Event"); [intros x E; injection E as <-; exact H|].
    destruct (Str.startsWith _ "0,");
      [intros x E; injection E as <-; apply kept_fold_globalProp, H|].
    destruct (Str.startsWith _ "#");
      [intros x E; injection E as <-; apply P_parseTimeMarker, H|].
    destruct (Str.startsWith _ "-");
      [intros x E; injection E as <-; apply P_parseRemoval, H|].
    intros x E. eapply P_parseEntity; [exact H | exact E]. }
  destruct r as [x|]; [|discriminate].
  intros E; injection E as <-. apply P_set_currentLine, (R x eq_refl).
Qed.

Lemma kept_physicalLine : forall s index line s',
  P s -> physicalLine toNumber dayjs s index line = Some s' -> P s'.
Proof.
  intros s index line s' H. unfold physicalLine.
  destruct (1 <? index)%nat; [|intros E; injection E as <-; exact H].
  destruct (_ && _); [|intros E; injection E as <-; exact H].
  destruct (Str.endsWith _ _).
  - intros E; injection E as <-. apply P_set_currentLine, H.
  - apply kept_parseLine, P_set_currentLine, H.
Qed.

Lemma kept_scanLoop : forall buffer rest current start previousCR index s s',
  P s ->
  scanLoop toNumber dayjs buffer rest current start previousCR index s = Some s' ->
  P s'.
Proof.
  intros buffer rest.
  induction rest as [|b rest IH]; intros current start previousCR index s s' H; simpl.
  - intros E; injection E as <-. exact H.
  - destruct (Byte.eqb b x0d); [apply IH, H|].
    destruct (Byte.eqb b x0a); [|apply IH, H].
    destruct (physicalLine _ _ _ _ _) as [x|] eqn:L; [|discriminate].
    apply IH. eapply kept_physicalLine; [exact H | exact L].
Qed.

End RecordInvariant.

(** *** Keys of the maps *)

Lemma sameValueZero_eq : forall a b : Id.t, Id.sameValueZero a b = true <-> a = b.
Proof.
  intros [x|] [y|]; simpl; split; intros H; try discriminate; try reflexivity.
  - apply Z.eqb_eq in H. now subst.
  - injection H as ->. apply Z.eqb_refl.
Qed.

Lemma isIn_In : forall (k : Id.t) (ids : list Id.t),
  Id.isIn k ids = true -> In k ids /\ k <> Id.NaN.
Proof.
  intros k ids H. unfold Id.isIn in H. apply existsb_exists in H.
  destruct H as (x & I & E). destruct k as [a|], x as [b|]; simpl in E; try discriminate.
  apply Z.eqb_eq in E. subst b. split; [exact I | discriminate].
Qed.

Lemma isIn_app : forall (k : Id.t) (ids more : list Id.t),
  Id.isIn k ids = true -> Id.isIn k (ids ++ more) = true.
Proof.
  intros k ids more H. unfold Id.isIn in *. rewrite existsb_app, H. reflexivity.
Qed.

Lemma jsmap_set_keys :
  forall (V : Type) (k : Id.t) (v v0 : V) (m : list (Id.t * V)),
    JsMap.get Id.sameValueZero k m = Some v0 ->
    map fst (JsMap.set Id.sameValueZero k v m) = map fst m.
Proof.
  intros V k v v0 m; induction m as [|[k' w] r IH]; simpl; [discriminate|].
  destruct (Id.sameValueZero k k'); [reflexivity|].
  intros H. simpl. now rewrite (IH H).
Qed.

Lemma jsmap_set_new :
  forall (V : Type) (k : Id.t) (v : V) (m : list (Id.t * V)),
    JsMap.get Id.sameValueZero k m = None ->
    JsMap.set Id.sameValueZero k v m = m ++ [(k, v)].
Proof.
  intros V k v m; induction m as [|[k' w] r IH]; simpl; [reflexivity|].
  destruct (Id.sameValueZero k k'); [discriminate|].
  intros H. now rewrite (IH H).
Qed.

Lemma jsmap_get_notin :
  forall (V : Type) (k : Id.t) (m : list (Id.t * V)),
    JsMap.get Id.sameValueZero k m = None -> ~ In k (map fst m).
Proof.
  intros V k m; induction m as [|[k' w] r IH]; simpl; [tauto|].
  destruct (Id.sameValueZero k k') eqn:E; [discriminate|].
  intros H [I|I].
  - subst k'. rewrite (proj2 (sameValueZero_eq k k) eq_refl) in E. discriminate.
  - exact (IH H I).
Qed.

Lemma jsmap_get_in :
  forall (V : Type) (k : Id.t) (m : list (Id.t * V)),
    In k (map fst m) -> exists v, JsMap.get Id.sameValueZero k m = Some v.
Proof.
  intros V k m I. destruct (JsMap.get Id.sameValueZero k m) as [v|] eqn:G.
  - now exists v.
  - exfalso. exact (jsmap_get_notin V k m G I).
Qed.

Lemma keys_set :
  forall (V : Type) (Q : Id.t -> Prop) (k : Id.t) (v : V) (m : list (Id.t * V)),
    Forall Q (map fst m) -> Q k -> Forall Q (map fst (JsMap.set Id.sameValueZero k v m)).
Proof.
  intros V Q k v m; induction m as [|[k' w] r IH]; simpl; intros F Hk.
  - constructor; [exact Hk | constructor].
  - inversion F as [|? ? Hh Ht]; subst.
    destruct (Id.sameValueZero k k'); simpl; constructor; auto.
Qed.

Lemma keys_delete :
  forall (V : Type) (Q : Id.t -> Prop) (k : Id.t) (m : list (Id.t * V)),
    Forall Q (map fst m) -> Forall Q (map fst (JsMap.delete Id.sameValueZero k m)).
Proof.
  intros V Q k m; induction m as [|[k' w] r IH]; simpl; intros F; [constructor|].
  inversion F as [|? ? Hh Ht]; subst.
  destruct (Id.sameValueZero k k'); simpl; [exact Ht | constructor; auto].
Qed.

Lemma keys_fold_delete :
  forall (Q : Id.t -> Prop) (ids : list Id.t) (sc : Scene),
    Forall Q (map fst sc) ->
    Forall Q (map fst (fold_left (fun sc id => Scene.delete id sc) ids sc)).
Proof.
  intros Q ids; induction ids as [|i ids IH]; intros sc F; simpl; [exact F|].
  apply IH. unfold Scene.delete. apply keys_delete, F.
Qed.

(** *** The shape of the steps *)

Lemma entityProp_state : forall toNumber e s prop,
  snd (entityProp toNumber (e, s) prop) = s
  \/ snd (entityProp toNumber (e, s) prop) = invalidate s.
Proof.
  intros toNumber e s prop. unfold entityProp.
  destruct (Str.indexOf _ _); [|right; reflexivity].
  repeat match goal with
         | |- context [if ?c then _ else _] => destruct c
         end; left; reflexivity.
Qed.

Lemma fold_entityProp_state : forall toNumber props e s,
  exists b,
    snd (fold_left (entityProp toNumber) props (e, s))
    = set_data (AcmiData.set_isValid b (_data s)) s.
Proof.
  intros toNumber props; induction props as [|prop props IH]; intros e s.
  - exists (AcmiData.isValid (_data s)). open_parser s. reflexivity.
  - cbn [fold_left].
    destruct (entityProp toNumber (e, s) prop) as [e' s'] eqn:E.
    destruct (entityProp_state toNumber e s prop) as [H|H]; rewrite E in H; simpl in H; subst s'.
    + apply IH.
    + destruct (IH e' (invalidate s)) as [b Hb]. exists b. rewrite Hb.
      open_parser s. reflexivity.
Qed.

Lemma parseTransform_shape : forall toNumber s id props s',
  parseTransform toNumber s id props = Some s' ->
  s' = s \/ exists t, s' = upd_scene (Scene.set id t) s.
Proof.
  intros toNumber s id props s'. unfold parseTransform.
  destruct (findIndex _ _); [|intros H; injection H as <-; now left].
  destruct (Str.indexOf _ _); [|intros H; injection H as <-; now left].
  destruct (decodeCoords _ _ _ _ _) as [t|]; [|discriminate].
  intros H; injection H as <-. right. now exists t.
Qed.

(** What an entity row can change: [isValid], the entry of its
    identifier in the entities, the kept identifiers when the entity is
    new, and the entry of its identifier in the current scene when it is
    kept. *)
Lemma parseEntity_shape : forall toNumber s line s',
  parseEntity toNumber s line = Some s' ->
  exists id b ents' fids' sc',
    s' = set_currentFrame (Frame.set_scene sc' (_currentFrame s))
           (set_filteredIds fids'
              (set_data (AcmiData.set_isValid b (AcmiData.set_entities ents' (_data s))) s))
    /\ ((ents' = AcmiData.entities (_data s) /\ fids' = _filteredIds s)
        \/ (exists ep e0,
              Entities.get id (AcmiData.entities (_data s)) = Some e0
              /\ ents' = Entities.set id ep (AcmiData.entities (_data s))
              /\ fids' = _filteredIds s)
        \/ (exists ep,
              Entities.get id (AcmiData.entities (_data s)) = None
              /\ ents' = Entities.set id ep (AcmiData.entities (_data s))
              /\ fids' = _filteredIds s ++ [id]))
    /\ (sc' = Frame.scene (_currentFrame s)
        \/ (Id.isIn id fids' = true
            /\ exists t, sc' = Scene.set id t (Frame.scene (_currentFrame s)))).
Proof.
  intros toNumber s line s'. unfold parseEntity.
  destruct (Str.indexOf "," line) as [commaPos|].
  2:{ intros H; injection H as <-.
      exists Id.NaN, false, (AcmiData.entities (_data s)), (_filteredIds s),
             (Frame.scene (_currentFrame s)).
      split; [open_parser s; reflexivity | split; [left; split; reflexivity | left; reflexivity]]. }
  set (id := Id.parseInt16 _).
  set (props := Str.splitUnescaped _ _).
  set (e0 := match Entities.get id _ with Some e => e | None => _ end).
  destruct (fold_left _ props (e0, s)) as [ep s1] eqn:F.
  destruct (fold_entityProp_state toNumber props e0 s) as [b Hb].
  rewrite F in Hb. simpl in Hb. subst s1. clear F.
  destruct (Entities.get id (AcmiData.entities (_data s))) as [found|] eqn:G.
  - (* a known entity *)
    set (s2 := set_data _ _).
    assert (E2 : s2 = set_currentFrame (Frame.set_scene (Frame.scene (_currentFrame s)) (_currentFrame s))
                   (set_filteredIds (_filteredIds s)
                      (set_data (AcmiData.set_isValid b
                         (AcmiData.set_entities (Entities.set id ep (AcmiData.entities (_data s)))
                            (_data s))) s))).
    { unfold s2. open_parser s. reflexivity. }
    assert (Fi : _filteredIds s2 = _filteredIds s) by (unfold s2; open_parser s; reflexivity).
    assert (Sc : Frame.scene (_currentFrame s2) = Frame.scene (_currentFrame s))
      by (unfold s2; open_parser s; reflexivity).
    destruct (Id.isIn id (_filteredIds s2)) eqn:I.
    + intros H. apply parseTransform_shape in H. destruct H as [->|[t ->]].
      * exists id, b, (Entities.set id ep (AcmiData.entities (_data s))), (_filteredIds s),
               (Frame.scene (_currentFrame s)).
        split; [exact E2|]. split; [right; left; now exists ep, found | now left].
      * exists id, b, (Entities.set id ep (AcmiData.entities (_data s))), (_filteredIds s),
               (Scene.set id t (Frame.scene (_currentFrame s))).
        split; [rewrite E2; open_parser s; reflexivity|].
        split; [right; left; now exists ep, found|].
        right. rewrite <- Fi. split; [exact I | now exists t].
    + intros H; injection H as <-.
      exists id, b, (Entities.set id ep (AcmiData.entities (_data s))), (_filteredIds s),
             (Frame.scene (_currentFrame s)).
      split; [exact E2|]. split; [right; left; now exists ep, found | now left].
  - (* a new entity *)
    destruct (keepEntity _ ep).
    + set (s2 := set_filteredIds _ _).
      assert (E2 : s2 = set_currentFrame (Frame.set_scene (Frame.scene (_currentFrame s)) (_currentFrame s))
                     (set_filteredIds (_filteredIds s ++ [id])
                        (set_data (AcmiData.set_isValid b
                           (AcmiData.set_entities (Entities.set id ep (AcmiData.entities (_data s)))
                              (_data s))) s))).
      { unfold s2. open_parser s. reflexivity. }
      assert (Fi : _filteredIds s2 = _filteredIds s ++ [id])
        by (unfold s2; open_parser s; reflexivity).
      destruct (Id.isIn id (_filteredIds s2)) eqn:I.
      * intros H. apply parseTransform_shape in H. destruct H as [->|[t ->]].
        -- exists id, b, (Entities.set id ep (AcmiData.entities (_data s))),
                  (_filteredIds s ++ [id]), (Frame.scene (_currentFrame s)).
           split; [exact E2|]. split; [right; right; now exists ep | now left].
        -- exists id, b, (Entities.set id ep (AcmiData.entities (_data s))),
                  (_filteredIds s ++ [id]), (Scene.set id t (Frame.scene (_currentFrame s))).
           split; [rewrite E2; open_parser s; reflexivity|].
           split; [right; right; now exists ep|].
           right. rewrite <- Fi. split; [exact I | now exists t].
      * intros H; injection H as <-.
        exists id, b, (Entities.set id ep (AcmiData.entities (_data s))),
               (_filteredIds s ++ [id]), (Frame.scene (_currentFrame s)).
        split; [exact E2|]. split; [right; right; now exists ep | now left].
    + set (s2 := set_data _ s).
      assert (E2 : s2 = set_currentFrame (Frame.set_scene (Frame.scene (_currentFrame s)) (_currentFrame s))
                     (set_filteredIds (_filteredIds s)
                        (set_data (AcmiData.set_isValid b
                           (AcmiData.set_entities (AcmiData.entities (_data s)) (_data s))) s))).
      { unfold s2. open_parser s. reflexivity. }
      assert (Fi : _filteredIds s2 = _filteredIds s) by (unfold s2; open_parser s; reflexivity).
      destruct (Id.isIn id (_filteredIds s2)) eqn:I.
      * intros H. apply parseTransform_shape in H. destruct H as [->|[t ->]].
        -- exists id, b, (AcmiData.entities (_data s)), (_filteredIds s),
                  (Frame.scene (_currentFrame s)).
           split; [exact E2|]. split; [left; split; reflexivity | now left].
        -- exists id, b, (AcmiData.entities (_data s)), (_filteredIds s),
                  (Scene.set id t (Frame.scene (_currentFrame s))).
           split; [rewrite E2; open_parser s; reflexivity|].
           split; [left; split; reflexivity|].
           right. rewrite <- Fi. split; [exact I | now exists t].
      * intros H; injection H as <-.
        exists id, b, (AcmiData.entities (_data s)), (_filteredIds s),
               (Frame.scene (_currentFrame s)).
        split; [exact E2|]. split; [left; split; reflexivity | now left].
Qed.

Lemma globalProp_keeps : forall toNumber dayjs s prop,
  AcmiData.entities (_data (globalProp toNumber dayjs s prop)) = AcmiData.entities (_data s)
  /\ _filteredIds (globalProp toNumber dayjs s prop) = _filteredIds s
  /\ AcmiData.frames (_data (globalProp toNumber dayjs s prop)) = AcmiData.frames (_data s)
  /\ _currentFrame (globalProp toNumber dayjs s prop) = _currentFrame s.
Proof.
  intros toNumber dayjs s prop. unfold globalProp.
  destruct (Str.indexOf _ _); [|open_parser s; repeat split].
  repeat match goal with
         | |- context [if ?c then _ else _] => destruct c
         end; open_parser s; repeat split.
Qed.

Lemma parseRemoval_keeps : forall s line,
  map fst (AcmiData.entities (_data (parseRemoval s line)))
  = map fst (AcmiData.entities (_data s))
  /\ _filteredIds (parseRemoval s line) = _filteredIds s
  /\ AcmiData.frames (_data (parseRemoval s line)) = AcmiData.frames (_data s)
  /\ _currentFrame (parseRemoval s line) = _currentFrame s
  /\ AcmiData.globalProperties (_data (parseRemoval s line))
     = AcmiData.globalProperties (_data s)
  /\ _refLong (parseRemoval s line) = _refLong s
  /\ _refLat (parseRemoval s line) = _refLat s.
Proof.
  intros s line. unfold parseRemoval.
  set (id := Id.parseInt16 _).
  destruct (Entities.get id (AcmiData.entities (_data s))) as [e|] eqn:G.
  - assert (K := jsmap_set_keys _ id (EntityProps.set_end (currentTime s) e) e _ G).
    destruct (Id.isIn id _); open_parser s; simpl in *; repeat split; exact K.
  - destruct (Id.isIn id _); open_parser s; repeat split.
Qed.

Lemma parseTimeMarker_keeps : forall toNumber s line,
  AcmiData.entities (_data (parseTimeMarker toNumber s line)) = AcmiData.entities (_data s)
  /\ _filteredIds (parseTimeMarker toNumber s line) = _filteredIds s
  /\ AcmiData.globalProperties (_data (parseTimeMarker toNumber s line))
     = AcmiData.globalProperties (_data s)
  /\ _refLong (parseTimeMarker toNumber s line) = _refLong s
  /\ _refLat (parseTimeMarker toNumber s line) = _refLat s.
Proof.
  intros toNumber s line. unfold parseTimeMarker.
  destruct (Num.strictNe _ _); destruct (0 <? _)%nat; open_parser s; repeat split.
Qed.

(** *** The entities are the kept identifiers *)

Lemma keysInv_parseEntity : forall toNumber s line s',
  keysInv s -> parseEntity toNumber s line = Some s' -> keysInv s'.
Proof.
  intros toNumber s line s' [K N] H.
  apply parseEntity_shape in H.
  destruct H as (id & b & ents' & fids' & sc' & -> & C & _).
  assert (G : map fst ents' = fids' /\ NoDup fids').
  { destruct C as [[-> ->]|[(ep & e0 & G & -> & ->)|(ep & G & -> & ->)]].
    - now split.
    - split; [|exact N]. unfold Entities.set. now rewrite (jsmap_set_keys _ _ _ _ _ G).
    - unfold Entities.set, Entities.get in *. rewrite (jsmap_set_new _ _ _ _ G).
      rewrite map_app, K. split; [reflexivity|].
      apply NoDup_app; [exact N | constructor; [tauto | constructor] |].
      intros x I [<-|[]]. apply (jsmap_get_notin _ _ _ G). now rewrite K. }
  unfold keysInv. open_parser s. exact G.
Qed.

Lemma keysInv_scanLoop :
  forall toNumber dayjs buffer rest current start previousCR index s s',
    keysInv s ->
    scanLoop toNumber dayjs buffer rest current start previousCR index s = Some s' ->
    keysInv s'.
Proof.
  intros toNumber dayjs. apply (kept_scanLoop toNumber dayjs keysInv).
  - intros s l H. unfold keysInv in *. open_parser s. exact H.
  - intros s prop H. unfold keysInv in *.
    destruct (globalProp_keeps toNumber dayjs s prop) as (E & F & _). now rewrite E, F.
  - intros s line H. unfold keysInv in *.
    destruct (parseTimeMarker_keeps toNumber s line) as (E & F & _). now rewrite E, F.
  - intros s line H. unfold keysInv in *.
    destruct (parseRemoval_keeps s line) as (E & F & _). now rewrite E, F.
  - apply keysInv_parseEntity.
Qed.

(** *** The scenes hold kept identifiers *)

Lemma sceneKnown_app : forall ids more frame,
  sceneKnown ids frame -> sceneKnown (ids ++ more) frame.
Proof.
  intros ids more frame. unfold sceneKnown. apply Forall_impl.
  intros k. apply isIn_app.
Qed.

Lemma scenesKnown_parseEntity : forall toNumber s line s',
  scenesKnown s -> parseEntity toNumber s line = Some s' -> scenesKnown s'.
Proof.
  intros toNumber s line s' K H.
  apply parseEntity_shape in H.
  destruct H as (id & b & ents' & fids' & sc' & -> & C & S).
  assert (M : exists more, fids' = _filteredIds s ++ more).
  { destruct C as [[_ ->]|[(ep & e0 & _ & _ & ->)|(ep & _ & _ & ->)]];
      [exists [] | exists [] | exists [id]]; try reflexivity; now rewrite app_nil_r. }
  destruct M as [more ->].
  unfold scenesKnown in *. apply Forall_app in K. destruct K as [KF KC].
  assert (KF' : Forall (sceneKnown (_filteredIds s ++ more)) (AcmiData.frames (_data s))).
  { revert KF. apply Forall_impl. intros f. apply sceneKnown_app. }
  assert (KC' : sceneKnown (_filteredIds s ++ more)
                  (Frame.set_scene sc' (_currentFrame s))).
  { inversion KC as [|? ? Hc _]; subst. apply (sceneKnown_app _ more) in Hc.
    destruct S as [->|(I & t & ->)].
    - exact Hc.
    - unfold sceneKnown in *. simpl. unfold Scene.set. apply keys_set; [exact Hc | exact I]. }
  open_parser s. simpl in *. apply Forall_app. split; [exact KF' | constructor; [exact KC' | constructor]].
Qed.

Lemma scenesKnown_parseTimeMarker : forall toNumber s line,
  scenesKnown s -> scenesKnown (parseTimeMarker toNumber s line).
Proof.
  intros toNumber s line K. unfold scenesKnown in K.
  apply Forall_app in K. destruct K as [KF KC]. inversion KC as [|? ? Hc _]; subst.
  unfold parseTimeMarker.
  set (cf := if (0 <? _)%nat then _ else _).
  assert (Kc : sceneKnown (_filteredIds s) cf).
  { unfold cf. destruct (0 <? _)%nat; [|exact Hc].
    unfold sceneKnown in *. simpl. apply keys_fold_delete, Hc. }
  assert (Kn : forall ts, sceneKnown (_filteredIds s) (Frame.new ts (Some (Frame.scene cf))))
    by (intros ts; exact Kc).
  destruct (Num.strictNe _ _).
  - specialize (Kn (toNumber (Str.sliceFrom 1 line))).
    clearbody cf. unfold scenesKnown. open_parser s. simpl in *.
    apply Forall_app. split; [|constructor; [exact Kn | constructor]].
    apply Forall_app. split; [exact KF | constructor; [exact Kc | constructor]].
  - clearbody cf. unfold scenesKnown. open_parser s. simpl in *.
    apply Forall_app. split; [exact KF | constructor; [exact Kc | constructor]].
Qed.

Lemma scenesKnown_scanLoop :
  forall toNumber dayjs buffer rest current start previousCR index s s',
    scenesKnown s ->
    scanLoop toNumber dayjs buffer rest current start previousCR index s = Some s' ->
    scenesKnown s'.
Proof.
  intros toNumber dayjs. apply (kept_scanLoop toNumber dayjs scenesKnown).
  - intros s l H. unfold scenesKnown in *. open_parser s. exact H.
  - intros s prop H. unfold scenesKnown in *.
    destruct (globalProp_keeps toNumber dayjs s prop) as (_ & F & R & C). now rewrite F, R, C.
  - apply scenesKnown_parseTimeMarker.
  - intros s line H. unfold scenesKnown in *.
    destruct (parseRemoval_keeps s line) as (_ & F & R & C & _). now rewrite F, R, C.
  - apply scenesKnown_parseEntity.
Qed.

(** *** The reference point *)

Lemma refInv_globalProp : forall toNumber dayjs self0 s prop,
  refInv self0 s -> refInv self0 (globalProp toNumber dayjs s prop).
Proof.
  intros toNumber dayjs self0 s prop. unfold refInv, globalProp.
  destruct (Str.indexOf _ _); [|open_parser s; auto].
  repeat match goal with
         | |- context [if ?c then _ else _] => destruct c
         end;
    open_parser s; destruct gp; simpl; intros [A B]; auto.
Qed.

Lemma refInv_scanLoop :
  forall toNumber dayjs self0 buffer rest current start previousCR index s s',
    refInv self0 s ->
    scanLoop toNumber dayjs buffer rest current start previousCR index s = Some s' ->
    refInv self0 s'.
Proof.
  intros toNumber dayjs self0. apply (kept_scanLoop toNumber dayjs (refInv self0)).
  - intros s l H. unfold refInv in *. open_parser s. exact H.
  - apply refInv_globalProp.
  - intros s line H. unfold refInv in *.
    destruct (parseTimeMarker_keeps toNumber s line) as (_ & _ & G & A & B). now rewrite G, A, B.
  - intros s line H. unfold refInv in *.
    destruct (parseRemoval_keeps s line) as (_ & _ & _ & _ & G & A & B). now rewrite G, A, B.
  - intros s line s' H E. apply parseEntity_shape in E.
    destruct E as (id & b & ents' & fids' & sc' & -> & _). unfold refInv in *.
    open_parser s. exact H.
Qed.

(** *** From the scan loop up to [parse] *)

Lemma parseHeader_keeps : forall self buffer,
  AcmiData.entities (_data (_parseHeader self buffer)) = AcmiData.entities (_data self)
  /\ _filteredIds (_parseHeader self buffer) = _filteredIds self
  /\ AcmiData.frames (_data (_parseHeader self buffer)) = AcmiData.frames (_data self)
  /\ _currentFrame (_parseHeader self buffer) = _currentFrame self
  /\ AcmiData.globalProperties (_data (_parseHeader self buffer))
     = AcmiData.globalProperties (_data self)
  /\ _refLong (_parseHeader self buffer) = _refLong self
  /\ _refLat (_parseHeader self buffer) = _refLat self.
Proof.
  intros self buffer. unfold _parseHeader.
  destruct (_headerPattern _) as [[type version]|]; [|repeat split].
  open_parser self. repeat split.
Qed.

Lemma finishContent_keeps : forall self,
  AcmiData.entities (_data (finishContent self)) = AcmiData.entities (_data self)
  /\ _filteredIds (finishContent self) = _filteredIds self
  /\ AcmiData.globalProperties (_data (finishContent self))
     = AcmiData.globalProperties (_data self)
  /\ _refLong (finishContent self) = _refLong self
  /\ _refLat (finishContent self) = _refLat self.
Proof.
  intros self. unfold finishContent.
  destruct (0 <? _)%nat; [|repeat split].
  destruct (findIndex _ _); [destruct (Dj.isValid _)|]; open_parser self; repeat split.
Qed.

Lemma parseBuffer_state : forall toNumber dayjs self buffer d p,
  _parseBuffer toNumber dayjs self buffer = Some (d, p) ->
  exists self1,
    scanLoop toNumber dayjs buffer buffer 0 0 false 0 (_parseHeader self buffer) = Some self1
    /\ d = _data p
    /\ _filteredIds p = _filteredIds self1
    /\ _refLong p = _refLong self1
    /\ _refLat p = _refLat self1
    /\ map fst (AcmiData.entities d) = map fst (AcmiData.entities (_data self1))
    /\ AcmiData.globalProperties d = AcmiData.globalProperties (_data self1)
    /\ AcmiData.frames d = AcmiData.frames (_data (finishContent self1)).
Proof.
  intros toNumber dayjs self buffer d p. unfold _parseBuffer, _parseContent.
  destruct (scanLoop _ _ _ _ _ _ _ _ _) as [self1|]; simpl; [|discriminate].
  intros H. injection H as Hd Hp. exists self1. split; [reflexivity|].
  destruct (finishContent_keeps self1) as (E & F & G & A & B).
  subst d p.
  destruct (finishContent self1) as [cl ts fr de fi [iv hd gp tsp en frs] fl la lo].
  simpl in *. subst. repeat split.
  rewrite map_map. apply map_ext. intros [k e]. destruct (negb _); reflexivity.
Qed.

Lemma parse_state : forall toNumber dayjs unzip self data filter d p,
  parse toNumber dayjs unzip self data filter = Some (d, p) ->
  exists buffer,
    _parseBuffer toNumber dayjs (resetForParse self filter) buffer = Some (d, p).
Proof.
  intros toNumber dayjs unzip self data filter d p. rewrite parse_parsedBytes.
  destruct (parsedBytes unzip data) as [buffer|]; [|discriminate].
  intros H. now exists buffer.
Qed.

(** X5.  In what [parse] returns, the keys of [entities] are the kept
    identifiers [_filteredIds], in the order in which the entities were
    first kept, and no identifier is kept twice. *)
Theorem X5_entities_are_the_kept_ids :
  forall (toNumber : string -> float) (dayjs : string -> Dj.Dayjs)
         (unzip : list byte -> option (list (list byte)))
         (self : AcmiParser.t) (data : list byte) (filter : option (list string))
         (d : AcmiData.t) (p : AcmiParser.t),
    parse toNumber dayjs unzip self data filter = Some (d, p) ->
    map fst (AcmiData.entities d) = _filteredIds p /\ NoDup (_filteredIds p).
Proof.
  intros toNumber dayjs unzip self data filter d p H.
  apply parse_state in H. destruct H as [buffer H].
  apply parseBuffer_state in H.
  destruct H as (s1 & S & _ & F & _ & _ & E & _).
  assert (K : keysInv s1).
  { eapply keysInv_scanLoop; [|exact S].
    destruct (parseHeader_keeps (resetForParse self filter) buffer) as (A & B & _).
    unfold keysInv. rewrite A, B. simpl. split; [reflexivity | constructor]. }
  destruct K as [K N]. rewrite E, F. now split.
Qed.

(** X5 (witness): the removal scenario, whose entities are [a] and [b]. *)
Lemma X5_entities_are_the_kept_ids_witness :
  exists d p,
    Host.parse Scenario.removal None = Some (d, p)
    /\ map fst (AcmiData.entities d) = _filteredIds p /\ NoDup (_filteredIds p).
Proof.
  do 2 eexists. split; [vm_compute; reflexivity|].
  apply (X5_entities_are_the_kept_ids Host.toNumber Host.dayjs Host.unzip AcmiParser.new
           (list_byte_of_string Scenario.removal) None).
  vm_compute. reflexivity.
Defined.

Lemma scene_objects_known :
  forall (toNumber : string -> float) (dayjs : string -> Dj.Dayjs)
         (unzip : list byte -> option (list (list byte)))
         (self : AcmiParser.t) (data : list byte) (filter : option (list string))
         (d : AcmiData.t) (p : AcmiParser.t) (frame : Frame.t) (k : Id.t),
    parse toNumber dayjs unzip self data filter = Some (d, p) ->
    In frame (AcmiData.frames d) ->
    In k (map fst (Frame.scene frame)) ->
    k <> Id.NaN /\ exists e, Entities.get k (AcmiData.entities d) = Some e.
Proof.
  intros toNumber dayjs unzip self data filter d p frame k H If Ik.
  apply parse_state in H. destruct H as [buffer H].
  apply parseBuffer_state in H.
  destruct H as (s1 & S & _ & _ & _ & _ & E & _ & Fr).
  destruct (parseHeader_keeps (resetForParse self filter) buffer) as (A & B & C & D & _).
  assert (K : keysInv s1).
  { eapply keysInv_scanLoop; [|exact S].
    unfold keysInv. rewrite A, B. simpl. split; [reflexivity | constructor]. }
  assert (Sc : scenesKnown s1).
  { eapply scenesKnown_scanLoop; [|exact S].
    unfold scenesKnown. rewrite B, C, D. simpl.
    constructor; [constructor | constructor]. }
  assert (Kf : sceneKnown (_filteredIds s1) frame).
  { unfold scenesKnown in Sc. rewrite Forall_forall in Sc. apply Sc.
    rewrite Fr, finishContent_frames in If.
    destruct (AcmiData.frames (_data s1)) as [|f0 fs]; [contradiction | exact If]. }
  unfold sceneKnown in Kf. rewrite Forall_forall in Kf.
  destruct (isIn_In _ _ (Kf k Ik)) as [I N]. split; [exact N|].
  unfold Entities.get. apply jsmap_get_in. rewrite E. destruct K as [K _]. now rewrite K.
Qed.

(** X6.  Every object in the scene of a frame of the returned data has a
    record in [entities], and its identifier is a number: an entity row
    whose identifier does not parse (NaN) never enters a scene. *)
Theorem X6_scene_objects_have_entities :
  forall (toNumber : string -> float) (dayjs : string -> Dj.Dayjs)
         (unzip : list byte -> option (list (list byte)))
         (self : AcmiParser.t) (data : list byte) (filter : option (list string))
         (d : AcmiData.t) (p : AcmiParser.t) (frame : Frame.t) (k : Id.t),
    parse toNumber dayjs unzip self data filter = Some (d, p) ->
    In frame (AcmiData.frames d) ->
    In k (map fst (Frame.scene frame)) ->
    k <> Id.NaN /\ exists e, Entities.get k (AcmiData.entities d) = Some e.
Proof.
  intros toNumber dayjs unzip self data filter d p frame k H If Ik.
  exact (scene_objects_known toNumber dayjs unzip self data filter d p frame k H If Ik).
Qed.

(** X6 (witness): entity [b] in the last frame of the removal scenario. *)
Lemma X6_scene_objects_have_entities_witness :
  exists d p frame,
    Host.parse Scenario.removal None = Some (d, p)
    /\ nth_error (AcmiData.frames d) 2 = Some frame
    /\ In (Some 11%Z) (map fst (Frame.scene frame))
    /\ Some 11%Z <> Id.NaN
    /\ exists e, Entities.get (Some 11%Z) (AcmiData.entities d) = Some e.
Proof.
  do 3 eexists.
  split; [vm_compute; reflexivity|].
  split; [vm_compute; reflexivity|].
  split; [vm_compute; left; reflexivity|].
  eapply (X6_scene_objects_have_entities Host.toNumber Host.dayjs Host.unzip AcmiParser.new
            (list_byte_of_string Scenario.removal) None).
  - vm_compute. reflexivity.
  - vm_compute. right. right. left. reflexivity.
  - vm_compute. left. reflexivity.
Defined.

(** X7.  [parse] never resets the reference point: after it, the
    parser's reference longitude and latitude are those the file
    declared, and for a coordinate the file does not declare they are
    what the parser held before the call, so the offsets of such a file
    are decoded against the reference of the file parsed before it. *)
Theorem X7_reference_point_survives_parse :
  forall (toNumber : string -> float) (dayjs : string -> Dj.Dayjs)
         (unzip : list byte -> option (list (list byte)))
         (self : AcmiParser.t) (data : list byte) (filter : option (list string))
         (d : AcmiData.t) (p : AcmiParser.t),
    parse toNumber dayjs unzip self data filter = Some (d, p) ->
    _refLong p
    = match GlobalProperties.referenceLongitude (AcmiData.globalProperties d) with
      | Some v => v
      | None => _refLong self
      end
    /\ _refLat p
       = match GlobalProperties.referenceLatitude (AcmiData.globalProperties d) with
         | Some v => v
         | None => _refLat self
         end.
Proof.
  intros toNumber dayjs unzip self data filter d p H.
  apply parse_state in H. destruct H as [buffer H].
  apply parseBuffer_state in H.
  destruct H as (s1 & S & _ & _ & Lo & La & _ & G & _).
  assert (R : refInv self s1).
  { eapply refInv_scanLoop; [|exact S].
    destruct (parseHeader_keeps (resetForParse self filter) buffer)
      as (_ & _ & _ & _ & A & B & C).
    unfold refInv. rewrite A, B, C. simpl. split; reflexivity. }
  unfold refInv in R. rewrite Lo, La, G. exact R.
Qed.

(** X7 (witness): the removal scenario, which declares no reference
    point, parsed by the parser that has parsed [referencedFile]. *)
Lemma X7_reference_point_survives_parse_witness :
  exists d0 p0 d p,
    Host.parse referencedFile None = Some (d0, p0)
    /\ parse Host.toNumber Host.dayjs Host.unzip p0
             (list_byte_of_string Scenario.removal) None = Some (d, p)
    /\ _refLong p
       = match GlobalProperties.referenceLongitude (AcmiData.globalProperties d) with
         | Some v => v
         | None => _refLong p0
         end
    /\ _refLat p
       = match GlobalProperties.referenceLatitude (AcmiData.globalProperties d) with
         | Some v => v
         | None => _refLat p0
         end.
Proof.
  do 4 eexists.
  split; [vm_compute; reflexivity|].
  split; [vm_compute; reflexivity|].
  eapply (X7_reference_point_survives_parse Host.toNumber Host.dayjs Host.unzip _
            (list_byte_of_string Scenario.removal) None).
  vm_compute. reflexivity.
Defined.

(** The entity [b] of the removal scenario, written at the offsets 2|2,
    comes out at longitude 12 and latitude 22 when the parser has parsed
    [referencedFile] before. *)
Lemma stale_reference_example :
  exists d0 p0 d p frame t,
    Host.parse referencedFile None = Some (d0, p0)
    /\ parse Host.toNumber Host.dayjs Host.unzip p0
             (list_byte_of_string Scenario.removal) None = Some (d, p)
    /\ nth_error (AcmiData.frames d) 2 = Some frame
    /\ Scene.get (Some 11%Z) (Frame.scene frame) = Some t
    /\ ITransform.longitude t = Num.ofZ 12
    /\ ITransform.latitude t = Num.ofZ 22.
Proof.
  do 6 eexists.
  split; [vm_compute; reflexivity|].
  split; [vm_compute; reflexivity|].
  split; [vm_compute; reflexivity|].
  split; [vm_compute; reflexivity|].
  split; vm_compute; reflexivity.
Qed.

(** ** Time markers *)

(** X8.  A time marker whose value is a number is idempotent: read a
    second time at once, it neither pushes a frame nor changes anything
    else of the parser. *)
Theorem X8_time_marker_idempotent :
  forall (toNumber : string -> float) (self : AcmiParser.t) (line : string),
    Num.isNaN (toNumber (Str.sliceFrom 1 line)) = false ->
    parseTimeMarker toNumber (parseTimeMarker toNumber self line) line
    = parseTimeMarker toNumber self line.
Proof.
  intros toNumber self line N.
  unfold Num.isNaN in N. apply Bool.negb_false_iff in N.
  set (v := toNumber (Str.sliceFrom 1 line)) in *.
  assert (V : Num.strictNe v v = false) by (unfold Num.strictNe; now rewrite N).
  open_parser self. unfold parseTimeMarker. fold v. simpl.
  destruct (0 <? List.length de)%nat; destruct (Num.strictNe v ts) eqn:E; simpl;
    rewrite ?V, ?E; reflexivity.
Qed.

(** X8 (witness): the marker [#5] on a fresh parser. *)
Lemma X8_time_marker_idempotent_witness :
  parseTimeMarker Host.toNumber (parseTimeMarker Host.toNumber AcmiParser.new "#5") "#5"
  = parseTimeMarker Host.toNumber AcmiParser.new "#5".
Proof.
  apply (X8_time_marker_idempotent Host.toNumber AcmiParser.new "#5").
  vm_compute. reflexivity.
Defined.

Lemma nan_differs : forall v t : float, Num.isNaN v = true -> Num.strictNe v t = true.
Proof.
  intros v t N. unfold Num.strictNe, Num.isNaN in *.
  apply Bool.negb_true_iff in N. apply Bool.negb_true_iff.
  rewrite eqb_spec in *. unfold SFeqb, SFcompare in *.
  destruct (Prim2SF v) as [s|s| |s m e].
  - discriminate.
  - destruct s; discriminate.
  - reflexivity.
  - rewrite Z.compare_refl, Pos.compare_refl in N. destruct s; discriminate.
Qed.

(** X9.  A time marker whose value is not a number always pushes a
    frame: NaN differs from every time stamp, itself included, so that
    such a marker repeated pushes a frame each time. *)
Theorem X9_nan_marker_always_pushes :
  forall (toNumber : string -> float) (self : AcmiParser.t) (line : string),
    Num.isNaN (toNumber (Str.sliceFrom 1 line)) = true ->
    let self' := parseTimeMarker toNumber self line in
    List.length (AcmiData.frames (_data self')) = S (List.length (AcmiData.frames (_data self)))
    /\ Num.isNaN (_currentTimeStamp self') = true
    /\ List.length (AcmiData.frames (_data (parseTimeMarker toNumber self' line)))
       = S (S (List.length (AcmiData.frames (_data self)))).
Proof.
  intros toNumber self line N.
  assert (Ne : forall t, Num.strictNe (toNumber (Str.sliceFrom 1 line)) t = true).
  { intros t. apply (nan_differs _ t N). }
  assert (Step : forall s,
            let s' := parseTimeMarker toNumber s line in
            List.length (AcmiData.frames (_data s')) = S (List.length (AcmiData.frames (_data s)))
            /\ _currentTimeStamp s' = toNumber (Str.sliceFrom 1 line)).
  { intros s. unfold parseTimeMarker.
    destruct (0 <? List.length (_destroyedIds s))%nat;
      open_parser s; simpl; rewrite Ne; simpl; rewrite length_app; simpl; split;
        try lia; reflexivity. }
  intros self'. destruct (Step self) as [L T]. fold self' in L, T.
  split; [exact L|]. split; [rewrite T; exact N|].
  destruct (Step self') as [L' _]. rewrite L', L. reflexivity.
Qed.

(** X9 (witness): the marker [#x], whose value is not a number. *)
Lemma X9_nan_marker_always_pushes_witness :
  List.length (AcmiData.frames (_data (parseTimeMarker Host.toNumber AcmiParser.new "#x"))) = 1
  /\ Num.isNaN (_currentTimeStamp (parseTimeMarker Host.toNumber AcmiParser.new "#x")) = true
  /\ List.length
       (AcmiData.frames
          (_data (parseTimeMarker Host.toNumber
                    (parseTimeMarker Host.toNumber AcmiParser.new "#x") "#x"))) = 2.
Proof.
  apply (X9_nan_marker_always_pushes Host.toNumber AcmiParser.new "#x").
  vm_compute. reflexivity.
Defined.

(** ** The scanner of [_parseContent] *)

Lemma slice_middle : forall (A : Type) (pre acc rest : list A),
  slice (List.length pre) (List.length pre + List.length acc) (pre ++ acc ++ rest) = acc.
Proof.
  intros A pre acc rest. unfold slice.
  rewrite skipn_app, skipn_all, Nat.sub_diag. simpl.
  replace (List.length pre + List.length acc - List.length pre) with (List.length acc) by lia.
  rewrite firstn_app, firstn_all, Nat.sub_diag. simpl. apply app_nil_r.
Qed.

Lemma slice_middle_but_last : forall (A : Type) (pre acc rest : list A),
  slice (List.length pre) (List.length pre + List.length acc - 1) (pre ++ acc ++ rest)
  = removelast acc.
Proof.
  intros A pre acc rest. unfold slice.
  rewrite skipn_app, skipn_all, Nat.sub_diag. simpl.
  replace (List.length pre + List.length acc - 1 - List.length pre)
    with (pred (List.length acc)) by lia.
  rewrite firstn_app.
  replace (pred (List.length acc) - List.length acc) with 0 by lia.
  simpl. rewrite app_nil_r. symmetry. apply removelast_firstn_len.
Qed.

Lemma existsb_snoc : forall (A : Type) (f : A -> bool) (l : list A) (x : A),
  existsb f (l ++ [x]) = existsb f l || f x.
Proof.
  intros A f l x. rewrite existsb_app. simpl. now rewrite Bool.orb_false_r.
Qed.

(** The scanner on the bytes of one line: they are passed over, and the
    line feed that ends them hands the line to [physicalLine]. *)
Lemma scanLoop_line :
  forall toNumber dayjs (l pre acc rest : list byte) index self,
    Forall (fun b => b <> x0a) l ->
    scanLoop toNumber dayjs (pre ++ acc ++ l ++ x0a :: rest) (l ++ x0a :: rest)
             (List.length pre + List.length acc) (List.length pre)
             (existsb (fun b => Byte.eqb b x0d) acc) index self
    = match physicalLine toNumber dayjs self index (decode (cutLine (acc ++ l))) with
      | Some self' =>
          scanLoop toNumber dayjs (pre ++ acc ++ l ++ x0a :: rest) rest
                   (List.length (pre ++ acc ++ l ++ [x0a]))
                   (List.length (pre ++ acc ++ l ++ [x0a])) false (S index) self'
      | None => None
      end.
Proof.
  intros toNumber dayjs l; induction l as [|b l IH]; intros pre acc rest index self H.
  - cbn [app scanLoop]. change (Byte.eqb x0a x0d) with false.
    change (Byte.eqb x0a x0a) with true. cbv iota.
    rewrite app_nil_r. unfold cutLine.
    replace (List.length (pre ++ acc ++ [x0a])) with (S (List.length pre + List.length acc))
      by (rewrite !length_app; simpl; lia).
    destruct (existsb _ acc).
    + now rewrite slice_middle_but_last.
    + now rewrite slice_middle.
  - inversion H as [|? ? Hb Hl]; subst.
    assert (E : Byte.eqb b x0a = false).
    { destruct (Byte.eqb b x0a) eqn:E; [|reflexivity].
      apply Byte.byte_dec_bl in E. contradiction. }
    specialize (IH pre (acc ++ [b]) rest index self Hl).
    rewrite existsb_snoc, length_app in IH. simpl in IH.
    replace (List.length pre + (List.length acc + 1)) with (S (List.length pre + List.length acc))
      in IH by lia.
    rewrite <- !app_assoc in IH. simpl in IH.
    cbn [app scanLoop]. rewrite E.
    destruct (Byte.eqb b x0d).
    + rewrite Bool.orb_true_r in IH. exact IH.
    + rewrite Bool.orb_false_r in IH. exact IH.
Qed.

Lemma scanLoop_unlines :
  forall toNumber dayjs (lines : list (list byte)) (pre : list byte) index self,
    Forall (Forall (fun b => b <> x0a)) lines ->
    scanLoop toNumber dayjs (pre ++ unlines lines) (unlines lines)
             (List.length pre) (List.length pre) false index self
    = runLines toNumber dayjs index (map (fun l => decode (cutLine l)) lines) self.
Proof.
  intros toNumber dayjs lines; induction lines as [|l lines IH]; intros pre index self H.
  - reflexivity.
  - inversion H as [|? ? Hl Hr]; subst.
    unfold unlines. cbn [flat_map map runLines]. fold (unlines lines).
    rewrite <- app_assoc. cbn [app].
    assert (S := scanLoop_line toNumber dayjs l pre [] (unlines lines) index self Hl).
    cbn [app existsb List.length] in S. rewrite Nat.add_0_r in S.
    rewrite S.
    destruct (physicalLine _ _ _ _ _) as [self'|]; [|reflexivity].
    specialize (IH (pre ++ l ++ [x0a]) (Datatypes.S index) self' Hr).
    rewrite <- !app_assoc in IH. cbn [app] in IH. exact IH.
Qed.

Lemma parseContent_unlines :
  forall toNumber dayjs self (lines : list (list byte)),
    Forall (Forall (fun b => b <> x0a)) lines ->
    _parseContent toNumber dayjs self (unlines lines)
    = option_map finishContent
        (runLines toNumber dayjs 0 (map (fun l => decode (cutLine l)) lines) self).
Proof.
  intros toNumber dayjs self lines H. unfold _parseContent.
  f_equal. exact (scanLoop_unlines toNumber dayjs lines [] 0 self H).
Qed.

(** X10.  On a buffer made of lines each ended by a line feed, the
    scanner hands to its body exactly these lines, in order and numbered
    from 0, each one decoded after the removal of its last byte when it
    holds a carriage return anywhere. *)
Theorem X10_scanner_dispatches_the_lines :
  forall (toNumber : string -> float) (dayjs : string -> Dj.Dayjs)
         (self : AcmiParser.t) (lines : list (list byte)),
    Forall (Forall (fun b => b <> x0a)) lines ->
    _parseContent toNumber dayjs self (unlines lines)
    = option_map finishContent
        (runLines toNumber dayjs 0 (map (fun l => decode (cutLine l)) lines) self).
Proof.
  intros toNumber dayjs self lines H. apply parseContent_unlines, H.
Qed.

(** X10 (witness): two header lines, a marker and an entity row ended
    by a carriage return and a line feed. *)
Lemma X10_scanner_dispatches_the_lines_witness :
  _parseContent Host.toNumber Host.dayjs AcmiParser.new
    (unlines (map list_byte_of_string ["x"; "y"; "#5"; String.append "a,T=1|2|3" (String CR EmptyString)]))
  = option_map finishContent
      (runLines Host.toNumber Host.dayjs 0
         (map (fun l => decode (cutLine l))
              (map list_byte_of_string ["x"; "y"; "#5"; String.append "a,T=1|2|3" (String CR EmptyString)]))
         AcmiParser.new).
Proof.
  apply (X10_scanner_dispatches_the_lines Host.toNumber Host.dayjs AcmiParser.new).
  vm_compute. repeat (constructor; try discriminate).
Defined.

Lemma cutLine_plain : forall l,
  Forall (fun b => b <> x0d) l -> cutLine l = l.
Proof.
  intros l H. unfold cutLine.
  replace (existsb (fun b => Byte.eqb b x0d) l) with false; [reflexivity|].
  symmetry. induction H as [|b l Hb Hl IH]; simpl; [reflexivity|].
  rewrite IH, Bool.orb_false_r.
  destruct (Byte.eqb b x0d) eqn:E; [|reflexivity].
  apply Byte.byte_dec_bl in E. contradiction.
Qed.

Lemma cutLine_CR : forall l, cutLine (l ++ [x0d]) = l.
Proof.
  intros l. unfold cutLine. rewrite existsb_snoc.
  change (Byte.eqb x0d x0d) with true. rewrite Bool.orb_true_r.
  apply removelast_last.
Qed.

(** X11.  The content loop reads a file whose lines end with a carriage
    return and a line feed as it reads the same lines ended by a line
    feed alone (lines that hold no other carriage return). *)
Theorem X11_content_CRLF_as_LF :
  forall (toNumber : string -> float) (dayjs : string -> Dj.Dayjs)
         (self : AcmiParser.t) (lines : list (list byte)),
    Forall (Forall (fun b => b <> x0a)) lines ->
    Forall (Forall (fun b => b <> x0d)) lines ->
    _parseContent toNumber dayjs self (unlines (map (fun l => l ++ [x0d]) lines))
    = _parseContent toNumber dayjs self (unlines lines).
Proof.
  intros toNumber dayjs self lines HL HC.
  rewrite !parseContent_unlines; [|exact HL|].
  - f_equal. f_equal. rewrite map_map. apply map_ext_in.
    intros l I. rewrite Forall_forall in HC.
    now rewrite cutLine_CR, (cutLine_plain l (HC l I)).
  - rewrite Forall_forall in *. intros x I. apply in_map_iff in I.
    destruct I as (l & <- & I). apply Forall_app. split; [exact (HL l I)|].
    constructor; [discriminate | constructor].
Qed.

(** X11 (witness): two header lines, a marker and an entity row. *)
Lemma X11_content_CRLF_as_LF_witness :
  _parseContent Host.toNumber Host.dayjs AcmiParser.new
    (unlines (map (fun l => l ++ [x0d])
                  (map list_byte_of_string ["x"; "y"; "#5"; "a,T=1|2|3"])))
  = _parseContent Host.toNumber Host.dayjs AcmiParser.new
      (unlines (map list_byte_of_string ["x"; "y"; "#5"; "a,T=1|2|3"])).
Proof.
  apply (X11_content_CRLF_as_LF Host.toNumber Host.dayjs AcmiParser.new);
    vm_compute; repeat (constructor; try discriminate).
Defined.

Lemma runLines_first_two : forall toNumber dayjs a b lines self,
  runLines toNumber dayjs 0 (a :: b :: lines) self = runLines toNumber dayjs 2 lines self.
Proof. reflexivity. Qed.

(** X12.  The content loop never reads the first two lines of the
    buffer, whatever they hold: two files that differ in these lines only
    give the same result, so that a file without header loses its first
    two records. *)
Theorem X12_first_two_lines_are_skipped :
  forall (toNumber : string -> float) (dayjs : string -> Dj.Dayjs)
         (self : AcmiParser.t) (a b a' b' : list byte) (lines : list (list byte)),
    Forall (Forall (fun x => x <> x0a)) (a :: b :: a' :: b' :: lines) ->
    _parseContent toNumber dayjs self (unlines (a :: b :: lines))
    = _parseContent toNumber dayjs self (unlines (a' :: b' :: lines)).
Proof.
  intros toNumber dayjs self a b a' b' lines H.
  inversion H as [|? ? Ha H1]; subst. inversion H1 as [|? ? Hb H2]; subst.
  inversion H2 as [|? ? Ha' H3]; subst. inversion H3 as [|? ? Hb' Hl]; subst.
  rewrite !parseContent_unlines by (repeat constructor; assumption).
  reflexivity.
Qed.

(** X12 (witness): the header lines replaced by two records. *)
Lemma X12_first_two_lines_are_skipped_witness :
  _parseContent Host.toNumber Host.dayjs AcmiParser.new
    (unlines (map list_byte_of_string ["#1"; "a,T=1|2|3"; "#5"]))
  = _parseContent Host.toNumber Host.dayjs AcmiParser.new
      (unlines (map list_byte_of_string ["x"; "y"; "#5"])).
Proof.
  apply (X12_first_two_lines_are_skipped Host.toNumber Host.dayjs AcmiParser.new
           (list_byte_of_string "#1") (list_byte_of_string "a,T=1|2|3")
           (list_byte_of_string "x") (list_byte_of_string "y")
           [list_byte_of_string "#5"]).
  vm_compute. repeat (constructor; try discriminate).
Defined.

Lemma physicalLine_index : forall toNumber dayjs self i j line,
  1 < i -> 1 < j ->
  physicalLine toNumber dayjs self i line = physicalLine toNumber dayjs self j line.
Proof.
  intros toNumber dayjs self i j line Hi Hj. unfold physicalLine.
  apply Nat.ltb_lt in Hi. apply Nat.ltb_lt in Hj. now rewrite Hi, Hj.
Qed.

Lemma runLines_index : forall toNumber dayjs lines i j self,
  1 < i -> 1 < j ->
  runLines toNumber dayjs i lines self = runLines toNumber dayjs j lines self.
Proof.
  intros toNumber dayjs lines; induction lines as [|l lines IH]; intros i j self Hi Hj;
    [reflexivity|].
  simpl. rewrite (physicalLine_index toNumber dayjs self i j l Hi Hj).
  destruct (physicalLine _ _ _ _ _); [|reflexivity].
  apply IH; lia.
Qed.

Lemma physicalLine_skipped : forall toNumber dayjs self i line,
  skipped line = true -> physicalLine toNumber dayjs self i line = Some self.
Proof.
  intros toNumber dayjs self i line H. unfold physicalLine, skipped in *.
  destruct (1 <? i)%nat; [|reflexivity].
  destruct (String.length (Str.trim line) =? 0)%nat; simpl in *; [reflexivity|].
  now rewrite H.
Qed.

Lemma runLines_insert : forall toNumber dayjs before line after i self,
  1 < i + List.length before ->
  skipped line = true ->
  runLines toNumber dayjs i (before ++ line :: after) self
  = runLines toNumber dayjs i (before ++ after) self.
Proof.
  intros toNumber dayjs before; induction before as [|l before IH];
    intros line after i self Hi Hs.
  - simpl in *. rewrite (physicalLine_skipped _ _ _ _ _ Hs).
    apply runLines_index; lia.
  - simpl. destruct (physicalLine _ _ _ _ _); [|reflexivity].
    apply IH; [simpl in Hi; lia | exact Hs].
Qed.

(** X13.  A blank line or a [//] comment inserted anywhere after the
    first two lines changes nothing: the scanner skips it without
    touching the parser, a record being continued included. *)
Theorem X13_comments_and_blank_lines :
  forall (toNumber : string -> float) (dayjs : string -> Dj.Dayjs)
         (self : AcmiParser.t) (before after : list (list byte)) (line : list byte),
    Forall (Forall (fun x => x <> x0a)) (before ++ line :: after) ->
    2 <= List.length before ->
    skipped (decode (cutLine line)) = true ->
    _parseContent toNumber dayjs self (unlines (before ++ line :: after))
    = _parseContent toNumber dayjs self (unlines (before ++ after)).
Proof.
  intros toNumber dayjs self before after line H L S.
  assert (H' : Forall (Forall (fun x => x <> x0a)) (before ++ after)).
  { apply Forall_app in H. destruct H as [Hb Ha]. inversion Ha; subst.
    apply Forall_app. now split. }
  rewrite !parseContent_unlines by assumption.
  rewrite !map_app. cbn [map].
  rewrite runLines_insert; [reflexivity | rewrite length_map; lia | exact S].
Qed.

(** X13 (witness): a comment between a continued record and its
    continuation. *)
Lemma X13_comments_and_blank_lines_witness :
  _parseContent Host.toNumber Host.dayjs AcmiParser.new
    (unlines (map list_byte_of_string
                ["x"; "y"; "#5"; "a,T=1|2|3,Name=x\"] ++
              list_byte_of_string "// note" :: map list_byte_of_string ["y"]))
  = _parseContent Host.toNumber Host.dayjs AcmiParser.new
      (unlines (map list_byte_of_string
                  ["x"; "y"; "#5"; "a,T=1|2|3,Name=x\"] ++
                map list_byte_of_string ["y"])).
Proof.
  apply (X13_comments_and_blank_lines Host.toNumber Host.dayjs AcmiParser.new).
  - vm_compute. repeat (constructor; try discriminate).
  - vm_compute. lia.
  - vm_compute. reflexivity.
Defined.

(** ** The header *)

Lemma countLF_sliceFrom : forall n s, countLF (Str.sliceFrom n s) <= countLF s.
Proof.
  induction n as [|n IH]; intros s; [simpl; lia|].
  destruct s as [|c r]; simpl; [lia|]. specialize (IH r). lia.
Qed.

Lemma matchLine_countLF : forall s g r,
  matchLine s = Some (g, r) -> countLF r < countLF s.
Proof.
  induction s as [|c s IH]; intros g r; [discriminate|].
  cbn [matchLine countLF].
  destruct (Ascii.eqb c LF) eqn:E.
  - intros H; injection H as _ <-. lia.
  - destruct (Ascii.eqb c CR).
    + destruct s as [|d s']; [discriminate|].
      destruct (Ascii.eqb d LF) eqn:D; [|discriminate].
      intros H; injection H as _ <-. simpl. rewrite D. lia.
    + destruct (separatorAt (String c s)); [discriminate|].
      destruct (matchLine s) as [[g' r']|]; [|discriminate].
      intros H; injection H as _ <-. specialize (IH g' r' eq_refl). lia.
Qed.

Lemma headerFields_countLF : forall s tv, headerFields s = Some tv -> 2 <= countLF s.
Proof.
  intros s tv. unfold headerFields.
  destruct (Str.startsWith s "FileType="); [|discriminate].
  destruct (matchLine (Str.sliceFrom 9 s)) as [[type r]|] eqn:M1; [|discriminate].
  destruct (Str.startsWith r "FileVersion="); [|discriminate].
  destruct (matchLine (Str.sliceFrom 12 r)) as [[version r2]|] eqn:M2; [|discriminate].
  intros _.
  apply matchLine_countLF in M1. apply matchLine_countLF in M2.
  pose proof (countLF_sliceFrom 9 s). pose proof (countLF_sliceFrom 12 r). lia.
Qed.

Lemma headerPattern_countLF : forall s tv, _headerPattern s = Some tv -> 2 <= countLF s.
Proof.
  intros s tv. unfold _headerPattern.
  destruct (Str.startsWith s bomString); intros H; apply headerFields_countLF in H.
  - pose proof (countLF_sliceFrom 3 s). lia.
  - exact H.
Qed.

Lemma countLF_bytes : forall l, countLF (string_of_list_byte l) = lineFeeds l.
Proof.
  unfold string_of_list_byte, lineFeeds.
  induction l as [|b l IH]; simpl; [reflexivity|].
  rewrite IH. destruct b; reflexivity.
Qed.

Lemma countLF_decode : forall l, countLF (decode l) <= lineFeeds l.
Proof.
  intros l. unfold decode.
  destruct l as [|b1 [|b2 [|b3 r]]]; try (rewrite countLF_bytes; lia).
  destruct (_ && _); rewrite countLF_bytes; [|lia].
  unfold lineFeeds. simpl.
  destruct (Byte.eqb b1 x0a), (Byte.eqb b2 x0a), (Byte.eqb b3 x0a); simpl; lia.
Qed.

(** X14.  The header is looked for in the first 64 bytes only: when
    these hold fewer than two line feeds, [_parseHeader] changes nothing,
    so that a header that does not end within 64 bytes is neither
    recorded nor checked. *)
Theorem X14_header_window :
  forall (self : AcmiParser.t) (buffer : list byte),
    lineFeeds (slice 0 64 buffer) < 2 ->
    _parseHeader self buffer = self.
Proof.
  intros self buffer H. unfold _parseHeader.
  destruct (_headerPattern (decode (slice 0 64 buffer))) as [[type version]|] eqn:P;
    [|reflexivity].
  apply headerPattern_countLF in P.
  pose proof (countLF_decode (slice 0 64 buffer)). lia.
Qed.

(** X14 (witness): a header whose version line is padded with spaces, so
    that its line feed comes after the 64th byte. *)
Lemma X14_header_window_witness :
  _parseHeader AcmiParser.new
    (list_byte_of_string
       (Host.file ["FileType=text/acmi/tacview";
                   "FileVersion=2.3                                   ";
                   "#5"]))
  = AcmiParser.new.
Proof.
  apply (X14_header_window AcmiParser.new).
  vm_compute. lia.
Defined.

Lemma string_append_assoc : forall a b c : string,
  ((a ++ b) ++ c = a ++ (b ++ c))%string.
Proof.
  induction a as [|x a IH]; intros b c; simpl; [reflexivity|]. now rewrite IH.
Qed.

Lemma separatorAt_ascii : forall c r,
  (nat_of_ascii c <? 128)%nat = true -> separatorAt (String c r) = false.
Proof.
  intros c r H. destruct r as [|d [|e r]]; try reflexivity.
  simpl. unfold isLineSeparator.
  destruct (Ascii.eqb c "226") eqn:E; [|reflexivity].
  apply Ascii.eqb_eq in E. subst c. discriminate.
Qed.

Lemma matchLine_plain : forall u e r,
  plain u = true -> isLineEnd e = true ->
  matchLine (u ++ e ++ r)%string = Some (u, r).
Proof.
  induction u as [|c u IH]; intros e r P E.
  - unfold isLineEnd in E. apply Bool.orb_true_iff in E.
    destruct E as [E|E]; apply String.eqb_eq in E; subst e; reflexivity.
  - simpl in P. apply Bool.andb_true_iff in P. destruct P as [P Pt].
    apply Bool.andb_true_iff in P. destruct P as [P Pl].
    apply Bool.andb_true_iff in P. destruct P as [Pa Pc].
    apply Bool.negb_true_iff in Pl. apply Bool.negb_true_iff in Pc.
    cbn [String.append matchLine]. rewrite Pl, Pc.
    rewrite (separatorAt_ascii c _ Pa). now rewrite (IH e r Pt E).
Qed.

Lemma length_list_byte_of_string : forall s,
  List.length (list_byte_of_string s) = String.length s.
Proof.
  intros s. unfold list_byte_of_string. rewrite length_map.
  induction s as [|c s IH]; simpl; [reflexivity | now rewrite IH].
Qed.

Lemma length_append : forall a b : string,
  String.length (a ++ b) = String.length a + String.length b.
Proof.
  induction a as [|c a IH]; intros b; simpl; [reflexivity | now rewrite IH].
Qed.

Lemma prefix_empty : forall s, String.prefix EmptyString s = true.
Proof. intros []; reflexivity. Qed.

Lemma headerPattern_headerBytes : forall type eol1 version eol2 rest,
  plain type = true -> plain version = true ->
  isLineEnd eol1 = true -> isLineEnd eol2 = true ->
  String.length type + String.length eol1 + String.length version + String.length eol2 + 21
  <= 64 ->
  _headerPattern (decode (slice 0 64 (headerBytes type eol1 version eol2 rest)))
  = Some (type, version).
Proof.
  intros type eol1 version eol2 rest Pt Pv E1 E2 L.
  unfold headerBytes, slice. rewrite Nat.sub_0_r. cbn [skipn].
  set (S := ("FileType=" ++ type ++ eol1 ++ "FileVersion=" ++ version ++ eol2)%string).
  assert (LS : List.length (list_byte_of_string S) <= 64).
  { rewrite length_list_byte_of_string. unfold S. cbn [String.append String.length].
    rewrite !length_append. cbn [String.append String.length]. rewrite !length_append. lia. }
  rewrite firstn_app.
  rewrite (firstn_all2 (list_byte_of_string S) LS).
  set (T := firstn _ rest).
  assert (D : decode (list_byte_of_string S ++ T)
              = (S ++ string_of_list_byte T)%string).
  { rewrite <- (string_of_list_byte_of_string S) at 2.
    rewrite <- string_of_list_byte_app. unfold S. reflexivity. }
  rewrite D. unfold S.
  rewrite !string_append_assoc.
  unfold _headerPattern, bomString.
  cbn [String.append Str.startsWith String.prefix].
  destruct (ascii_dec _ _) as [N|_]; [discriminate N|].
  unfold headerFields.
  cbn [String.append Str.startsWith String.prefix Str.sliceFrom].
  repeat (destruct (ascii_dec _ _) as [_|N]; [|exfalso; apply N; reflexivity]).
  rewrite ?string_append_assoc.
  rewrite (matchLine_plain type eol1 _ Pt E1).
  cbn [String.append Str.startsWith String.prefix Str.sliceFrom].
  repeat (destruct (ascii_dec _ _) as [_|N]; [|exfalso; apply N; reflexivity]).
  rewrite ?string_append_assoc.
  rewrite (matchLine_plain version eol2 _ Pv E2).
  now rewrite !prefix_empty.
Qed.

(** X15.  A well-formed header is recorded as written: for a type and a
    version made of ASCII characters, each line ended by a line feed or by
    a carriage return and a line feed, the whole within the first 64
    bytes, [_parseHeader] stores the type and the version and sets
    [isValid] to the result of the check of both, and changes nothing
    else. *)
Theorem X15_header_round_trip :
  forall (self : AcmiParser.t) (type eol1 version eol2 : string) (rest : list byte),
    plain type = true -> plain version = true ->
    isLineEnd eol1 = true -> isLineEnd eol2 = true ->
    String.length type + String.length eol1 + String.length version + String.length eol2 + 21
    <= 64 ->
    _parseHeader self (headerBytes type eol1 version eol2 rest)
    = set_data (AcmiData.set_isValid (validHeader type version)
                  (AcmiData.set_header (AcmiHeader.mk type version) (_data self))) self.
Proof.
  intros self type eol1 version eol2 rest Pt Pv E1 E2 L.
  unfold _parseHeader.
  rewrite (headerPattern_headerBytes type eol1 version eol2 rest Pt Pv E1 E2 L).
  open_parser self. reflexivity.
Qed.

(** X15 (witness): the header of Tacview 2.2, its first line ended by a
    carriage return and a line feed. *)
Lemma X15_header_round_trip_witness :
  _parseHeader AcmiParser.new
    (headerBytes "text/acmi/tacview" (String CR (String LF EmptyString)) "2.2"
                 (String LF EmptyString) (list_byte_of_string "#5"))
  = set_data (AcmiData.set_isValid (validHeader "text/acmi/tacview" "2.2")
                (AcmiData.set_header (AcmiHeader.mk "text/acmi/tacview" "2.2")
                   (_data AcmiParser.new))) AcmiParser.new.
Proof.
  apply (X15_header_round_trip AcmiParser.new "text/acmi/tacview"
           (String CR (String LF EmptyString)) "2.2" (String LF EmptyString)
           (list_byte_of_string "#5")); try reflexivity.
  vm_compute. lia.
Defined.

(** ** The end of the entities *)

(** X16.  When the time span of the returned data has a valid end, so
    has every entity: an entity that was not removed nor destroyed gets
    the end of the data. *)
Theorem X16_every_entity_ends :
  forall (toNumber : string -> float) (dayjs : string -> Dj.Dayjs)
         (unzip : list byte -> option (list (list byte)))
         (self : AcmiParser.t) (data : list byte) (filter : option (list string))
         (d : AcmiData.t) (p : AcmiParser.t) (k : Id.t) (e : EntityProps.t),
    parse toNumber dayjs unzip self data filter = Some (d, p) ->
    Dj.isValid (TimeSpan.end_ (AcmiData.timeSpan d)) = true ->
    In (k, e) (AcmiData.entities d) ->
    Dj.isValid (TimeSpan.end_ (EntityProps.timeSpan e)) = true.
Proof.
  intros toNumber dayjs unzip self data filter d p k e H V I.
  apply parse_state in H. destruct H as [buffer H].
  unfold _parseBuffer in H.
  destruct (_parseContent _ _ _ _) as [s1|]; [|discriminate].
  injection H as Hd _. subst d.
  destruct s1 as [cl ts fr de fi [iv hd gp tsp en frs] fl la lo]. simpl in *.
  apply in_map_iff in I. destruct I as ([k0 e0] & E & _).
  destruct (negb (Dj.isValid (TimeSpan.end_ (EntityProps.timeSpan e0)))) eqn:N;
    injection E as _ <-.
  - destruct e0. exact V.
  - now apply Bool.negb_false_iff in N.
Qed.

(** X16 (witness): entity [b] of the removal scenario, which is never
    removed. *)
Lemma X16_every_entity_ends_witness :
  exists d p e,
    Host.parse Scenario.removal None = Some (d, p)
    /\ Dj.isValid (TimeSpan.end_ (AcmiData.timeSpan d)) = true
    /\ nth_error (AcmiData.entities d) 1 = Some (Some 11%Z, e)
    /\ Dj.isValid (TimeSpan.end_ (EntityProps.timeSpan e)) = true.
Proof.
  do 3 eexists.
  split; [vm_compute; reflexivity|].
  split; [vm_compute; reflexivity|].
  split; [vm_compute; reflexivity|].
  eapply (X16_every_entity_ends Host.toNumber Host.dayjs Host.unzip AcmiParser.new
            (list_byte_of_string Scenario.removal) None _ _ (Some 11%Z)).
  - vm_compute. reflexivity.
  - vm_compute. reflexivity.
  - vm_compute. right. left. reflexivity.
Defined.

(** ** The sampler: search of a frame *)

Lemma shiftr_half : forall d : Z, (0 <= d)%Z -> (0 <= Z.shiftr d 1 <= d)%Z.
Proof.
  intros d H. rewrite Z.shiftr_div_pow2 by lia. change (2 ^ 1)%Z with 2%Z.
  split; [apply Z.div_pos; lia | apply Z.div_le_upper_bound; lia].
Qed.

Lemma nth_error_in_range : forall (frames : Frames) (m : Z),
  (0 <= m < Z.of_nat (List.length frames))%Z ->
  exists f, nth_error frames (Z.to_nat m) = Some f.
Proof.
  intros frames m H.
  destruct (nth_error frames (Z.to_nat m)) as [f|] eqn:E; [now exists f|].
  apply nth_error_None in E. lia.
Qed.

(** The index the search holds is [-1] or that of a frame that passed
    the test. *)
Lemma searchLoop_hit : forall fuel frames searched index low high,
  (-1 <= index < Z.of_nat (List.length frames))%Z ->
  ((0 <= index)%Z ->
   exists f, nth_error frames (Z.to_nat index) = Some f /\ notAfter searched f = true) ->
  (0 <= low)%Z -> (high < Z.of_nat (List.length frames))%Z ->
  let r := Sampler.searchLoop fuel frames searched index low high in
  (-1 <= r < Z.of_nat (List.length frames))%Z
  /\ ((0 <= r)%Z ->
      exists f, nth_error frames (Z.to_nat r) = Some f /\ notAfter searched f = true).
Proof.
  induction fuel as [|fuel IH]; intros frames searched index low high B Q L H; simpl.
  - now split.
  - destruct (low <=? high)%Z eqn:C; [|now split].
    apply Z.leb_le in C.
    pose proof (shiftr_half (high - low) ltac:(lia)) as M.
    set (mid := (low + Z.shiftr (high - low) 1)%Z) in *.
    destruct (nth_error frames (Z.to_nat mid)) as [frame|] eqn:E; [|now split].
    fold (notAfter searched frame).
    destruct (notAfter searched frame) eqn:T.
    + apply IH; [unfold mid; lia | intros _; now exists frame | unfold mid; lia | exact H].
    + apply IH; [exact B | exact Q | exact L | unfold mid; lia].
Qed.

(** X17.  Whatever the order of the frames (the time markers of a file
    may go back), the search returns [-1] or the index of a frame that
    passes its test: a frame whose time stamp minus the searched one is
    not above 0. *)
Theorem X17_search_returns_a_passing_frame :
  forall (frames : Frames) (searched : float),
    (-1 <= Sampler._searchFrameIndex frames searched < Z.of_nat (List.length frames))%Z
    /\ ((0 <= Sampler._searchFrameIndex frames searched)%Z ->
        exists f,
          nth_error frames (Z.to_nat (Sampler._searchFrameIndex frames searched)) = Some f
          /\ notAfter searched f = true).
Proof.
  intros frames searched. unfold Sampler._searchFrameIndex.
  apply searchLoop_hit; try lia.
Qed.

Lemma searchLoop_last : forall fuel frames searched index low high,
  testSorted searched frames ->
  (forall j f, nth_error frames j = Some f -> (Z.of_nat j < low)%Z ->
               notAfter searched f = true) ->
  (forall j f, nth_error frames j = Some f -> (high < Z.of_nat j)%Z ->
               notAfter searched f = false) ->
  index = (low - 1)%Z -> (0 <= low)%Z -> (high < Z.of_nat (List.length frames))%Z ->
  (high - low + 1 <= Z.of_nat fuel)%Z ->
  forall j f, nth_error frames j = Some f ->
    (notAfter searched f = true
     <-> (Z.of_nat j <= Sampler.searchLoop fuel frames searched index low high)%Z).
Proof.
  induction fuel as [|fuel IH]; intros frames searched index low high S A B I L H F j f N.
  - simpl. subst index.
    destruct (Z_lt_dec (Z.of_nat j) low) as [c|c].
    + split; [lia | intros _; exact (A j f N c)].
    + split; [|lia]. intros T. rewrite (B j f N) in T by lia. discriminate.
  - simpl. destruct (low <=? high)%Z eqn:C.
    2:{ apply Z.leb_gt in C. subst index.
        destruct (Z_lt_dec (Z.of_nat j) low) as [c|c].
        - split; [lia | intros _; exact (A j f N c)].
        - split; [|lia]. intros T. rewrite (B j f N) in T by lia. discriminate. }
    apply Z.leb_le in C.
    pose proof (shiftr_half (high - low) ltac:(lia)) as M.
    set (mid := (low + Z.shiftr (high - low) 1)%Z) in *.
    destruct (nth_error_in_range frames mid ltac:(unfold mid; lia)) as [frame E].
    rewrite E. fold (notAfter searched frame).
    destruct (notAfter searched frame) eqn:T.
    + apply IH; try assumption; try (unfold mid; lia).
      intros j' f' N' c. apply (S j' (Z.to_nat mid) f' frame); try assumption. lia.
    + apply IH; try assumption; try (unfold mid; lia).
      intros j' f' N' c.
      destruct (notAfter searched f') eqn:T'; [|reflexivity].
      assert (X : notAfter searched frame = true)
        by (apply (S (Z.to_nat mid) j' frame f'); [lia | assumption | assumption | assumption]).
      rewrite X in T. discriminate.
Qed.

(** X18.  When the frames that pass the test come first, as they do when
    the time stamps increase, the search returns the index of the last
    frame that passes it ([-1] when none does): a frame passes the test
    exactly when its index is not above the result. *)
Theorem X18_search_returns_the_last_passing_frame :
  forall (frames : Frames) (searched : float) (j : nat) (f : Frame.t),
    testSorted searched frames ->
    nth_error frames j = Some f ->
    (notAfter searched f = true
     <-> (Z.of_nat j <= Sampler._searchFrameIndex frames searched)%Z).
Proof.
  intros frames searched j f S N. unfold Sampler._searchFrameIndex.
  apply searchLoop_last; try assumption; try lia.
  intros j' f' N' c.
  assert (j' < List.length frames) by (apply nth_error_Some; congruence).
  lia.
Qed.

(** X18 (witness): the frames at 0 s and 5 s, searched for 3 s. *)
Lemma X18_search_returns_the_last_passing_frame_witness :
  notAfter (Num.ofZ 3) (Frame.mk (Num.ofZ 0) []) = true
  <-> (Z.of_nat 0
       <= Sampler._searchFrameIndex [Frame.mk (Num.ofZ 0) []; Frame.mk (Num.ofZ 5) []]
            (Num.ofZ 3))%Z.
Proof.
  apply (X18_search_returns_the_last_passing_frame
           [Frame.mk (Num.ofZ 0) []; Frame.mk (Num.ofZ 5) []] (Num.ofZ 3) 0).
  - intros i j fi fj L Hi Hj T.
    destruct i as [|[|[|i]]], j as [|[|[|j]]]; simpl in Hi, Hj;
      try discriminate; try lia;
      injection Hi as <-; injection Hj as <-;
      first [exact T | vm_compute in T; discriminate].
  - reflexivity.
Defined.

(** ** The sampler: frames and trajectories *)

Lemma getFrame_some : forall data time frame,
  Sampler.getFrame data time = Some frame ->
  In frame (AcmiData.frames data)
  /\ withinData data time = true
  /\ notAfter (Dj.asSeconds
                 (Dj.diff time (GlobalProperties.referenceTime (AcmiData.globalProperties data))))
              frame = true.
Proof.
  intros data time frame. unfold Sampler.getFrame, withinData.
  destruct (TimeSpan.isValid _); [|discriminate].
  destruct (_ && _); [|discriminate].
  set (ts := Dj.asSeconds _).
  assert (BQ := searchLoop_hit (S (List.length (AcmiData.frames data)))
                   (AcmiData.frames data) ts (-1)%Z 0%Z
                   (Z.of_nat (List.length (AcmiData.frames data)) - 1)%Z
                   ltac:(lia) ltac:(lia) ltac:(lia) ltac:(lia)).
  fold (Sampler._searchFrameIndex (AcmiData.frames data) ts) in BQ.
  destruct BQ as [B Q].
  destruct (Sampler._searchFrameIndex (AcmiData.frames data) ts <? 0)%Z eqn:C; [discriminate|].
  apply Z.ltb_ge in C. intros H.
  destruct (Q C) as (f & N & T). rewrite N in H. injection H as <-.
  split; [eapply nth_error_In; exact N | split; [reflexivity | exact T]].
Qed.

(** X19.  A frame returned by [getFrame] is a frame of the data that
    passes the test of the search for the requested time, counted in
    seconds from the reference time; the requested time lies between the
    reference time (not the start of the time span) and the end of the
    time span. *)
Theorem X19_getFrame_returns_a_frame_of_the_data :
  forall (data : AcmiData.t) (time : Dj.Dayjs) (frame : Frame.t),
    Sampler.getFrame data time = Some frame ->
    In frame (AcmiData.frames data)
    /\ withinData data time = true
    /\ notAfter (Dj.asSeconds
                   (Dj.diff time
                      (GlobalProperties.referenceTime (AcmiData.globalProperties data))))
                frame = true.
Proof.
  intros data time frame H. apply getFrame_some, H.
Qed.

(** X19 (witness): the frame of the minimal file one second after the
    reference time. *)
Lemma X19_getFrame_returns_a_frame_of_the_data_witness :
  exists d p frame,
    Host.parse Scenario.minimal None = Some (d, p)
    /\ Sampler.getFrame d (Num.ofZ 1704067201000) = Some frame
    /\ In frame (AcmiData.frames d)
    /\ withinData d (Num.ofZ 1704067201000) = true
    /\ notAfter (Dj.asSeconds
                   (Dj.diff (Num.ofZ 1704067201000)
                      (GlobalProperties.referenceTime (AcmiData.globalProperties d))))
                frame = true.
Proof.
  do 3 eexists.
  split; [vm_compute; reflexivity|].
  split; [vm_compute; reflexivity|].
  apply X19_getFrame_returns_a_frame_of_the_data.
  vm_compute. reflexivity.
Defined.

Section Trajectories.

Variable Cartesian3 : Type.
Variable Quaternion : Type.
Variable fromDegrees : float -> float -> float -> Cartesian3.
Variable headingPitchRollQuaternion : Cartesian3 -> float -> float -> float -> Quaternion.
Variable positionEquals : Cartesian3 -> Cartesian3 -> bool.
Variable quaternionEquals : Quaternion -> Quaternion -> bool.
Variable data : AcmiData.t.

Let good (kv : Id.t * Sampler.Trajectory Cartesian3 Quaternion) : Prop :=
  goodTrajectory data (fst kv) (snd kv).

Lemma jsmap_get_Forall :
  forall (V : Type) (T : Id.t * V -> Prop) (k : Id.t) (v : V) (m : list (Id.t * V)),
    Forall T m -> JsMap.get Id.sameValueZero k m = Some v -> T (k, v).
Proof.
  intros V T k v m F; induction F as [|[k' w] r Hh Ht IH]; simpl; [discriminate|].
  destruct (Id.sameValueZero k k') eqn:E; [|exact IH].
  apply sameValueZero_eq in E. subst k'. intros H; injection H as <-. exact Hh.
Qed.

Lemma jsmap_set_Forall :
  forall (V : Type) (T : Id.t * V -> Prop) (k : Id.t) (v : V) (m : list (Id.t * V)),
    Forall T m -> T (k, v) -> Forall T (JsMap.set Id.sameValueZero k v m).
Proof.
  intros V T k v m F Hk; induction F as [|[k' w] r Hh Ht IH]; simpl.
  - constructor; [exact Hk | constructor].
  - destruct (Id.sameValueZero k k') eqn:E.
    + apply sameValueZero_eq in E. subst k'. constructor; assumption.
    + constructor; assumption.
Qed.

Lemma addSample_good : forall time lastFrame frame trajectories entry,
  Sampler.getFrame data time = Some frame ->
  In entry (Frame.scene frame) ->
  Forall good trajectories ->
  Forall good
    (Sampler.addSample Cartesian3 Quaternion fromDegrees headingPitchRollQuaternion
       positionEquals quaternionEquals time lastFrame trajectories entry).
Proof.
  intros time lastFrame frame trajectories [id transform] G I F.
  destruct (getFrame_some data time frame G) as (If & W & _).
  unfold Sampler.addSample.
  set (samples := Sampler.trajectoryOf Cartesian3 Quaternion id trajectories).
  set (sample := Sampler.mkSample _ _ time _).
  assert (Fs : Forall (fun s => withinData data (Sampler.time Cartesian3 Quaternion s) = true)
                      samples).
  { unfold samples, Sampler.trajectoryOf.
    destruct (JsMap.get Id.sameValueZero id trajectories) as [v|] eqn:E; [|constructor].
    apply (jsmap_get_Forall _ good id v trajectories F E). }
  assert (Ix : exists frame, In frame (AcmiData.frames data)
                             /\ In id (map fst (Frame.scene frame))).
  { exists frame. split; [exact If|]. apply in_map_iff. now exists (id, transform). }
  apply jsmap_set_Forall; [exact F|].
  unfold good, goodTrajectory. cbn [fst snd].
  destruct (negb lastFrame && _) eqn:K.
  - split; [exact Ix|]. split; [|exact Fs].
    intros E. rewrite E in K. simpl in K. now rewrite Bool.andb_false_r in K.
  - split; [exact Ix|]. split.
    + intros E. apply app_eq_nil in E. destruct E as [_ E]. discriminate.
    + apply Forall_app. split; [exact Fs | constructor; [exact W | constructor]].
Qed.

Lemma addFrame_good : forall time lastFrame frame trajectories,
  Sampler.getFrame data time = Some frame ->
  Forall good trajectories ->
  Forall good
    (Sampler._addFrame Cartesian3 Quaternion fromDegrees headingPitchRollQuaternion
       positionEquals quaternionEquals trajectories time frame lastFrame).
Proof.
  intros time lastFrame frame trajectories G. unfold Sampler._addFrame.
  assert (Gen : forall entries trajectories,
            (forall e, In e entries -> In e (Frame.scene frame)) ->
            Forall good trajectories ->
            Forall good
              (fold_left (Sampler.addSample Cartesian3 Quaternion fromDegrees
                            headingPitchRollQuaternion positionEquals quaternionEquals
                            time lastFrame) entries trajectories)).
  { induction entries as [|e entries IH]; intros trs Sub F; simpl; [exact F|].
    apply IH; [intros x Ix; apply Sub; now right|].
    apply (addSample_good time lastFrame frame); [exact G | apply Sub; now left | exact F]. }
  apply Gen. auto.
Qed.

Lemma sampleLoop_good : forall fuel sampleRate duration timeStamp trajectories r,
  Forall good trajectories ->
  Sampler.sampleLoop Cartesian3 Quaternion fromDegrees headingPitchRollQuaternion
    positionEquals quaternionEquals fuel data sampleRate duration timeStamp trajectories
  = Some r ->
  Forall good (snd r).
Proof.
  induction fuel as [|fuel IH]; intros sampleRate duration timeStamp trajectories r F;
    simpl; [discriminate|].
  set (time := Dj.add _ timeStamp).
  assert (F1 : Forall good
                 match Sampler.getFrame data time with
                 | Some frame =>
                     Sampler._addFrame Cartesian3 Quaternion fromDegrees
                       headingPitchRollQuaternion positionEquals quaternionEquals
                       trajectories time frame false
                 | None => trajectories
                 end).
  { destruct (Sampler.getFrame data time) as [frame|] eqn:G; [|exact F].
    apply addFrame_good; assumption. }
  destruct (PrimFloat.leb _ duration).
  - apply IH, F1.
  - intros H; injection H as <-. exact F1.
Qed.

Lemma createSampledTrajectories_good : forall fuel sampleRate trajectories,
  Sampler.createSampledTrajectories Cartesian3 Quaternion fromDegrees
    headingPitchRollQuaternion positionEquals quaternionEquals fuel data sampleRate
  = Some trajectories ->
  Forall good trajectories.
Proof.
  intros fuel sampleRate trajectories. unfold Sampler.createSampledTrajectories.
  destruct (TimeSpan.isValid _); [|intros H; injection H as <-; constructor].
  destruct (Sampler.sampleLoop _ _ _ _ _ _ _ _ _ _ _ _) as [[timeStamp trs]|] eqn:L;
    [|discriminate].
  apply sampleLoop_good in L; [|constructor]. simpl in L.
  destruct (PrimFloat.ltb _ _); [|intros H; injection H as <-; exact L].
  destruct (Sampler.getFrame data _) as [endFrame|] eqn:G;
    intros H; injection H as <-; [|exact L].
  apply addFrame_good; assumption.
Qed.

End Trajectories.

(** X20.  Every trajectory [createSampledTrajectories] returns belongs to
    an object of the scene of some frame of the data, holds at least one
    sample, and the time of each of its samples lies between the
    reference time and the end of the time span of the data. *)
Theorem X20_trajectories_come_from_the_frames :
  forall (Cartesian3 Quaternion : Type)
         (fromDegrees : float -> float -> float -> Cartesian3)
         (headingPitchRollQuaternion : Cartesian3 -> float -> float -> float -> Quaternion)
         (positionEquals : Cartesian3 -> Cartesian3 -> bool)
         (quaternionEquals : Quaternion -> Quaternion -> bool)
         (fuel : nat) (data : AcmiData.t) (sampleRate : option float)
         (trajectories : Sampler.Trajectories Cartesian3 Quaternion)
         (id : Id.t) (samples : Sampler.Trajectory Cartesian3 Quaternion),
    Sampler.createSampledTrajectories Cartesian3 Quaternion fromDegrees
      headingPitchRollQuaternion positionEquals quaternionEquals fuel data sampleRate
    = Some trajectories ->
    In (id, samples) trajectories ->
    goodTrajectory data id samples.
Proof.
  intros Cartesian3 Quaternion fromDegrees hpr positionEquals quaternionEquals
         fuel data sampleRate trajectories id samples H I.
  apply createSampledTrajectories_good in H.
  rewrite Forall_forall in H. exact (H (id, samples) I).
Qed.

(** X20 (witness): the trajectory of the entity of the minimal file. *)
Lemma X20_trajectories_come_from_the_frames_witness :
  exists d p trajectories samples,
    Host.parse Scenario.minimal None = Some (d, p)
    /\ Sampler.createSampledTrajectories Scenario.Position unit Scenario.fromDegrees
         Scenario.headingPitchRollQuaternion Scenario.positionEquals
         Scenario.quaternionEquals 2 d None = Some trajectories
    /\ nth_error trajectories 0 = Some (Scenario.idA, samples)
    /\ goodTrajectory d Scenario.idA samples.
Proof.
  do 4 eexists.
  split; [vm_compute; reflexivity|].
  split; [vm_compute; reflexivity|].
  split; [vm_compute; reflexivity|].
  eapply (X20_trajectories_come_from_the_frames Scenario.Position unit Scenario.fromDegrees
            Scenario.headingPitchRollQuaternion Scenario.positionEquals
            Scenario.quaternionEquals 2 _ None).
  - vm_compute. reflexivity.
  - left. reflexivity.
Defined.

(** X21.  The sampler applied to what [parse] returns: every trajectory
    belongs to an entity of the data, and its identifier is a number. *)
Theorem X21_trajectories_of_parsed_data_have_entities :
  forall (toNumber : string -> float) (dayjs : string -> Dj.Dayjs)
         (unzip : list byte -> option (list (list byte)))
         (Cartesian3 Quaternion : Type)
         (fromDegrees : float -> float -> float -> Cartesian3)
         (headingPitchRollQuaternion : Cartesian3 -> float -> float -> float -> Quaternion)
         (positionEquals : Cartesian3 -> Cartesian3 -> bool)
         (quaternionEquals : Quaternion -> Quaternion -> bool)
         (self : AcmiParser.t) (bytes : list byte) (filter : option (list string))
         (d : AcmiData.t) (p : AcmiParser.t)
         (fuel : nat) (sampleRate : option float)
         (trajectories : Sampler.Trajectories Cartesian3 Quaternion)
         (id : Id.t) (samples : Sampler.Trajectory Cartesian3 Quaternion),
    parse toNumber dayjs unzip self bytes filter = Some (d, p) ->
    Sampler.createSampledTrajectories Cartesian3 Quaternion fromDegrees
      headingPitchRollQuaternion positionEquals quaternionEquals fuel d sampleRate
    = Some trajectories ->
    In (id, samples) trajectories ->
    id <> Id.NaN /\ exists e, Entities.get id (AcmiData.entities d) = Some e.
Proof.
  intros toNumber dayjs unzip Cartesian3 Quaternion fromDegrees hpr positionEquals
         quaternionEquals self bytes filter d p fuel sampleRate trajectories id samples
         P C I.
  apply createSampledTrajectories_good in C.
  rewrite Forall_forall in C. destruct (C (id, samples) I) as ((frame & If & Ik) & _).
  exact (scene_objects_known toNumber dayjs unzip self bytes filter d p frame id P If Ik).
Qed.

(** X21 (witness): the trajectory of the entity of the minimal file. *)
Lemma X21_trajectories_of_parsed_data_have_entities_witness :
  exists d p trajectories samples,
    Host.parse Scenario.minimal None = Some (d, p)
    /\ Sampler.createSampledTrajectories Scenario.Position unit Scenario.fromDegrees
         Scenario.headingPitchRollQuaternion Scenario.positionEquals
         Scenario.quaternionEquals 2 d None = Some trajectories
    /\ nth_error trajectories 0 = Some (Scenario.idA, samples)
    /\ Scenario.idA <> Id.NaN
    /\ exists e, Entities.get Scenario.idA (AcmiData.entities d) = Some e.
Proof.
  do 4 eexists.
  split; [vm_compute; reflexivity|].
  split; [vm_compute; reflexivity|].
  split; [vm_compute; reflexivity|].
  eapply (X21_trajectories_of_parsed_data_have_entities Host.toNumber Host.dayjs Host.unzip
            Scenario.Position unit Scenario.fromDegrees
            Scenario.headingPitchRollQuaternion Scenario.positionEquals
            Scenario.quaternionEquals AcmiParser.new
            (list_byte_of_string Scenario.minimal) None _ _ 2 None).
  - vm_compute. reflexivity.
  - vm_compute. reflexivity.
  - left. reflexivity.
Defined.

(** ** What the scanner never undoes *)

Lemma grows_refl : forall s, grows s s.
Proof. intros s. split; exists []; now rewrite app_nil_r. Qed.

Lemma grows_eq : forall s0 s s',
  grows s0 s ->
  (exists more, _filteredIds s' = _filteredIds s ++ more) ->
  (exists more, AcmiData.frames (_data s') = AcmiData.frames (_data s) ++ more) ->
  grows s0 s'.
Proof.
  intros s0 s s' [[a A] [b B]] [c C] [d D]. split.
  - exists (a ++ c). now rewrite C, A, app_assoc.
  - exists (b ++ d). now rewrite D, B, app_assoc.
Qed.

Lemma appended_nothing : forall (A : Type) (l l' : list A), l' = l -> exists more, l' = l ++ more.
Proof. intros A l l' ->. exists []. now rewrite app_nil_r. Qed.

Lemma parseTimeMarker_frames : forall toNumber s line,
  exists more,
    AcmiData.frames (_data (parseTimeMarker toNumber s line))
    = AcmiData.frames (_data s) ++ more.
Proof.
  intros toNumber s line. unfold parseTimeMarker.
  destruct (Num.strictNe _ _); destruct (0 <? _)%nat; open_parser s; simpl;
    first [eexists; reflexivity | exists []; now rewrite app_nil_r].
Qed.

Lemma grows_scanLoop :
  forall toNumber dayjs s0 buffer rest current start previousCR index s s',
    grows s0 s ->
    scanLoop toNumber dayjs buffer rest current start previousCR index s = Some s' ->
    grows s0 s'.
Proof.
  intros toNumber dayjs s0. apply (kept_scanLoop toNumber dayjs (grows s0)).
  - intros s l H. apply (grows_eq s0 s _ H); apply appended_nothing; open_parser s; reflexivity.
  - intros s prop H. destruct (globalProp_keeps toNumber dayjs s prop) as (_ & F & R & _).
    apply (grows_eq s0 s _ H); apply appended_nothing; assumption.
  - intros s line H. destruct (parseTimeMarker_keeps toNumber s line) as (_ & F & _).
    apply (grows_eq s0 s _ H); [apply appended_nothing, F | apply parseTimeMarker_frames].
  - intros s line H. destruct (parseRemoval_keeps s line) as (_ & F & R & _).
    apply (grows_eq s0 s _ H); apply appended_nothing; assumption.
  - intros s line s' H E. apply parseEntity_shape in E.
    destruct E as (id & b & ents' & fids' & sc' & -> & C & _).
    apply (grows_eq s0 s _ H).
    + destruct C as [[_ ->]|[(ep & e0 & _ & _ & ->)|(ep & _ & _ & ->)]];
        open_parser s; simpl; first [eexists; reflexivity | exists []; now rewrite app_nil_r].
    + apply appended_nothing. open_parser s. reflexivity.
Qed.

(** X22.  The scanner never forgets a kept identifier and never changes
    or drops a frame it has pushed: whatever bytes it reads, the kept
    identifiers and the frames of the data afterwards are those before,
    with more appended. *)
Theorem X22_kept_ids_and_frames_only_grow :
  forall (toNumber : string -> float) (dayjs : string -> Dj.Dayjs)
         (buffer rest : list byte) (current start : nat) (previousCR : bool) (index : nat)
         (self self' : AcmiParser.t),
    scanLoop toNumber dayjs buffer rest current start previousCR index self = Some self' ->
    grows self self'.
Proof.
  intros toNumber dayjs buffer rest current start previousCR index self self' H.
  eapply grows_scanLoop; [apply grows_refl | exact H].
Qed.

(** X22 (witness): the scan of the removal scenario. *)
Lemma X22_kept_ids_and_frames_only_grow_witness :
  exists self',
    scanLoop Host.toNumber Host.dayjs (list_byte_of_string Scenario.removal)
             (list_byte_of_string Scenario.removal) 0 0 false 0 AcmiParser.new = Some self'
    /\ grows AcmiParser.new self'.
Proof.
  eexists. split; [vm_compute; reflexivity|].
  eapply (X22_kept_ids_and_frames_only_grow Host.toNumber Host.dayjs
            (list_byte_of_string Scenario.removal) (list_byte_of_string Scenario.removal)
            0 0 false 0 AcmiParser.new).
  vm_compute. reflexivity.
Defined.

(** ** Archives *)

(** X23.  An input is taken for an archive exactly when it starts with
    the two bytes [P] and [K]; whatever follows them is not looked at. *)
Theorem X23_archive_signature :
  forall data : list byte,
    _isZipped data = true <-> exists rest, data = x50 :: x4b :: rest.
Proof.
  intros data. unfold _isZipped. split.
  - destruct data as [|b1 [|b2 rest]]; try discriminate.
    intros H. apply Bool.andb_true_iff in H. destruct H as [_ H].
    apply String.eqb_eq in H. unfold slice, decode in H. simpl in H.
    unfold string_of_list_byte in H. simpl in H.
    injection H as H1 H2. exists rest.
    apply (f_equal byte_of_ascii) in H1. apply (f_equal byte_of_ascii) in H2.
    rewrite byte_of_ascii_of_byte in H1, H2. now subst.
  - intros [rest ->]. reflexivity.
Qed.

(** ** Repeated updates *)

(** X24.  Decoding the same [T=] slots a second time, from the transform
    they gave, gives that transform again. *)
Theorem X24_decodeCoords_idempotent :
  forall (toNumber : string -> float) (refLong refLat : float)
         (prev : option ITransform.t) (coords : list string) (t : ITransform.t),
    decodeCoords toNumber refLong refLat prev coords = Some t ->
    decodeCoords toNumber refLong refLat (Some t) coords = Some t.
Proof.
  intros toNumber refLong refLat prev coords t. unfold decodeCoords.
  destruct (inheritedTransform prev) as [lo la al ro pi ya].
  destruct coords as [|a [|b [|c [|d [|e [|f rest]]]]]]; simpl; unfold slot; simpl;
    try discriminate;
    repeat match goal with
           | |- context [nonEmpty ?x] => destruct (nonEmpty x)
           end;
    simpl; intros H; injection H as <-; reflexivity.
Qed.

(** X24 (witness): the slots [1|2|3] for a new entity. *)
Lemma X24_decodeCoords_idempotent_witness :
  exists t,
    decodeCoords Host.toNumber Num.zero Num.zero None ["1"; "2"; "3"] = Some t
    /\ decodeCoords Host.toNumber Num.zero Num.zero (Some t) ["1"; "2"; "3"] = Some t.
Proof.
  eexists. split; [vm_compute; reflexivity|].
  apply (X24_decodeCoords_idempotent Host.toNumber Num.zero Num.zero None ["1"; "2"; "3"]).
  vm_compute. reflexivity.
Defined.

(** X25.  The older decoder ([new Transform(components, previous)]) is
    idempotent as well: built again from the same components with its
    own result as previous transform, it gives that result. *)
Theorem X25_older_transform_idempotent :
  forall (toRadians : float -> float) (geoid : option (float -> float -> float))
         (refLong refLat : float) (cs : list (option float))
         (previous : option TransformTs.t),
    TransformTs.new toRadians geoid refLong refLat cs
      (Some (TransformTs.new toRadians geoid refLong refLat cs previous))
    = TransformTs.new toRadians geoid refLong refLat cs previous.
Proof.
  intros toRadians geoid refLong refLat cs previous. unfold TransformTs.new.
  destruct (TransformTs.component cs 0), (TransformTs.component cs 1),
           (TransformTs.component cs 2), (TransformTs.component cs 3),
           (TransformTs.component cs 4), (TransformTs.component cs 5);
    destruct previous as [[[px py pz] [[pr pp pw]|]]|]; simpl; reflexivity.
Qed.

(** ** Entities that are stored *)

(** X26.  An entity row is stored in [entities] whenever no filter is
    set or the entity is already known: the filter is consulted for new
    entities only, and an empty filter keeps them all. *)
Theorem X26_unfiltered_or_known_entity_is_stored :
  forall (toNumber : string -> float) (self self' : AcmiParser.t) (line : string)
         (commaPos : nat),
    Str.indexOf "," line = Some commaPos ->
    _filter self = []
    \/ Entities.has (Id.parseInt16 (Str.sliceTo commaPos line))
                    (AcmiData.entities (_data self)) = true ->
    parseEntity toNumber self line = Some self' ->
    Entities.has (Id.parseInt16 (Str.sliceTo commaPos line))
                 (AcmiData.entities (_data self')) = true.
Proof.
  intros toNumber s s' line commaPos C K. unfold parseEntity. rewrite C.
  set (id := Id.parseInt16 _) in *.
  set (props := Str.splitUnescaped _ _).
  set (e0 := match Entities.get id _ with Some e => e | None => _ end).
  destruct (fold_left _ props (e0, s)) as [ep s1] eqn:F.
  destruct (fold_entityProp_state toNumber props e0 s) as [b Hb].
  rewrite F in Hb. simpl in Hb. subst s1. clear F.
  assert (Stored : forall x : AcmiParser.t,
            Entities.has id (AcmiData.entities (_data x)) = true ->
            (if Id.isIn id (_filteredIds x) then parseTransform toNumber x id props
             else Some x) = Some s' ->
            Entities.has id (AcmiData.entities (_data s')) = true).
  { intros x Hx H. destruct (Id.isIn id (_filteredIds x)).
    - apply parseTransform_shape in H. destruct H as [->|[t ->]]; [exact Hx|].
      open_parser x. exact Hx.
    - injection H as <-. exact Hx. }
  assert (Set_ : forall ents : Entities, Entities.has id (Entities.set id ep ents) = true).
  { intros ents. unfold Entities.has, JsMap.has, Entities.set.
    now rewrite (jsmap_get_set_same _ id ep ents). }
  unfold Entities.has, JsMap.has in K. fold (Entities.get id (AcmiData.entities (_data s))) in K.
  destruct (Entities.get id (AcmiData.entities (_data s))) as [found|] eqn:G.
  - apply Stored. open_parser s. apply Set_.
  - destruct K as [K|K]; [|discriminate].
    assert (Kp : keepEntity (_filter (set_data (AcmiData.set_isValid b (_data s)) s)) ep = true)
      by (open_parser s; simpl in *; subst; reflexivity).
    rewrite Kp. apply Stored. open_parser s. apply Set_.
Qed.

(** X26 (witness): an entity row on a fresh parser, which has no filter. *)
Lemma X26_unfiltered_or_known_entity_is_stored_witness :
  exists self',
    parseEntity Host.toNumber AcmiParser.new "a,T=1|2|3,Type=Air" = Some self'
    /\ Entities.has (Id.parseInt16 (Str.sliceTo 1 "a,T=1|2|3,Type=Air"))
                    (AcmiData.entities (_data self')) = true.
Proof.
  eexists. split; [vm_compute; reflexivity|].
  apply (X26_unfiltered_or_known_entity_is_stored Host.toNumber AcmiParser.new _
           "a,T=1|2|3,Type=Air" 1).
  - reflexivity.
  - left. reflexivity.
  - vm_compute. reflexivity.
Defined.

(** ** The number of slots *)

Lemma length_consHead : forall c l,
  l <> [] -> List.length (Str.consHead c l) = List.length l.
Proof. intros c [|h t] H; [contradiction | reflexivity]. Qed.

Lemma split_nonempty : forall sep s, Str.split sep s <> [].
Proof.
  intros sep s; destruct s as [|c r]; simpl; [discriminate|].
  destruct (Ascii.eqb c sep); [discriminate|].
  destruct (Str.split sep r); discriminate.
Qed.

Lemma length_split : forall sep s,
  List.length (Str.split sep s) = S (occurrences sep s).
Proof.
  intros sep; induction s as [|c r IH]; simpl; [reflexivity|].
  destruct (Ascii.eqb c sep); simpl.
  - now rewrite IH.
  - rewrite length_consHead by apply split_nonempty. exact IH.
Qed.

(** X27.  The handling of the [T=] property of a kept entity throws
    exactly when its value holds fewer than two bars; the row is then
    lost with the whole parse, whose promise never resolves. *)
Theorem X27_transform_needs_two_bars :
  forall (toNumber : string -> float) (self : AcmiParser.t) (id : Id.t)
         (props : list string) (i : nat) (value : string),
    findIndex (fun prop => Str.startsWith prop "T=") props = Some i ->
    nth i props EmptyString = String "T" (String "=" value) ->
    (parseTransform toNumber self id props = None <-> occurrences "|" value < 2).
Proof.
  intros toNumber self id props i value Hi Hn.
  unfold parseTransform. rewrite Hi, Hn. simpl.
  pose proof (decodeCoords_none_iff toNumber (_refLong self) (_refLat self)
                (Scene.get id (Frame.scene (_currentFrame self)))
                (Str.split "|" value)) as D.
  rewrite length_split in D.
  destruct (decodeCoords _ _ _ _ _) as [t|].
  - split; [discriminate|]. intros H. assert (X : Some t = None) by (apply D; lia).
    discriminate.
  - split; [|reflexivity]. intros _. assert (X := proj1 D eq_refl). lia.
Qed.

(** X27 (witness): a value with one bar. *)
Lemma X27_transform_needs_two_bars_witness :
  parseTransform Host.toNumber AcmiParser.new Scenario.idA ["T=1|2"] = None
  <-> occurrences "|" "1|2" < 2.
Proof.
  apply (X27_transform_needs_two_bars Host.toNumber AcmiParser.new Scenario.idA
           ["T=1|2"] 0 "1|2"); reflexivity.
Defined.

(** ** What a parser carries from one parse to the next *)

(** X28.  Of the state a parser is in, [parse] reads the reference
    longitude and latitude only: two parsers that agree on them return
    the same data and end in the same state, whatever they parsed
    before. *)
Theorem X28_parse_reads_the_reference_point_only :
  forall (toNumber : string -> float) (dayjs : string -> Dj.Dayjs)
         (unzip : list byte -> option (list (list byte)))
         (self self' : AcmiParser.t) (data : list byte) (filter : option (list string)),
    _refLong self = _refLong self' ->
    _refLat self = _refLat self' ->
    parse toNumber dayjs unzip self data filter
    = parse toNumber dayjs unzip self' data filter.
Proof.
  intros toNumber dayjs unzip self self' data filter Lo La.
  unfold parse, resetForParse. now rewrite Lo, La.
Qed.

(** X28 (witness): a fresh parser and the parser that has parsed the
    removal scenario, which declares no reference point. *)
Lemma X28_parse_reads_the_reference_point_only_witness :
  exists d p,
    Host.parse Scenario.removal None = Some (d, p)
    /\ parse Host.toNumber Host.dayjs Host.unzip AcmiParser.new
             (list_byte_of_string Scenario.minimal) None
       = parse Host.toNumber Host.dayjs Host.unzip p
               (list_byte_of_string Scenario.minimal) None.
Proof.
  do 2 eexists. split; [vm_compute; reflexivity|].
  apply (X28_parse_reads_the_reference_point_only Host.toNumber Host.dayjs Host.unzip);
    vm_compute; reflexivity.
Defined.
